(** * ECD-extract: a model of the customs-declaration extractor

    The development follows the Python sources:
    - [ecd_format_detector.py]: the format classifier ([detect_format]);
    - [extract_ecd_generic.py]: the generic engine (section locator, header,
      sender, receiver and goods-item extractors, [extract_all], and the
      comparator [compare_with_expected]);
    - [extract_ecd_customs.py]: the reference-document part of the customs
      engine's goods-item extractor.

    Text is a sequence of Unicode code points.  What the interpreter's
    library decides (the character tables, case conversion, the parsing and
    comparison of floats) is collected in the class [PyLib]; the program is
    modelled over an arbitrary instance of it, so that nothing is assumed
    about those tables. *)

From Stdlib Require PrimFloat.
From Stdlib Require Import String Ascii DecimalString.
From Stdlib Require Import ZArith NArith Bool Lia List.
Import ListNotations.

Set Implicit Arguments.
Open Scope string_scope.
Open Scope list_scope.

(** ** Python strings *)

(** A [str] is a list of code points. *)
Definition pystr : Type := list N.

Definition cont_bits (a : ascii) : N := N.land (N_of_ascii a) 63.

(** String literals of this file are written as in the sources; [u] decodes
    the UTF-8 bytes of a literal into code points. *)
Fixpoint u (s : string) : pystr :=
  match s with
  | EmptyString => []
  | String a r =>
    let b := N_of_ascii a in
    if (b <? 128)%N then b :: u r
    else if (b <? 224)%N then
      match r with
      | String a1 r1 => (N.land b 31 * 64 + cont_bits a1)%N :: u r1
      | _ => [b]
      end
    else if (b <? 240)%N then
      match r with
      | String a1 (String a2 r2) =>
        ((N.land b 15 * 64 + cont_bits a1) * 64 + cont_bits a2)%N :: u r2
      | _ => [b]
      end
    else
      match r with
      | String a1 (String a2 (String a3 r3)) =>
        (((N.land b 7 * 64 + cont_bits a1) * 64 + cont_bits a2) * 64
         + cont_bits a3)%N :: u r3
      | _ => [b]
      end
  end.

Fixpoint str_eqb (a b : pystr) : bool :=
  match a, b with
  | [], [] => true
  | x :: a', y :: b' => (x =? y)%N && str_eqb a' b'
  | _, _ => false
  end.

(** [s.startswith(p)] *)
Fixpoint startswith (p s : pystr) : bool :=
  match p, s with
  | [], _ => true
  | x :: p', y :: s' => (x =? y)%N && startswith p' s'
  | _ :: _, [] => false
  end.

(** [p in s] for strings *)
Fixpoint contains (p s : pystr) : bool :=
  startswith p s || match s with [] => false | _ :: s' => contains p s' end.

(** [s in [a, b, ...]] for a list of strings *)
Definition str_in (s : pystr) (l : list pystr) : bool := existsb (str_eqb s) l.

(** Truth value of a string: non-empty. *)
Definition truthy (s : pystr) : bool := match s with [] => false | _ => true end.

(** [sep.join(parts)] *)
Fixpoint join (sep : pystr) (parts : list pystr) : pystr :=
  match parts with
  | [] => []
  | [p] => p
  | p :: rest => p ++ sep ++ join sep rest
  end.

(** [s.split(c)[-1]]: what follows the last occurrence of [c]. *)
Fixpoint last_field (c : N) (s : pystr) : pystr :=
  match s with
  | [] => []
  | x :: s' => if existsb (N.eqb c) s' then last_field c s'
               else if (x =? c)%N then s' else s
  end.

(** [s.replace(a, b)] for single characters *)
Definition replace_chr (a b : N) (s : pystr) : pystr :=
  map (fun x => if (x =? a)%N then b else x) s.

(** [str(n)] for an integer *)
Definition str_of_N (n : N) : pystr :=
  map N_of_ascii (list_ascii_of_string (NilEmpty.string_of_uint (N.to_uint n))).

Definition str_of_Z (z : Z) : pystr :=
  match z with
  | Zneg p => 45%N :: str_of_N (Npos p)
  | _ => str_of_N (Z.to_N z)
  end.

(** ** The interpreter's library *)

Class PyLib : Type := {
  (** [Py_UNICODE_ISSPACE]: what [str.strip] removes and [\s] matches *)
  uni_isspace : N -> bool;
  (** [Py_UNICODE_ISDIGIT]: the characters [str.isdigit] accepts *)
  uni_isdigit : N -> bool;
  (** [Py_UNICODE_TODECIMAL]: the decimal digits ([\d], [int]) and their values *)
  uni_decimal : N -> option Z;
  (** [Py_UNICODE_ISALNUM]: with the underscore, the characters of [\w] *)
  uni_isalnum : N -> bool;
  (** comparison of a pattern literal with a character under [re.IGNORECASE] *)
  uni_ieq : N -> N -> bool;
  (** [str.lower] *)
  str_lower : pystr -> pystr;
  (** floats: the type, [float(s)] ([None] for [ValueError]), [==] between
      floats and between a float and an integer *)
  pyfloat : Type;
  float_of_str : pystr -> option pyfloat;
  float_eqb : pyfloat -> pyfloat -> bool;
  float_eq_int : pyfloat -> Z -> bool
}.

(** *** A small instance, for running the model

    Basic Latin, the Latin-1 supplement and the Cyrillic alphabet, the
    repertoire of the declarations, and binary64 floats. *)

Definition in_range (lo hi c : N) : bool := ((lo <=? c) && (c <=? hi))%N.

Definition sample_isspace (c : N) : bool :=
  in_range 9 13 c || in_range 28 32 c || (c =? 133)%N || (c =? 160)%N.

Definition sample_decimal (c : N) : option Z :=
  if in_range 48 57 c then Some (Z.of_N c - 48)%Z else None.

(** The superscripts U+00B2, U+00B3 and U+00B9 are digits without being
    decimal digits. *)
Definition sample_isdigit (c : N) : bool :=
  in_range 48 57 c || (c =? 178)%N || (c =? 179)%N || (c =? 185)%N.

Definition sample_isalnum (c : N) : bool :=
  in_range 48 57 c || in_range 65 90 c || in_range 97 122 c
  || (c =? 170)%N || (c =? 178)%N || (c =? 179)%N || (c =? 181)%N
  || in_range 185 186 c || in_range 188 190 c
  || in_range 192 214 c || in_range 216 246 c || in_range 248 255 c
  || in_range 1024 1153 c || in_range 1162 1327 c.

Definition sample_lower_chr (c : N) : N :=
  if in_range 65 90 c then (c + 32)%N
  else if in_range 192 214 c || in_range 216 222 c then (c + 32)%N
  else if in_range 1024 1039 c then (c + 80)%N
  else if in_range 1040 1071 c then (c + 32)%N
  else c.

Definition sample_lower (s : pystr) : pystr := map sample_lower_chr s.

Definition sample_ieq (a b : N) : bool :=
  (sample_lower_chr a =? sample_lower_chr b)%N.

(** An integer as a float, exact below 2^53. *)
Fixpoint float_of_pos (p : positive) : PrimFloat.float :=
  match p with
  | xH => PrimFloat.one
  | xO q => PrimFloat.mul PrimFloat.two (float_of_pos q)
  | xI q => PrimFloat.add (PrimFloat.mul PrimFloat.two (float_of_pos q))
                          PrimFloat.one
  end.

Definition float_of_Z (z : Z) : PrimFloat.float :=
  match z with
  | Z0 => PrimFloat.zero
  | Zpos p => float_of_pos p
  | Zneg p => PrimFloat.opp (float_of_pos p)
  end.

Definition float_of_digits (ds : list N) : PrimFloat.float :=
  fold_left (fun acc d => PrimFloat.add (PrimFloat.mul acc (float_of_Z 10))
                            (float_of_Z (Z.of_N d - 48)))
            ds PrimFloat.zero.

Definition pow10 (n : nat) : PrimFloat.float :=
  Nat.iter n (fun x => PrimFloat.mul x (float_of_Z 10)) PrimFloat.one.

(** [float] of the literals [nan], [inf] and of short unsigned decimals
    [ddd] or [ddd.ddd] (at most fifteen digits, which binary64 rounds
    correctly through one division); anything else is refused. *)
Definition sample_float_of_str (s : pystr) : option PrimFloat.float :=
  if str_eqb s (u "nan") then Some PrimFloat.nan
  else if str_eqb s (u "inf") then Some PrimFloat.infinity
  else
    let dot := existsb (N.eqb 46) s in
    let fp := if dot then last_field 46 s else [] in
    let ip := if dot then firstn (length s - length fp - 1) s else s in
    if forallb (in_range 48 57) (ip ++ fp)
       && negb (Nat.eqb (length (ip ++ fp)) 0)
       && Nat.leb (length (ip ++ fp)) 15
    then Some (PrimFloat.div (float_of_digits (ip ++ fp)) (pow10 (length fp)))
    else None.

Definition sample_float_eq_int (f : PrimFloat.float) (z : Z) : bool :=
  if (9007199254740992 >? Z.abs z)%Z then PrimFloat.eqb f (float_of_Z z)
  else false.

Definition sample_lib : PyLib := {|
  uni_isspace := sample_isspace;
  uni_isdigit := sample_isdigit;
  uni_decimal := sample_decimal;
  uni_isalnum := sample_isalnum;
  uni_ieq := sample_ieq;
  str_lower := sample_lower;
  pyfloat := PrimFloat.float;
  float_of_str := sample_float_of_str;
  float_eqb := PrimFloat.eqb;
  float_eq_int := sample_float_eq_int
|}.

(** ** String methods that consult the character tables *)

Section StrMethods.
Context {L : PyLib}.

Fixpoint lstrip (s : pystr) : pystr :=
  match s with
  | c :: s' => if uni_isspace c then lstrip s' else s
  | [] => []
  end.

(** [s.strip()] *)
Definition strip (s : pystr) : pystr := rev (lstrip (rev (lstrip s))).

(** [s.isdigit()] *)
Definition isdigit (s : pystr) : bool := truthy s && forallb uni_isdigit s.

Definition is_decimal (c : N) : bool :=
  match uni_decimal c with Some _ => true | None => false end.

Fixpoint int_digits (acc : Z) (s : pystr) : option Z :=
  match s with
  | [] => Some acc
  | c :: s' =>
    match uni_decimal c with
    | Some d => int_digits (acc * 10 + d) s'
    | None => None
    end
  end.

(** [int(s)] on a string that passed [isdigit]: the value when every
    character is a decimal digit, [None] ([ValueError]) otherwise.  (The
    interpreter's configurable limit on the number of digits is not
    modelled.) *)
Definition py_int (s : pystr) : option Z :=
  if truthy s then int_digits 0 s else None.

Definition is_word (c : N) : bool := uni_isalnum c || (c =? 95)%N.

End StrMethods.

(** ** Regular expressions

    The patterns of the sources repeat single characters only, so the
    abstract syntax has a repetition of a character class; the matcher is a
    backtracking one, greedy and leftmost as [re]'s. *)

Inductive regex : Type :=
| Eps
| Chr (p : N -> bool)
| Rep (p : N -> bool) (lo : nat) (hi : option nat)
| Bol
| Eol
| Wordb
| Cat (r1 r2 : regex)
| Alt (r1 r2 : regex)
| Grp (n : nat) (r : regex).

Record cursor : Type := Cursor {
  c_pos : nat;
  c_prev : option N;
  c_rest : pystr
}.

Definition groups : Type := list (nat * pystr).

Record rematch : Type := Rematch {
  m_start : nat;
  m_end : nat;
  m_groups : groups;
  m_tail : cursor
}.

Fixpoint group_of (n : nat) (g : groups) : pystr :=
  match g with
  | [] => []
  | (k, s) :: g' => if Nat.eqb k n then s else group_of n g'
  end.

(** [m.group(n)] *)
Definition group (n : nat) (m : rematch) : pystr := group_of n (m_groups m).

Definition lit_with (eq : N -> N -> bool) (s : pystr) : regex :=
  fold_right (fun c r => Cat (Chr (eq c)) r) Eps s.

(** a literal, and a sequence of parts *)
Definition lit (s : string) : regex := lit_with N.eqb (u s).
Definition seq_re (rs : list regex) : regex := fold_right Cat Eps rs.

Definition upper_AZ : N -> bool := in_range 65 90.
Definition rep1 (p : N -> bool) : regex := Rep p 1 None.
Definition rep0 (p : N -> bool) : regex := Rep p 0 None.
Definition exactly (n : nat) (p : N -> bool) : regex := Rep p n (Some n).
Definition from_to (lo hi : nat) (p : N -> bool) : regex := Rep p lo (Some hi).
Definition opt (r : regex) : regex := Alt r Eps.

Section Matcher.
Context {L : PyLib}.
Variable R : Type.

Fixpoint rep (p : N -> bool) (rest : pystr) (pos : nat) (prev : option N)
         (lo : nat) (hi : option nat) (k : cursor -> option R) : option R :=
  let stop := match lo with O => k (Cursor pos prev rest) | S _ => None end in
  match rest with
  | c :: rest' =>
    if p c && match hi with Some O => false | _ => true end then
      match rep p rest' (S pos) (Some c) (Nat.pred lo) (option_map Nat.pred hi) k with
      | Some r => Some r
      | None => stop
      end
    else stop
  | [] => stop
  end.

Definition word_at (o : option N) : bool :=
  match o with Some c => is_word c | None => false end.

Fixpoint rmatch (r : regex) (c : cursor) (g : groups)
         (k : cursor -> groups -> option R) : option R :=
  match r with
  | Eps => k c g
  | Chr p =>
    match c_rest c with
    | x :: rest' => if p x then k (Cursor (S (c_pos c)) (Some x) rest') g else None
    | [] => None
    end
  | Rep p lo hi =>
    rep p (c_rest c) (c_pos c) (c_prev c) lo hi (fun c' => k c' g)
  | Bol => match c_pos c with O => k c g | S _ => None end
  | Eol =>
    match c_rest c with
    | [] => k c g
    | [x] => if (x =? 10)%N then k c g else None
    | _ => None
    end
  | Wordb =>
    if xorb (word_at (c_prev c)) (word_at (hd_error (c_rest c)))
    then k c g else None
  | Cat r1 r2 => rmatch r1 c g (fun c' g' => rmatch r2 c' g' k)
  | Alt r1 r2 =>
    match rmatch r1 c g k with
    | Some x => Some x
    | None => rmatch r2 c g k
    end
  | Grp n r1 =>
    rmatch r1 c g
      (fun c' g' => k c' ((n, firstn (c_pos c' - c_pos c) (c_rest c)) :: g'))
  end.

End Matcher.

Section Search.
Context {L : PyLib}.

Definition match_at (r : regex) (c : cursor) : option rematch :=
  rmatch r c [] (fun c' g => Some (Rematch (c_pos c) (c_pos c') g c')).

(** [re.match(r, s)] *)
Definition re_match (r : regex) (s : pystr) : option rematch :=
  match_at r (Cursor 0 None s).

Fixpoint search_from (r : regex) (pos : nat) (prev : option N) (rest : pystr)
  : option rematch :=
  match match_at r (Cursor pos prev rest) with
  | Some m => Some m
  | None =>
    match rest with
    | [] => None
    | x :: rest' => search_from r (S pos) (Some x) rest'
    end
  end.

(** [re.search(r, s)] *)
Definition re_search (r : regex) (s : pystr) : option rematch :=
  search_from r 0 None s.

Definition step_cursor (c : cursor) : option cursor :=
  match c_rest c with
  | [] => None
  | x :: rest' => Some (Cursor (S (c_pos c)) (Some x) rest')
  end.

Fixpoint finditer_from (fuel : nat) (r : regex) (c : cursor) : list rematch :=
  match fuel with
  | O => []
  | S fuel' =>
    match search_from r (c_pos c) (c_prev c) (c_rest c) with
    | None => []
    | Some m =>
      m :: (if Nat.ltb (m_start m) (m_end m)
            then finditer_from fuel' r (m_tail m)
            else match step_cursor (m_tail m) with
                 | Some c' => finditer_from fuel' r c'
                 | None => []
                 end)
    end
  end.

(** [re.finditer(r, s)], the matches from left to right.  (The patterns
    used with it never match the empty string.) *)
Definition re_finditer (r : regex) (s : pystr) : list rematch :=
  finditer_from (S (length s)) r (Cursor 0 None s).

Fixpoint splice (ms : list rematch) (pos : nat) (s repl : pystr) : pystr :=
  match ms with
  | [] => s
  | m :: ms' =>
    firstn (m_start m - pos) s ++ repl
    ++ splice ms' (m_end m) (skipn (m_end m - pos) s) repl
  end.

(** [re.sub(r, repl, s)] for a replacement without group references *)
Definition re_sub (r : regex) (repl s : pystr) : pystr :=
  splice (re_finditer r s) 0 s repl.

Definition matches (r : regex) (s : pystr) : bool :=
  match re_match r s with Some _ => true | None => false end.

Definition found (r : regex) (s : pystr) : bool :=
  match re_search r s with Some _ => true | None => false end.

(** the classes [\d], [\s], [\w] *)
Definition cls_d : N -> bool := is_decimal.
Definition cls_s : N -> bool := uni_isspace.
Definition cls_w : N -> bool := is_word.

End Search.

(** ** The format classifier ([ecd_format_detector.py]) *)

Inductive ECDFormat : Type := STANDARD | CUSTOMS | UNKNOWN.

Section Detector.
Context {L : PyLib}.

(** a literal matched under [re.IGNORECASE] *)
Definition lit_i (s : string) : regex := lit_with uni_ieq (u s).

(** [r'7\s+референтен број\s+[\w\d]+/\d{4}'], compiled with [re.IGNORECASE] *)
Definition ref_pattern : regex :=
  seq_re [lit_i "7"; rep1 cls_s; lit_i "референтен број"; rep1 cls_s;
          rep1 (fun c => cls_w c || cls_d c); lit_i "/"; exactly 4 cls_d].

(** [r'LRN\s*:\s*\d{2}MK'] *)
Definition lrn_pattern : regex :=
  seq_re [lit "LRN"; rep0 cls_s; lit ":"; rep0 cls_s; exactly 2 cls_d; lit "MK"].

(** [r'РДБ\s+\d'] *)
Definition rdb_pattern : regex := seq_re [lit "РДБ"; rep1 cls_s; Chr cls_d].

(** The four tests of each variant, in the order of the source. *)
Definition customs_check1 (text : pystr) : bool :=
  contains (u "Consignor/Exporter") text || contains (u "Consignor / Exporter") text.
Definition customs_check2 (text : pystr) : bool :=
  contains (u "РБД") text && negb (contains (u "РДБ") text).
Definition customs_check3 (text : pystr) : bool := found ref_pattern text.
Definition customs_check4 (text : pystr) : bool :=
  contains (u "Ознаки и броеви - Број на контејнер") text.

Definition standard_check1 (text : pystr) : bool :=
  contains (u "Испраќач/Извозник") text || contains (u "Испраќач / Извозник") text.
Definition standard_check2 (text : pystr) : bool := found lrn_pattern text.
Definition standard_check3 (text : pystr) : bool := found rdb_pattern text.
Definition standard_check4 (text : pystr) : bool :=
  contains (u "тов.лист") (str_lower text)
  || contains (u "товарен лист") (str_lower text).

Definition customs_indicators (text : pystr) : nat :=
  let n := 0 in
  let n := if customs_check1 text then n + 2 else n in
  let n := if customs_check2 text then n + 1 else n in
  let n := if customs_check3 text then n + 2 else n in
  let n := if customs_check4 text then n + 1 else n in
  n.

Definition standard_indicators (text : pystr) : nat :=
  let n := 0 in
  let n := if standard_check1 text then n + 2 else n in
  let n := if standard_check2 text then n + 2 else n in
  let n := if standard_check3 text then n + 1 else n in
  let n := if standard_check4 text then n + 1 else n in
  n.

(** [detect_format] on the text sample (the text after
    [extract_text_sample]); an empty sample is [UNKNOWN] at once. *)
Definition detect_format (text : pystr) : ECDFormat :=
  if negb (truthy text) then UNKNOWN
  else
    let customs_indicators := customs_indicators text in
    let standard_indicators := standard_indicators text in
    if Nat.ltb standard_indicators customs_indicators
       && Nat.leb 2 customs_indicators then CUSTOMS
    else if Nat.ltb customs_indicators standard_indicators
            && Nat.leb 2 standard_indicators then STANDARD
    else UNKNOWN.

Definition customs_checks (text : pystr) : list bool :=
  [customs_check1 text; customs_check2 text; customs_check3 text; customs_check4 text].

Definition standard_checks (text : pystr) : list bool :=
  [standard_check1 text; standard_check2 text; standard_check3 text;
   standard_check4 text].

End Detector.

(** [fs'] is [fs] with one more test matched. *)
Definition one_more (fs fs' : list bool) : Prop :=
  exists a b, fs = a ++ false :: b /\ fs' = a ++ true :: b.

(** How far a decision leans to the customs variant. *)
Definition customs_lean (f : ECDFormat) : nat :=
  match f with STANDARD => 0 | UNKNOWN => 1 | CUSTOMS => 2 end.

(** ** Exceptions and loops *)

Inductive exn : Type := ValueError | IndexError | TypeError | KeyError.

Inductive outcome (A : Type) : Type :=
| Ok (a : A)
| Raise (e : exn).

Arguments Ok {A} a.
Arguments Raise {A} e.

Definition bind {A B : Type} (m : outcome A) (k : A -> outcome B) : outcome B :=
  match m with
  | Ok a => k a
  | Raise e => Raise e
  end.

Notation "x <- m ;; k" := (bind m (fun x => k))
  (at level 61, m at next level, right associativity).
Notation "' p <- m ;; k" := (bind m (fun x => match x with p => k end))
  (at level 61, p pattern, m at next level, right associativity).

(** What one turn of a loop body says: go on, or [break]. *)
Inductive ctl (S : Type) : Type :=
| Next (s : S)
| Break (s : S).

Arguments Next {S} s.
Arguments Break {S} s.

(** [for x in xs: body], threading the state the body updates. *)
Fixpoint for_each {A S : Type} (xs : list A) (body : A -> S -> outcome (ctl S))
         (s : S) : outcome S :=
  match xs with
  | [] => Ok s
  | x :: xs' =>
    match body x s with
    | Ok (Next s') => for_each xs' body s'
    | Ok (Break s') => Ok s'
    | Raise e => Raise e
    end
  end.

(** [range(a, b)] and [range(a, b, -1)] *)
Definition range (a b : Z) : list Z :=
  map (fun k => (a + Z.of_nat k)%Z) (seq 0 (Z.to_nat (b - a))).

Definition range_down (a b : Z) : list Z :=
  map (fun k => (a - Z.of_nat k)%Z) (seq 0 (Z.to_nat (a - b))).

Definition zlen {A : Type} (l : list A) : Z := Z.of_nat (length l).

(** [enumerate(xs)] and [enumerate(xs, 1)] *)
Definition enumerate_from {A : Type} (start : Z) (xs : list A) : list (Z * A) :=
  combine (range start (start + zlen xs)) xs.

Definition enumerate {A : Type} (xs : list A) : list (Z * A) := enumerate_from 0 xs.

(** [xs[i]]: negative indices count from the end, and an index outside the
    list raises [IndexError]. *)
Definition getitem {A : Type} (xs : list A) (i : Z) : outcome A :=
  let j := if (i <? 0)%Z then (i + zlen xs)%Z else i in
  if (j <? 0)%Z then Raise IndexError
  else match nth_error xs (Z.to_nat j) with
       | Some x => Ok x
       | None => Raise IndexError
       end.

(** ** Values and dictionaries *)

(** A dictionary keeps its keys in insertion order. *)
Definition pydict (V : Type) : Type := list (pystr * V).

Fixpoint dict_get {V : Type} (k : pystr) (d : pydict V) : option V :=
  match d with
  | [] => None
  | (k', v) :: d' => if str_eqb k k' then Some v else dict_get k d'
  end.

(** [k in d] *)
Definition dict_has {V : Type} (k : pystr) (d : pydict V) : bool :=
  match dict_get k d with Some _ => true | None => false end.

(** [d[k] = v] *)
Fixpoint dict_set {V : Type} (k : pystr) (v : V) (d : pydict V) : pydict V :=
  match d with
  | [] => [(k, v)]
  | (k', v') :: d' =>
    if str_eqb k k' then (k', v) :: d' else (k', v') :: dict_set k v d'
  end.

Section Values.
Context {L : PyLib}.

(** The values of a record: what [json] reads and writes. *)
Unset Elimination Schemes.
Inductive value : Type :=
| VNone
| VBool (b : bool)
| VInt (z : Z)
| VFloat (f : pyfloat)
| VStr (s : pystr)
| VList (l : list value)
| VDict (d : list (pystr * value)).
Set Elimination Schemes.

Definition dict : Type := pydict value.

Definition int_of_bool (b : bool) : Z := if b then 1%Z else 0%Z.

(** [a == e] when [e] is neither a dictionary nor a list *)
Definition leaf_eq (a e : value) : bool :=
  match a, e with
  | VNone, VNone => true
  | VBool x, VBool y => Bool.eqb x y
  | VBool x, VInt y => (int_of_bool x =? y)%Z
  | VInt x, VBool y => (x =? int_of_bool y)%Z
  | VInt x, VInt y => (x =? y)%Z
  | VFloat x, VFloat y => float_eqb x y
  | VFloat x, VInt y => float_eq_int x y
  | VInt x, VFloat y => float_eq_int y x
  | VFloat x, VBool y => float_eq_int x (int_of_bool y)
  | VBool x, VFloat y => float_eq_int y (int_of_bool x)
  | VStr x, VStr y => str_eqb x y
  | _, _ => false
  end.

(** ** The comparator ([compare_with_expected]) *)

Inductive difference : Type :=
| Missing (path : pystr)
| Length (path : pystr) (extracted expected : nat)
| Differs (path : pystr) (extracted expected : value).

Record report : Type := Report {
  differences : list difference;
  matches_ : list pystr
}.

Definition add_difference (d : difference) (r : report) : report :=
  Report (differences r ++ [d]) (matches_ r).

Definition add_match (path : pystr) (r : report) : report :=
  Report (differences r) (matches_ r ++ [path]).

(** [key not in actual], for whatever [actual] is *)
Definition key_in (key : pystr) (actual : value) : outcome bool :=
  match actual with
  | VDict d => Ok (dict_has key d)
  | VStr s => Ok (contains key s)
  | VList l => Ok (existsb (fun x => leaf_eq x (VStr key)) l)
  | _ => Raise TypeError
  end.

(** [actual[key]] with a string key *)
Definition subscript (actual : value) (key : pystr) : outcome value :=
  match actual with
  | VDict d => match dict_get key d with Some v => Ok v | None => Raise KeyError end
  | _ => Raise TypeError
  end.

(** [len(actual)] and what iterating over [actual] yields *)
Definition py_len (actual : value) : outcome nat :=
  match actual with
  | VList l => Ok (length l)
  | VStr s => Ok (length s)
  | VDict d => Ok (length d)
  | _ => Raise TypeError
  end.

Definition py_iter (actual : value) : list value :=
  match actual with
  | VList l => l
  | VStr s => map (fun c => VStr [c]) s
  | VDict d => map (fun kv => VStr (fst kv)) d
  | _ => []
  end.

Definition key_path (path key : pystr) : pystr :=
  if truthy path then path ++ u "." ++ key else key.

Definition index_path (path : pystr) (i : nat) : pystr :=
  path ++ u "[" ++ str_of_N (N.of_nat i) ++ u "]".

(** The two loops of [compare_dict], over the keys of an expected
    dictionary and over the zipped elements of an expected list; [cmp] is
    the recursive call. *)
Section CompareLoops.
Variable cmp : pystr -> value -> value -> report -> outcome report.

Fixpoint compare_keys (path : pystr) (actual : value)
         (ed : list (pystr * value)) (r : report) : outcome report :=
  match ed with
  | [] => Ok r
  | (key, ev) :: ed' =>
    let new_path := key_path path key in
    present <- key_in key actual ;;
    if negb present
    then compare_keys path actual ed' (add_difference (Missing new_path) r)
    else
      av <- subscript actual key ;;
      r' <- cmp new_path av ev r ;;
      compare_keys path actual ed' r'
  end.

Fixpoint compare_elems (path : pystr) (i : nat) (al el : list value)
         (r : report) {struct el} : outcome report :=
  match al, el with
  | a :: al', e :: el' =>
    r' <- cmp (index_path path i) a e r ;;
    compare_elems path (S i) al' el' r'
  | _, _ => Ok r
  end.

End CompareLoops.

(** The inner function [compare_dict]; [differences] and [matches], the two
    lists it appends to, are the report it threads. *)
Fixpoint compare_dict (path : pystr) (actual expected : value) (r : report)
         {struct expected} : outcome report :=
  match expected with
  | VDict ed => compare_keys compare_dict path actual ed r
  | VList el =>
    n <- py_len actual ;;
    let r := if negb (Nat.eqb n (length el))
             then add_difference (Length path n (length el)) r else r in
    compare_elems compare_dict path 0 (py_iter actual) el r
  | _ =>
    if negb (leaf_eq actual expected)
    then Ok (add_difference (Differs path actual expected) r)
    else Ok (add_match path r)
  end.

(** [compare_with_expected], on the expected record as loaded; the method
    returns [is_correct] of this report. *)
Definition compare_with_expected (data expected : value) : outcome report :=
  compare_dict [] data expected (Report [] []).

Definition is_correct (r : report) : bool := Nat.eqb (length (differences r)) 0.

(** The leaves of a value: what is neither a dictionary nor a list. *)
Fixpoint leaves (v : value) : nat :=
  match v with
  | VDict d => fold_right (fun kv n => leaves (snd kv) + n) 0 d
  | VList l => fold_right (fun x n => leaves x + n) 0 l
  | _ => 1
  end.

Fixpoint no_dup_keys (ks : list pystr) : bool :=
  match ks with
  | [] => true
  | k :: ks' => negb (str_in k ks') && no_dup_keys ks'
  end.

(** A dictionary holds a key once, at every depth. *)
Fixpoint well_formed (v : value) : bool :=
  match v with
  | VDict d => no_dup_keys (map fst d)
               && forallb (fun kv => well_formed (snd kv)) d
  | VList l => forallb well_formed l
  | _ => true
  end.

(** No float of the value is a NaN (a float that differs from itself). *)
Fixpoint nan_free (v : value) : bool :=
  match v with
  | VFloat f => float_eqb f f
  | VDict d => forallb (fun kv => nan_free (snd kv)) d
  | VList l => forallb nan_free l
  | _ => true
  end.

End Values.

(** ** The generic engine ([extract_ecd_generic.py]) *)

Section Generic.
Context {L : PyLib}.

(** *** The record under construction *)

Record package : Type := Package {
  KinOfPacGS23 : pystr;
  NumOfPacGS24 : pystr;
  MarNumOfPacGS21 : option pystr
}.

Record document : Type := Document {
  DocTypDC21 : pystr;
  DocRefDC23 : pystr
}.

(** A goods item is created with its seven keys and keeps them; the
    commodity code is the one entry of [COMCODGODITM]. *)
Record goods_item : Type := GoodsItem {
  IteNumGDS7 : pystr;
  GroMasGDS46 : option pyfloat;
  GooDesGDS23 : pystr;
  UNDanGooCodGDI1 : option pystr;
  ComNomCMD1 : pystr;
  PACGS2 : list package;
  PRODOCDC2 : list document
}.

Definition set_GroMasGDS46 (m : pyfloat) (it : goods_item) : goods_item :=
  GoodsItem (IteNumGDS7 it) (Some m) (GooDesGDS23 it) (UNDanGooCodGDI1 it)
            (ComNomCMD1 it) (PACGS2 it) (PRODOCDC2 it).

Definition set_GooDesGDS23 (d : pystr) (it : goods_item) : goods_item :=
  GoodsItem (IteNumGDS7 it) (GroMasGDS46 it) d (UNDanGooCodGDI1 it)
            (ComNomCMD1 it) (PACGS2 it) (PRODOCDC2 it).

Definition append_PACGS2 (p : package) (it : goods_item) : goods_item :=
  GoodsItem (IteNumGDS7 it) (GroMasGDS46 it) (GooDesGDS23 it)
            (UNDanGooCodGDI1 it) (ComNomCMD1 it) (PACGS2 it ++ [p])
            (PRODOCDC2 it).

Definition append_PRODOCDC2 (d : document) (it : goods_item) : goods_item :=
  GoodsItem (IteNumGDS7 it) (GroMasGDS46 it) (GooDesGDS23 it)
            (UNDanGooCodGDI1 it) (ComNomCMD1 it) (PACGS2 it)
            (PRODOCDC2 it ++ [d]).

(** The state of an [ECDExtractorGeneric]: the lines, the section offset
    and the five entries of [self.data]. *)
Record ECDExtractorGeneric : Type := Extractor {
  lines : list pystr;
  data_start_index : Z;
  HEAHEA : dict;
  TRAEXPEX1 : dict;
  TRACONCE1 : dict;
  SEAINFSLI : value;
  GOOITEGDS : list goods_item
}.

(** [__init__] *)
Definition init : ECDExtractorGeneric :=
  Extractor [] (-1) [] [] []
    (VDict [(u "SeaNumSLI2", VNone);
            (u "SEAIDSID", VList [VDict [(u "SeaIdeSID1", VStr (u ""))]])])
    [].

Definition value_of_opt_str (o : option pystr) : value :=
  match o with Some s => VStr s | None => VNone end.

Definition value_of_package (p : package) : value :=
  VDict [(u "KinOfPacGS23", VStr (KinOfPacGS23 p));
         (u "NumOfPacGS24", VStr (NumOfPacGS24 p));
         (u "MarNumOfPacGS21", value_of_opt_str (MarNumOfPacGS21 p))].

Definition value_of_document (d : document) : value :=
  VDict [(u "DocTypDC21", VStr (DocTypDC21 d));
         (u "DocRefDC23", VStr (DocRefDC23 d))].

Definition value_of_item (it : goods_item) : value :=
  VDict [(u "IteNumGDS7", VStr (IteNumGDS7 it));
         (u "GroMasGDS46",
          match GroMasGDS46 it with Some m => VFloat m | None => VNone end);
         (u "GooDesGDS23", VStr (GooDesGDS23 it));
         (u "UNDanGooCodGDI1", value_of_opt_str (UNDanGooCodGDI1 it));
         (u "COMCODGODITM", VDict [(u "ComNomCMD1", VStr (ComNomCMD1 it))]);
         (u "PACGS2", VList (map value_of_package (PACGS2 it)));
         (u "PRODOCDC2", VList (map value_of_document (PRODOCDC2 it)))].

(** [self.data], the record returned and written out *)
Definition data (self : ECDExtractorGeneric) : value :=
  VDict [(u "HEAHEA", VDict (HEAHEA self));
         (u "TRAEXPEX1", VDict (TRAEXPEX1 self));
         (u "TRACONCE1", VDict (TRACONCE1 self));
         (u "SEAINFSLI", SEAINFSLI self);
         (u "GOOITEGDS", VList (map value_of_item (GOOITEGDS self)))].

(** *** Patterns *)

(** [r'^(EX|IM)[A-Z]{2}$'] and [r'\b(EX|IM)[A-Z]{2}\b'] *)
Definition declaration_line : regex :=
  seq_re [Bol; Grp 1 (Alt (lit "EX") (lit "IM")); exactly 2 upper_AZ; Eol].
Definition declaration_word : regex :=
  seq_re [Wordb; Grp 1 (Alt (lit "EX") (lit "IM")); exactly 2 upper_AZ; Wordb].

(** [r'^([A-Z]{2}\d{4}[A-Z]{2}(?:/[A-Z]{2}\d{4}[A-Z]{2})?)$'] *)
Definition registration : regex :=
  seq_re [exactly 2 upper_AZ; exactly 4 cls_d; exactly 2 upper_AZ].
Definition vehicle_pattern : regex :=
  seq_re [Bol; Grp 1 (seq_re [registration; opt (seq_re [lit "/"; registration])]);
          Eol].

(** [r'^[A-Z]{2}$'], [r'^[A-Z]{2,3}$'], [r'^\d{4}$'] *)
Definition two_letters : regex := seq_re [Bol; exactly 2 upper_AZ; Eol].
Definition two_or_three_letters : regex := seq_re [Bol; from_to 2 3 upper_AZ; Eol].
Definition four_digits : regex := seq_re [Bol; exactly 4 cls_d; Eol].

(** [r'^([A-Z]{2}\d{13})$'], [r'^\d{4,7}$'], [r'^[A-Z]{2}\d+$'] *)
Definition tin_pattern : regex :=
  seq_re [Bol; Grp 1 (seq_re [exactly 2 upper_AZ; exactly 13 cls_d]); Eol].
Definition reference_pattern : regex := seq_re [Bol; from_to 4 7 cls_d; Eol].
Definition foreign_tin : regex := seq_re [Bol; exactly 2 upper_AZ; rep1 cls_d; Eol].

(** [r'(\d{4,6})\s+([^\n]+)$'] *)
Definition postal_pattern : regex :=
  seq_re [Grp 1 (from_to 4 6 cls_d); rep1 cls_s;
          Grp 2 (rep1 (fun c => negb (c =? 10)%N)); Eol].

(** [r'^\d{8}$'], [r'-1\s+ком\.'], [r'(\w+)\(([^\)]+)\)'] *)
Definition commodity_pattern : regex := seq_re [Bol; exactly 8 cls_d; Eol].
Definition pieces_pattern : regex := seq_re [lit "-1"; rep1 cls_s; lit "ком."].
Definition doc_pattern : regex :=
  seq_re [Grp 1 (rep1 cls_w); lit "(";
          Grp 2 (rep1 (fun c => negb (c =? 41)%N)); lit ")"].

(** *** The section locator and the line accessors *)

Definition has_declaration_code (line : pystr) : bool :=
  matches declaration_line (strip line) || found declaration_word line.

Definition has_lrn (line : pystr) : bool :=
  contains (u "LRN :") line || contains (u "LRN:") line
  || contains (u "LRN ") line.

(** [find_data_section]: the value returned, which is also stored in
    [self.data_start_index]. *)
Definition find_data_section (lines : list pystr) : Z :=
  match find (fun il => has_declaration_code (snd il)) (enumerate lines) with
  | Some (i, _) => i
  | None =>
    match find (fun il => has_lrn (snd il)) (enumerate lines) with
    | Some (i, _) => Z.max 0 (i - 2)
    | None => 80%Z
    end
  end.

(** [get_line_safe] *)
Definition get_line_safe (lines : list pystr) (index : Z) : pystr :=
  if ((0 <=? index) && (index <? zlen lines))%Z
  then match nth_error lines (Z.to_nat index) with
       | Some l => strip l
       | None => []
       end
  else [].

Definition markers : list pystr := [u "а"; u "б"; u "в"; u "г"].

Fixpoint first_nonempty (lines : list pystr) (idxs : list Z)
  : outcome (Z * pystr) :=
  match idxs with
  | [] => Ok ((-1)%Z, [])
  | i :: idxs' =>
    l <- getitem lines i ;;
    let line := strip l in
    if truthy line && negb (str_in line markers) then Ok (i, line)
    else first_nonempty lines idxs'
  end.

(** [find_next_nonempty_line], the second definition of the class (the one
    in force) *)
Definition find_next_nonempty_line (lines : list pystr)
           (start_index max_search : Z) (backward : bool) : outcome (Z * pystr) :=
  if backward
  then first_nonempty lines
         (range_down start_index (Z.max 0 (start_index - max_search)))
  else first_nonempty lines
         (range start_index (Z.min (zlen lines) (start_index + max_search))).

(** [range(start, min(len(self.lines), start + n))] *)
Definition window (lines : list pystr) (start n : Z) : list Z :=
  range start (Z.min (zlen lines) (start + n)).

(** *** [extract_heahea] *)

(** Total gross mass: the number before [KGM]. *)
Definition heahea_total_gross_mass (lines : list pystr) (h : dict)
  : outcome dict :=
  for_each (enumerate lines)
    (fun il h =>
       let '(i, line) := il in
       if str_eqb (strip line) (u "KGM") then
         let mass_line := get_line_safe lines (i - 1) in
         if isdigit mass_line then
           match py_int mass_line with
           | Some n => Ok (Break (dict_set (u "TotGroMasHEA307") (VInt n) h))
           | None => Raise ValueError
           end
         else Ok (Break h)
       else Ok (Next h))
    h.

(** Identity and nationality of the means of transport. *)
Definition heahea_identity (lines : list pystr) (dsi : Z) (h : dict)
  : outcome dict :=
  for_each (window lines dsi 50)
    (fun i h =>
       l <- getitem lines i ;;
       let line := strip l in
       match re_match vehicle_pattern line with
       | Some m =>
         let h := dict_set (u "IdeOfMeaOfTraAtDHEA78") (VStr (group 1 m)) h in
         '(next_idx, next_line) <- find_next_nonempty_line lines (i + 1) 3 false ;;
         if truthy next_line && matches two_letters next_line
         then Ok (Break (dict_set (u "NatOfMeaOfTraCroHEA87") (VStr next_line) h))
         else Ok (Break h)
       | None => Ok (Next h)
       end)
    h.

Definition mode_digits : list pystr :=
  [u "1"; u "2"; u "3"; u "4"; u "5"; u "6"; u "7"; u "8"; u "9"].

(** Mode of transport at the border: the last candidate found. *)
Definition heahea_mode (lines : list pystr) (dsi : Z) (h : dict)
  : outcome dict :=
  mode_candidates <-
    for_each (window lines dsi 50)
      (fun i mode_candidates =>
         l <- getitem lines i ;;
         let line := strip l in
         if str_in line mode_digits then
           let prev_line := get_line_safe lines (i - 1) in
           let next_line := get_line_safe lines (i + 1) in
           if matches two_or_three_letters prev_line
              || contains (u "EUR") next_line || contains (u "USD") next_line
           then Ok (Next (mode_candidates ++ [line]))
           else Ok (Next mode_candidates)
         else Ok (Next mode_candidates))
      [] ;;
  match rev mode_candidates with
  | m :: _ => Ok (dict_set (u "TraModAtBorHEA76") (VStr m) h)
  | [] => Ok h
  end.

(** Country of dispatch. *)
Definition heahea_dispatch (lines : list pystr) (dsi : Z) (h : dict)
  : outcome dict :=
  for_each (window lines dsi 50)
    (fun i h =>
       l <- getitem lines i ;;
       let line := strip l in
       if contains (u "СЕВЕРНА МАКЕДОНИЈА") line
          || contains (u "МАКЕДОНИЈА") line || contains (u "MACEDONIA") line
       then
         '(next_idx, next_line) <- find_next_nonempty_line lines (i + 1) 3 false ;;
         if truthy next_line && matches two_letters next_line
         then Ok (Break (dict_set (u "CouOfDisCodHEA55") (VStr next_line) h))
         else Ok (Next h)
       else if str_eqb line (u "MK") && (dsi + 15 <? i)%Z then
         let prev_line := get_line_safe lines (i - 1) in
         if negb (startswith (u "MK") prev_line) && negb (isdigit prev_line) then
           if negb (dict_has (u "CouOfDisCodHEA55") h)
           then Ok (Next (dict_set (u "CouOfDisCodHEA55") (VStr line) h))
           else Ok (Next h)
         else Ok (Next h)
       else Ok (Next h))
    h.

Definition country_names : list pystr :=
  [u "ФРАНЦИЈА"; u "ГЕРМАНИЈА"; u "ФРАНЦЕ"; u "FRANCE"; u "GERMANY";
   u "ITALIA"; u "ИТАЛИЈА"].

(** Country of destination: three nested loops, each left once the key is
    set. *)
Definition heahea_destination (lines : list pystr) (dsi : Z) (h : dict)
  : outcome dict :=
  for_each (window lines dsi 50)
    (fun i h =>
       l <- getitem lines i ;;
       let line := strip l in
       h <- for_each country_names
              (fun country h =>
                 if contains country line then
                   h <- for_each (range (i + 1) (Z.min (zlen lines) (i + 5)))
                          (fun j h =>
                             cl <- getitem lines j ;;
                             let code_line := strip cl in
                             if matches two_letters code_line
                                && negb (str_eqb code_line (u "MK"))
                             then Ok (Break (dict_set (u "CouOfDesCodHEA30")
                                                      (VStr code_line) h))
                             else Ok (Next h))
                          h ;;
                   if dict_has (u "CouOfDesCodHEA30") h then Ok (Break h)
                   else Ok (Next h)
                 else Ok (Next h))
              h ;;
       if dict_has (u "CouOfDesCodHEA30") h then Ok (Break h) else Ok (Next h))
    h.

Definition delivery_terms : list pystr :=
  [u "CPT"; u "CIF"; u "FOB"; u "EXW"; u "FCA"; u "DAP"].

(** Container indicator. *)
Definition heahea_container (lines : list pystr) (dsi : Z) (h : dict)
  : outcome dict :=
  for_each (window lines dsi 50)
    (fun i h =>
       l <- getitem lines i ;;
       let line := strip l in
       if str_in line [u "0"; u "1"] then
         '(next_idx, next_line) <- find_next_nonempty_line lines (i + 1) 3 false ;;
         if str_in next_line delivery_terms
         then Ok (Break (dict_set (u "ConIndHEA96") (VStr line) h))
         else Ok (Next h)
       else Ok (Next h))
    h.

(** Declaration place: a four-digit code and the name after it. *)
Definition heahea_place (lines : list pystr) (dsi : Z) (h : dict)
  : outcome dict :=
  for_each (window lines dsi 50)
    (fun i h =>
       l <- getitem lines i ;;
       let line := strip l in
       if matches four_digits line then
         '(next_idx, next_line) <- find_next_nonempty_line lines (i + 1) 2 false ;;
         if truthy next_line && (3 <? length next_line)%nat
            && negb (isdigit next_line)
         then Ok (Break (dict_set (u "DecPlaHEA394")
                                  (VStr (line ++ u " " ++ next_line)) h))
         else Ok (Next h)
       else Ok (Next h))
    h.

Definition heahea_fields (lines : list pystr) (dsi : Z) (h : dict)
  : outcome dict :=
  h <- heahea_total_gross_mass lines h ;;
  h <- heahea_identity lines dsi h ;;
  h <- heahea_mode lines dsi h ;;
  h <- heahea_dispatch lines dsi h ;;
  h <- heahea_destination lines dsi h ;;
  h <- heahea_container lines dsi h ;;
  heahea_place lines dsi h.

Definition extract_heahea (self : ECDExtractorGeneric)
  : outcome ECDExtractorGeneric :=
  h <- heahea_fields (lines self) (data_start_index self) (HEAHEA self) ;;
  Ok (Extractor (lines self) (data_start_index self) h (TRAEXPEX1 self)
                (TRACONCE1 self) (SEAINFSLI self) (GOOITEGDS self)).

(** *** [extract_traexpex1] *)

Definition traexpex1_fields (lines : list pystr) (dsi : Z) (t : dict)
  : outcome dict :=
  t <- for_each (window lines dsi 20)
         (fun i t =>
            l <- getitem lines i ;;
            let line := strip l in
            match re_match tin_pattern line with
            | Some m =>
              let t := dict_set (u "TINEX159") (VStr (group 1 m)) t in
              '(next_idx, next_line) <-
                 find_next_nonempty_line lines (i + 1) 2 false ;;
              let t := if truthy next_line
                       then dict_set (u "NamEX17") (VStr next_line) t else t in
              '(next_idx2, next_line2) <-
                 find_next_nonempty_line lines (next_idx + 1) 2 false ;;
              if truthy next_line2
                 && (contains (u "ул.") next_line2
                     || contains (u "бул.") next_line2
                     || contains (u "str.") (str_lower next_line2))
              then
                let t := dict_set (u "StrAndNumEX122") (VStr next_line2) t in
                if contains (u ",") next_line2 then
                  let city := strip (last_field 44 next_line2) in
                  Ok (Break (dict_set (u "CitEX124") (VStr city) t))
                else Ok (Break t)
              else Ok (Break t)
            | None => Ok (Next t)
            end)
         t ;;
  let t := dict_set (u "PosCodEX123") VNone t in
  match dict_get (u "TINEX159") t with
  | Some (VStr tin) =>
    let country_code := firstn 2 tin in
    if str_eqb country_code (u "MK")
    then Ok (dict_set (u "CouEX125") (VStr (u "МК")) t)
    else Ok (dict_set (u "CouEX125") (VStr country_code) t)
  | Some _ => Raise TypeError
  | None => Ok t
  end.

Definition extract_traexpex1 (self : ECDExtractorGeneric)
  : outcome ECDExtractorGeneric :=
  t <- traexpex1_fields (lines self) (data_start_index self) (TRAEXPEX1 self) ;;
  Ok (Extractor (lines self) (data_start_index self) (HEAHEA self) t
                (TRACONCE1 self) (SEAINFSLI self) (GOOITEGDS self)).

(** *** [extract_traconce1] *)

(** The address two lines before the reference number, with the postal
    code and the city split out of it. *)
Definition traconce1_address (lines : list pystr) (i : Z) (c : dict)
  : outcome dict :=
  if (2 <=? i)%Z then
    al <- getitem lines (i - 2) ;;
    let address_line := strip al in
    if truthy address_line && (2 <? length address_line)%nat then
      let c := dict_set (u "StrAndNumCE122") (VStr address_line) c in
      match re_search postal_pattern address_line with
      | Some postal_match =>
        let c := dict_set (u "PosCodCE123") (VStr (group 1 postal_match)) c in
        Ok (dict_set (u "CitCE124") (VStr (strip (group 2 postal_match))) c)
      | None => Ok (dict_set (u "CitCE124") (VStr address_line) c)
      end
    else Ok c
  else Ok c.

Definition traconce1_name (lines : list pystr) (i : Z) (c : dict)
  : outcome dict :=
  if (3 <=? i)%Z then
    nl <- getitem lines (i - 3) ;;
    let name_line := strip nl in
    if truthy name_line && (5 <? length name_line)%nat
    then Ok (dict_set (u "NamCE17") (VStr name_line) c)
    else Ok c
  else Ok c.

Definition traconce1_tin (lines : list pystr) (i : Z) (c : dict)
  : outcome dict :=
  if (i + 1 <? zlen lines)%Z then
    tl <- getitem lines (i + 1) ;;
    let tin_line := strip tl in
    if matches foreign_tin tin_line
    then Ok (dict_set (u "TINCE159") (VStr tin_line) c)
    else Ok c
  else Ok c.

Definition traconce1_fields (lines : list pystr) (dsi : Z) (c : dict)
  : outcome dict :=
  c <- for_each (range (dsi + 5) (Z.min (zlen lines) (dsi + 30)))
         (fun i c =>
            l <- getitem lines i ;;
            let line := strip l in
            if matches reference_pattern line && negb (startswith (u "MK") line)
            then
              if (1 <=? i)%Z then
                cl <- getitem lines (i - 1) ;;
                let country_line := strip cl in
                if matches two_letters country_line
                   && negb (str_in country_line [u "MK"; u "МК"])
                then
                  let c := dict_set (u "CouCE125") (VStr country_line) c in
                  c <- traconce1_address lines i c ;;
                  c <- traconce1_name lines i c ;;
                  c <- traconce1_tin lines i c ;;
                  Ok (Break c)
                else Ok (Next c)
              else Ok (Next c)
            else Ok (Next c))
         c ;;
  Ok (dict_set (u "TINCE159") VNone c).

Definition extract_traconce1 (self : ECDExtractorGeneric)
  : outcome ECDExtractorGeneric :=
  c <- traconce1_fields (lines self) (data_start_index self) (TRACONCE1 self) ;;
  Ok (Extractor (lines self) (data_start_index self) (HEAHEA self)
                (TRAEXPEX1 self) c (SEAINFSLI self) (GOOITEGDS self)).

(** *** [extract_gooitegds] *)

(** [_create_empty_item] *)
Definition _create_empty_item : goods_item :=
  GoodsItem (u "1") None (u "") None (u "") [] [].

(** The commodity codes: the eight-digit lines from
    [max(self.data_start_index, 100)] on, with their positions. *)
Definition find_commodity_positions (lines : list pystr) (dsi : Z)
  : outcome (list (Z * pystr)) :=
  let search_start := Z.max dsi 100 in
  for_each (range search_start (zlen lines))
    (fun i commodity_positions =>
       l <- getitem lines i ;;
       let line := strip l in
       if matches commodity_pattern line
       then Ok (Next (commodity_positions ++ [(i, line)]))
       else Ok (Next commodity_positions))
    [].

(** The description after a line with [Палета], or else the first long
    line after the commodity code. *)
Definition item_description (lines : list pystr) (commodity_index item_end : Z)
           (item : goods_item) : outcome goods_item :=
  item <-
    for_each (range commodity_index (Z.min (commodity_index + 10) item_end))
      (fun i item =>
         l <- getitem lines i ;;
         if contains (u "Палета") l || contains (u "палета") (str_lower l) then
           '(next_idx, desc) <- find_next_nonempty_line lines (i + 1) 3 false ;;
           if truthy desc && (5 <? length desc)%nat then
             let desc := re_sub pieces_pattern (u "-1ком.") desc in
             Ok (Break (set_GooDesGDS23 desc item))
           else Ok (Break item)
         else Ok (Next item))
      item ;;
  if negb (truthy (GooDesGDS23 item)) then
    for_each (range (commodity_index + 1) (Z.min (commodity_index + 5) item_end))
      (fun j item =>
         l <- getitem lines j ;;
         let potential_desc := strip l in
         if (10 <? length potential_desc)%nat && negb (isdigit potential_desc)
            && negb (matches two_letters potential_desc)
         then Ok (Break (set_GooDesGDS23 potential_desc item))
         else Ok (Next item))
      item
  else Ok item.

Definition package_types : list pystr :=
  [u "PX"; u "CT"; u "BX"; u "PA"; u "PK"; u "CS"; u "CR"].

(** Gross mass and packaging, from the first packaging-type line of the
    item's range. *)
Definition item_packaging (lines : list pystr) (item_start item_end : Z)
           (item : goods_item) : outcome goods_item :=
  for_each (range item_start item_end)
    (fun i item =>
       l <- getitem lines i ;;
       if str_in (strip l) package_types then
         '(num1_idx, num1) <- find_next_nonempty_line lines (i + 1) 3 false ;;
         item <-
           (if truthy num1 then
              '(num2_idx, num2) <-
                 find_next_nonempty_line lines (num1_idx + 1) 3 false ;;
              if truthy num2 then
                match float_of_str (replace_chr 44 46 num2) with
                | Some mass => Ok (set_GroMasGDS46 mass item)
                | None => Ok item
                end
              else Ok item
            else Ok item) ;;
         '(num_idx, num_packages) <-
            find_next_nonempty_line lines (i - 1) 1 true ;;
         if truthy num_packages && isdigit num_packages then
           l' <- getitem lines i ;;
           Ok (Break (append_PACGS2 (Package (strip l') num_packages None) item))
         else Ok (Break item)
       else Ok (Next item))
    item.

Definition doc_types : list pystr :=
  [u "5010"; u "5016"; u "5009"; u "5007"; u "POAN"; u "5069"; u "AUN";
   u "5077"; u "T1"].

Definition temp_doc : Type := (pystr * pystr * nat)%type.

Fixpoint insert_by_pos (x : temp_doc) (l : list temp_doc) : list temp_doc :=
  match l with
  | [] => [x]
  | y :: l' => if Nat.leb (snd x) (snd y) then x :: l
               else y :: insert_by_pos x l'
  end.

(** [temp_docs.sort(key=lambda x: x[2])], a stable sort *)
Definition sort_by_pos (l : list temp_doc) : list temp_doc :=
  fold_right insert_by_pos [] l.

Definition pair_eqb (a b : pystr * pystr) : bool :=
  str_eqb (fst a) (fst b) && str_eqb (snd a) (snd b).

(** The documents of the whole text, which the first item receives. *)
Definition item_documents (lines : list pystr) (item : goods_item)
  : goods_item :=
  let doc_text := join (u " ") lines in
  let temp_docs :=
    flat_map (fun m =>
                let doc_type := group 1 m in
                let doc_ref := group 2 m in
                if str_in doc_type doc_types
                then [(doc_type, doc_ref, m_start m)] else [])
             (re_finditer doc_pattern doc_text) in
  let temp_docs := sort_by_pos temp_docs in
  fst (fold_left
         (fun (st : goods_item * list (pystr * pystr)) (d : temp_doc) =>
            let '(item, seen) := st in
            let '(doc_type, doc_ref, pos) := d in
            if str_eqb doc_type (u "5007") then (item, seen)
            else if negb (existsb (pair_eqb (doc_type, doc_ref)) seen)
            then (append_PRODOCDC2 (Document doc_type doc_ref) item,
                  (doc_type, doc_ref) :: seen)
            else (item, seen))
         temp_docs (item, [])).

(** One turn of the loop over the commodity codes. *)
Definition extract_item (lines : list pystr)
           (commodity_positions : list (Z * pystr)) (item_num : Z)
           (commodity_index : Z) (commodity_code : pystr) : outcome goods_item :=
  let item := GoodsItem (str_of_Z item_num) None (u "") None commodity_code
                        [] [] in
  next_commodity_index <-
    (if (item_num <? zlen commodity_positions)%Z
     then p <- getitem commodity_positions item_num ;; Ok (fst p)
     else Ok (zlen lines)) ;;
  let item_start := Z.max 0 (commodity_index - 30) in
  let item_end := Z.min (zlen lines) next_commodity_index in
  item <- item_description lines commodity_index item_end item ;;
  item <- item_packaging lines item_start item_end item ;;
  if (item_num =? 1)%Z then Ok (item_documents lines item) else Ok item.

Definition gooitegds_items (lines : list pystr) (dsi : Z)
           (goods : list goods_item) : outcome (list goods_item) :=
  commodity_positions <- find_commodity_positions lines dsi ;;
  match commodity_positions with
  | [] => Ok (goods ++ [_create_empty_item])
  | _ =>
    for_each (enumerate_from 1 commodity_positions)
      (fun np goods =>
         let '(item_num, (commodity_index, commodity_code)) := np in
         item <- extract_item lines commodity_positions item_num
                              commodity_index commodity_code ;;
         Ok (Next (goods ++ [item])))
      goods
  end.

Definition extract_gooitegds (self : ECDExtractorGeneric)
  : outcome ECDExtractorGeneric :=
  g <- gooitegds_items (lines self) (data_start_index self) (GOOITEGDS self) ;;
  Ok (Extractor (lines self) (data_start_index self) (HEAHEA self)
                (TRAEXPEX1 self) (TRACONCE1 self) (SEAINFSLI self) g).

(** *** [extract_all]

    The text acquisition is outside the model: [extract_all] starts from
    the lines it produced. *)
Definition extract_all (text_lines : list pystr) : outcome value :=
  let self := Extractor text_lines (data_start_index init) (HEAHEA init)
                        (TRAEXPEX1 init) (TRACONCE1 init) (SEAINFSLI init)
                        (GOOITEGDS init) in
  let self := Extractor (lines self) (find_data_section (lines self))
                        (HEAHEA self) (TRAEXPEX1 self) (TRACONCE1 self)
                        (SEAINFSLI self) (GOOITEGDS self) in
  self <- extract_heahea self ;;
  self <- extract_traexpex1 self ;;
  self <- extract_traconce1 self ;;
  self <- extract_gooitegds self ;;
  Ok (data self).

End Generic.

(** ** The customs engine: reference documents of an item
    ([extract_ecd_customs.py], the last part of [extract_gooitegds])

    The item's list [PRODOCDC2] is created empty and written by this part
    of the method only. *)

Section Customs.
Context {L : PyLib}.

Definition upper_or_digit (c : N) : bool := upper_AZ c || cls_d c.

(** [r'-\s+'], [r'([A-Z\d]+)-([A-Z\d]+/\d{4})'], [r'([A-Z\d]+)-([A-Z\d/]+)'] *)
Definition hyphen_space : regex := seq_re [lit "-"; rep1 cls_s].
Definition doc_with_year : regex :=
  seq_re [Grp 1 (rep1 upper_or_digit); lit "-";
          Grp 2 (seq_re [rep1 upper_or_digit; lit "/"; exactly 4 cls_d])].
Definition doc_plain : regex :=
  seq_re [Grp 1 (rep1 upper_or_digit); lit "-";
          Grp 2 (rep1 (fun c => upper_or_digit c || (c =? 47)%N))].

Definition customs_doc_types : list pystr :=
  [u "AUN"; u "POAN"; u "5016"; u "5011"; u "Y024"; u "5010"; u "5069";
   u "T010"; u "E042"; u "2037"].

(** The text after the line [44 Дополнителни ...]: up to five lines, ended
    by the next field, lines of the heading left out. *)
Definition customs_doc_text (lines : list pystr) (i : Z) : outcome pystr :=
  for_each (range (i + 1) (Z.min (i + 6) (zlen lines)))
    (fun j doc_text =>
       l <- getitem lines j ;;
       let next_line := strip l in
       if startswith (u "46 ") next_line || startswith (u "47 ") next_line
          || startswith (u "31 ") next_line || startswith (u "Шифр") next_line
       then Ok (Break doc_text)
       else if contains (u "информации") next_line
               || contains (u "проложени") next_line
       then Ok (Next doc_text)
       else Ok (Next (doc_text ++ u " " ++ next_line)))
    [].

(** The two patterns in turn, a document kept when its key
    [type-reference] is new and its type is a known one. *)
Definition customs_parse_docs (doc_text : pystr) (item : goods_item)
  : goods_item :=
  let doc_text := re_sub hyphen_space (u "-") doc_text in
  fst (fold_left
         (fun (st : goods_item * list pystr) (m : rematch) =>
            let '(item, found_docs) := st in
            let doc_type := group 1 m in
            let doc_ref := group 2 m in
            let doc_key := doc_type ++ u "-" ++ doc_ref in
            if negb (str_in doc_key found_docs) && str_in doc_type customs_doc_types
            then (append_PRODOCDC2 (Document doc_type doc_ref) item,
                  doc_key :: found_docs)
            else (item, found_docs))
         (re_finditer doc_with_year doc_text ++ re_finditer doc_plain doc_text)
         (item, [])).

Definition customs_item_documents (lines : list pystr)
           (commodity_index item_end : Z) (item : goods_item)
  : outcome goods_item :=
  for_each (range commodity_index (Z.min (commodity_index + 35) item_end))
    (fun i item =>
       l <- getitem lines i ;;
       let line := strip l in
       if contains (u "44 Дополнителни") line then
         doc_text <- customs_doc_text lines i ;;
         if truthy doc_text then Ok (Break (customs_parse_docs doc_text item))
         else Ok (Break item)
       else Ok (Next item))
    item.

End Customs.

(** ** The customs engine: section locator, packaging, sender and receiver
    ([extract_ecd_customs.py]) *)

Section CustomsEngine.
Context {L : PyLib}.

(** *** [find_data_section] of the customs engine *)

Definition has_customs_marker (line : pystr) : bool :=
  matches declaration_line (strip line)
  || (contains (u "Consignor/Exporter") line
      || contains (u "Consignor / Exporter") line).

(** The first line with a declaration code or the consignor heading
    decides: five lines before the code, or the heading itself. *)
Definition customs_find_data_section (lines : list pystr) : Z :=
  match find (fun il => has_customs_marker (snd il)) (enumerate lines) with
  | Some (i, line) =>
    if matches declaration_line (strip line) then Z.max 0 (i - 5) else i
  | None => 10%Z
  end.

(** *** The packaging part of [extract_gooitegds] *)

(** [r'определено-(\d+)-([A-Z]{2})'] and
    [r'(Палета|Картон|Кутија|Сандак|Врека|Контејнер)-(\d+)-([A-Z]{2})'] *)
Definition old_packaging : regex :=
  seq_re [lit "определено-"; Grp 1 (rep1 cls_d); lit "-";
          Grp 2 (exactly 2 upper_AZ)].
Definition new_packaging : regex :=
  seq_re [Grp 1 (Alt (lit "Палета")
                (Alt (lit "Картон")
                (Alt (lit "Кутија")
                (Alt (lit "Сандак")
                (Alt (lit "Врека") (lit "Контејнер"))))));
          lit "-"; Grp 2 (rep1 cls_d); lit "-"; Grp 3 (exactly 2 upper_AZ)].

(** The package a stripped line describes, in the old format or else in
    the new one. *)
Definition customs_line_package (line : pystr) : option package :=
  match (if contains (u "Взаемно определено") line
         then re_search old_packaging line else None) with
  | Some pack_match =>
    Some (Package (group 2 pack_match) (group 1 pack_match) None)
  | None =>
    match re_search new_packaging line with
    | Some pack_match =>
      Some (Package (group 3 pack_match) (group 2 pack_match) None)
    | None => None
    end
  end.

Definition customs_item_packaging (lines : list pystr)
           (item_start commodity_index : Z) (item : goods_item)
  : outcome goods_item :=
  for_each (range item_start (commodity_index + 3))
    (fun i item =>
       l <- getitem lines i ;;
       let line := strip l in
       match customs_line_package line with
       | Some package => Ok (Break (append_PACGS2 package item))
       | None => Ok (Next item)
       end)
    item.

(** *** [extract_traexpex1] of the customs engine *)

(** [r'([A-Z]{2}\d{13})'] and [r'\s(\d{4,5})\s*$'] *)
Definition customs_tin : regex :=
  Grp 1 (seq_re [exactly 2 upper_AZ; exactly 13 cls_d]).
Definition customs_postal_end : regex :=
  seq_re [Chr cls_s; Grp 1 (from_to 4 5 cls_d); rep0 cls_s; Eol].

Definition customs_sender_postal (lines : list pystr) (i : Z) (t : dict)
  : outcome dict :=
  match dict_get (u "StrAndNumEX122") t with
  | Some (VStr addr) =>
    match re_search customs_postal_end addr with
    | Some postal_match =>
      Ok (dict_set (u "PosCodEX123") (VStr (group 1 postal_match)) t)
    | None =>
      for_each (range (i + 5) (Z.min (i + 10) (zlen lines)))
        (fun j t =>
           l <- getitem lines j ;;
           let postal_line := strip l in
           if isdigit postal_line && (4 <=? length postal_line)%nat
              && (length postal_line <=? 5)%nat
           then Ok (Break (dict_set (u "PosCodEX123") (VStr postal_line) t))
           else Ok (Next t))
        t
    end
  | Some _ => Raise TypeError
  | None => Ok t
  end.

Definition customs_traexpex1_fields (lines : list pystr) (t : dict)
  : outcome dict :=
  t <- for_each (enumerate lines)
         (fun il t =>
            let '(i, line) := il in
            if contains (u "Consignor/Exporter") line
               || contains (u "2 Consignor") line
            then
              t <- (if (i + 1 <? zlen lines)%Z then
                      l <- getitem lines (i + 1) ;;
                      let name_line := strip l in
                      if truthy name_line && (3 <? length name_line)%nat
                         && negb (str_eqb name_line (u "Не"))
                      then Ok (dict_set (u "NamEX17") (VStr name_line) t)
                      else Ok t
                    else Ok t) ;;
              t <- (if (i + 2 <? zlen lines)%Z then
                      l <- getitem lines (i + 2) ;;
                      let addr_line := strip l in
                      if truthy addr_line && negb (str_eqb addr_line (u "Не"))
                      then Ok (dict_set (u "StrAndNumEX122") (VStr addr_line) t)
                      else Ok t
                    else Ok t) ;;
              t <- (if (i + 4 <? zlen lines)%Z then
                      l <- getitem lines (i + 4) ;;
                      let tin_line := strip l in
                      match re_search customs_tin tin_line with
                      | Some tin_match =>
                        Ok (dict_set (u "TINEX159") (VStr (group 1 tin_match)) t)
                      | None => Ok t
                      end
                    else Ok t) ;;
              t <- (if (i + 6 <? zlen lines)%Z then
                      l <- getitem lines (i + 6) ;;
                      let city_line := strip l in
                      if truthy city_line && (2 <? length city_line)%nat
                         && (length city_line <? 30)%nat
                         && negb (str_eqb city_line (u "MK"))
                         && negb (str_eqb city_line (u "Не"))
                         && negb (str_eqb city_line (u "."))
                      then Ok (dict_set (u "CitEX124") (VStr city_line) t)
                      else Ok t
                    else Ok t) ;;
              t <- (if (i + 7 <? zlen lines)%Z then
                      l <- getitem lines (i + 7) ;;
                      let country_line := strip l in
                      if matches two_letters country_line then
                        if str_eqb country_line (u "MK")
                        then Ok (dict_set (u "CouEX125") (VStr (u "МК")) t)
                        else Ok (dict_set (u "CouEX125") (VStr country_line) t)
                      else Ok t
                    else Ok t) ;;
              t <- customs_sender_postal lines i t ;;
              Ok (Break t)
            else Ok (Next t))
         t ;;
  if negb (dict_has (u "PosCodEX123") t)
  then Ok (dict_set (u "PosCodEX123") VNone t)
  else Ok t.

End CustomsEngine.

Section CustomsReceiver.
Context {L : PyLib}.

(** [str.upper], one more function of the interpreter's library *)
Variable str_upper : pystr -> pystr.

(** [s.split()]: the words between runs of white space *)
Fixpoint split_from (word : pystr) (s : pystr) : list pystr :=
  match s with
  | [] => if truthy word then [rev word] else []
  | c :: s' =>
    if uni_isspace c
    then (if truthy word then rev word :: split_from [] s'
          else split_from [] s')
    else split_from (c :: word) s'
  end.

Definition split_whitespace (s : pystr) : list pystr := split_from [] s.

(** [r'^\d+$'], [r'^\d{4,6}$'], [r'\s(\d{4,6})\s*$'] *)
Definition digits_only : regex := seq_re [Bol; rep1 cls_d; Eol].
Definition four_to_six_digits : regex := seq_re [Bol; from_to 4 6 cls_d; Eol].
Definition customs_postal_code : regex :=
  seq_re [Chr cls_s; Grp 1 (from_to 4 6 cls_d); rep0 cls_s; Eol].

(** Where the receiver's heading stands: the first line with [8 Примач],
    or 0. *)
Definition customs_receiver_start (lines : list pystr) : Z :=
  match find (fun il => contains (u "8 Примач") (snd il)) (enumerate lines) with
  | Some (i, _) => i
  | None => 0%Z
  end.

(** The country: the first two-letter line after the address. *)
Definition customs_receiver_country (lines : list pystr) (j : Z) (c : dict)
  : outcome dict :=
  for_each (range (j + 1) (Z.min (zlen lines) (j + 5)))
    (fun k c =>
       l <- getitem lines k ;;
       let country_line := strip l in
       if matches two_letters country_line
       then Ok (Break (dict_set (u "CouCE125") (VStr country_line) c))
       else Ok (Next c))
    c.

(** The postal code and the city, out of the address line. *)
Definition customs_receiver_city (addr_line : pystr) (c : dict) : dict :=
  match re_search customs_postal_code addr_line with
  | Some postal_match =>
    let postal_code := group 1 postal_match in
    let c := if negb (str_eqb postal_code (u "00000"))
                && negb (str_eqb postal_code (u "0000"))
             then dict_set (u "PosCodCE123") (VStr postal_code) c
             else dict_set (u "PosCodCE123") VNone c in
    let city_part := strip (firstn (m_start postal_match) addr_line) in
    let words := split_whitespace city_part in
    if (0 <? length words)%nat
    then dict_set (u "CitCE124") (VStr (last words [])) c
    else c
  | None =>
    let words := split_whitespace addr_line in
    if (2 <? length words)%nat
    then dict_set (u "PosCodCE123") VNone
                  (dict_set (u "CitCE124") (VStr (last words [])) c)
    else c
  end.

(** The address: the first long line after the name that is not a number,
    a code or the country's name and that names a street. *)
Definition customs_receiver_address (lines : list pystr) (i : Z) (c : dict)
  : outcome dict :=
  for_each (range (i + 1) (Z.min (zlen lines) (i + 10)))
    (fun j c =>
       l <- getitem lines j ;;
       let addr_line := strip l in
       if truthy addr_line && (5 <? length addr_line)%nat then
         if negb (matches four_to_six_digits addr_line)
            && negb (matches two_letters addr_line)
            && negb (contains (u "СЛОВЕН") addr_line)
         then
           if contains (u "УЛИЦА") (str_upper addr_line)
              || contains (u "УЛ.") (str_upper addr_line)
           then
             let c := dict_set (u "StrAndNumCE122") (VStr addr_line) c in
             let c := customs_receiver_city addr_line c in
             c <- customs_receiver_country lines j c ;;
             Ok (Break c)
           else Ok (Next c)
         else Ok (Next c)
       else Ok (Next c))
    c.

Definition customs_traconce1_fields (lines : list pystr) (c : dict)
  : outcome dict :=
  let start_search := customs_receiver_start lines in
  if (start_search =? 0)%Z then Ok c
  else
    c <- for_each (range (start_search + 1)
                         (Z.min (zlen lines) (start_search + 10)))
           (fun i c =>
              l <- getitem lines i ;;
              let line := strip l in
              if truthy line && (3 <? length line)%nat
                 && negb (matches digits_only line)
              then
                if negb (contains (u "9 Финансово") line)
                   && negb (str_eqb (u "Не") line)
                   && negb (contains (u "МИКЛОШИЧЕВА") line)
                then
                  let c := dict_set (u "NamCE17") (VStr line) c in
                  c <- customs_receiver_address lines i c ;;
                  Ok (Break c)
                else Ok (Next c)
              else Ok (Next c))
           c ;;
    Ok (dict_set (u "TINCE159") VNone c).

End CustomsReceiver.

(** ** The customs engine: header, goods items and the run
    ([extract_ecd_customs.py]) *)

(** [xs[a:b]] for bounds that are not negative *)
Definition slice {A : Type} (xs : list A) (a b : Z) : list A :=
  firstn (Z.to_nat (b - a)) (skipn (Z.to_nat a) xs).

Fixpoint lstrip_chr (c : N) (s : pystr) : pystr :=
  match s with
  | x :: s' => if (x =? c)%N then lstrip_chr c s' else s
  | [] => []
  end.

(** [s.rstrip(c)] for a single character *)
Definition rstrip_chr (c : N) (s : pystr) : pystr := rev (lstrip_chr c (rev s)).

Section CustomsHeader.
Context {L : PyLib}.

(** *** [extract_heahea] of the customs engine *)

(** [\d+\.?\d*], as one group *)
Definition decimal_number : regex :=
  Grp 1 (seq_re [rep1 cls_d; from_to 0 1 (N.eqb 46); rep0 cls_d]).

(** [r'([A-Z]{2}\d{4}[A-Z]{2}(?:/[A-Z]{2}\d{4}[A-Z]{2})?)'],
    [r'^([A-Z]{2})\s'], [r'\b([A-Z]{2})\b'], [r'(MK)?(\d{6})'] *)
Definition customs_vehicle : regex :=
  Grp 1 (seq_re [registration; opt (seq_re [lit "/"; registration])]).
Definition country_then_space : regex :=
  seq_re [Bol; Grp 1 (exactly 2 upper_AZ); Chr cls_s].
Definition two_letter_word : regex :=
  seq_re [Wordb; Grp 1 (exactly 2 upper_AZ); Wordb].
Definition customs_place_code : regex :=
  seq_re [opt (Grp 1 (lit "MK")); Grp 2 (exactly 6 cls_d)].

(** Total gross mass: the first number in the four lines after the first
    line with [Бруто маса]. *)
Definition customs_heahea_mass (lines : list pystr) (h : dict) : outcome dict :=
  for_each (enumerate lines)
    (fun il h =>
       let '(i, line) := il in
       if contains (u "Бруто маса") line then
         h <- for_each (range (i + 1) (Z.min (i + 5) (zlen lines)))
                (fun j h =>
                   l <- getitem lines j ;;
                   let mass_line := strip l in
                   match re_search decimal_number mass_line with
                   | Some mass_match =>
                     match float_of_str (group 1 mass_match) with
                     | Some mass =>
                       Ok (Break (dict_set (u "TotGroMasHEA307") (VFloat mass) h))
                     | None => Ok (Next h)
                     end
                   | None => Ok (Next h)
                   end)
                h ;;
         Ok (Break h)
       else Ok (Next h))
    h.

(** Identity and nationality of the means of transport. *)
Definition customs_heahea_identity (lines : list pystr) (dsi : Z) (h : dict)
  : outcome dict :=
  for_each (window lines dsi 80)
    (fun i h =>
       l <- getitem lines i ;;
       let line := strip l in
       match re_search customs_vehicle line with
       | Some m =>
         let h := dict_set (u "IdeOfMeaOfTraAtDHEA78") (VStr (group 1 m)) h in
         let rest_of_line := strip (c_rest (m_tail m)) in
         match re_match country_then_space rest_of_line with
         | Some country_match =>
           Ok (Break (dict_set (u "NatOfMeaOfTraCroHEA87")
                               (VStr (group 1 country_match)) h))
         | None =>
           '(next_idx, next_line) <- find_next_nonempty_line lines (i + 1) 3 false ;;
           if truthy next_line && matches two_letters next_line
           then Ok (Break (dict_set (u "NatOfMeaOfTraCroHEA87") (VStr next_line) h))
           else Ok (Break h)
         end
       | None => Ok (Next h)
       end)
    h.

(** Mode of transport at the border. *)
Definition customs_heahea_mode (lines : list pystr) (h : dict) : outcome dict :=
  for_each (enumerate lines)
    (fun il h =>
       let '(i, line) := il in
       if contains (u "на граница") line || contains (u "Вид на") line then
         h <- for_each (range (Z.max 0 (i - 2)) (Z.min (zlen lines) (i + 3)))
                (fun j h =>
                   l <- getitem lines j ;;
                   let mode_line := strip l in
                   if str_in mode_line mode_digits
                   then Ok (Break (dict_set (u "TraModAtBorHEA76") (VStr mode_line) h))
                   else Ok (Next h))
                h ;;
         if dict_has (u "TraModAtBorHEA76") h then Ok (Break h) else Ok (Next h)
       else Ok (Next h))
    h.

(** Country of dispatch. *)
Definition customs_heahea_dispatch (lines : list pystr) (h : dict)
  : outcome dict :=
  for_each (enumerate lines)
    (fun il h =>
       let '(i, line) := il in
       if contains (u "Земја на поаѓање") line
          || contains (u "15 Шифра на земја") line
       then
         h <- for_each (range i (Z.min (zlen lines) (i + 10)))
                (fun j h =>
                   l <- getitem lines j ;;
                   if contains (u "a MK") l || str_eqb (strip l) (u "MK")
                   then Ok (Break (dict_set (u "CouOfDisCodHEA55") (VStr (u "MK")) h))
                   else Ok (Next h))
                h ;;
         if dict_has (u "CouOfDisCodHEA55") h then Ok (Break h) else Ok (Next h)
       else Ok (Next h))
    h.

(** Country of destination: after the heading of field 17, or else after
    the receiver's heading. *)
Definition customs_heahea_destination (lines : list pystr) (h : dict)
  : outcome dict :=
  h <- for_each (enumerate lines)
         (fun il h =>
            let '(i, line) := il in
            if contains (u "17 Земја на намена") line
               || contains (u "Земја на намена") line
            then
              h <- for_each (range (i + 1) (Z.min (zlen lines) (i + 5)))
                     (fun j h =>
                        l <- getitem lines j ;;
                        let dest_line := strip l in
                        match re_search two_letter_word dest_line with
                        | Some code_match =>
                          if negb (str_in (group 1 code_match)
                                          [u "MK"; u "БР"; u "УЛ"; u "SI"])
                          then Ok (Break (dict_set (u "CouOfDesCodHEA30")
                                                   (VStr (group 1 code_match)) h))
                          else Ok (Next h)
                        | None => Ok (Next h)
                        end)
                     h ;;
              if dict_has (u "CouOfDesCodHEA30") h then Ok (Break h)
              else Ok (Next h)
            else Ok (Next h))
         h ;;
  if negb (dict_has (u "CouOfDesCodHEA30") h) then
    for_each (enumerate lines)
      (fun il h =>
         let '(i, line) := il in
         if contains (u "8 Примач") line then
           h <- for_each (range (i + 1) (Z.min (zlen lines) (i + 15)))
                  (fun j h =>
                     l <- getitem lines j ;;
                     let country_line := strip l in
                     if matches two_letters country_line
                        && negb (str_in country_line [u "MK"; u "БР"; u "УЛ"])
                     then Ok (Break (dict_set (u "CouOfDesCodHEA30")
                                              (VStr country_line) h))
                     else Ok (Next h))
                  h ;;
           Ok (Break h)
         else Ok (Next h))
      h
  else Ok h.

(** Container indicator. *)
Definition customs_heahea_container (lines : list pystr) (dsi : Z) (h : dict)
  : outcome dict :=
  for_each (window lines dsi 60)
    (fun i h =>
       l <- getitem lines i ;;
       let line := strip l in
       if str_eqb line (u "0") || str_eqb line (u "1") then
         let prev_context := join (u " ") (slice lines (Z.max 0 (i - 3)) i) in
         let next_context :=
           join (u " ") (slice lines (i + 1) (Z.min (zlen lines) (i + 4))) in
         if contains (u "DAP") next_context || contains (u "FCA") next_context
            || contains (u "CPT") next_context
            || contains (u "транспорт") (str_lower prev_context)
         then Ok (Break (dict_set (u "ConIndHEA96") (VStr line) h))
         else Ok (Next h)
       else Ok (Next h))
    h.

(** Declaration place: the six-digit code after the heading of field 29,
    with what follows it on the line. *)
Definition customs_heahea_place (lines : list pystr) (h : dict) : outcome dict :=
  for_each (enumerate lines)
    (fun il h =>
       let '(i, line) := il in
       if contains (u "Излезен царински орган") line
          || contains (u "29 Излезен") line
       then
         h <- for_each (range (i + 1) (Z.min (zlen lines) (i + 5)))
                (fun j h =>
                   l <- getitem lines j ;;
                   let place_line := strip l in
                   match re_search customs_place_code place_line with
                   | Some place_match =>
                     let code := group 2 place_match in
                     let remaining := strip (c_rest (m_tail place_match)) in
                     if truthy remaining
                     then Ok (Break (dict_set (u "DecPlaHEA394")
                                              (VStr (code ++ u " " ++ remaining)) h))
                     else Ok (Break (dict_set (u "DecPlaHEA394") (VStr code) h))
                   | None => Ok (Next h)
                   end)
                h ;;
         if dict_has (u "DecPlaHEA394") h then Ok (Break h) else Ok (Next h)
       else Ok (Next h))
    h.

Definition customs_heahea_fields (lines : list pystr) (dsi : Z) (h : dict)
  : outcome dict :=
  h <- customs_heahea_mass lines h ;;
  h <- customs_heahea_identity lines dsi h ;;
  h <- customs_heahea_mode lines h ;;
  h <- customs_heahea_dispatch lines h ;;
  h <- customs_heahea_destination lines h ;;
  h <- customs_heahea_container lines dsi h ;;
  customs_heahea_place lines h.

End CustomsHeader.

Section CustomsGoods.
Context {L : PyLib}.

(** [str.isupper] on a character and [str.upper], two more functions of the
    interpreter's library *)
Variable uni_isupper : N -> bool.
Variable str_upper : pystr -> pystr.

(** *** [extract_gooitegds] of the customs engine *)

(** [r'\b(\d{8})\b'], [r'^\d+\.?\d*$'] and
    [r'(Взаемно определено|Палета|Картон|Кутија|Сандак)-\d+-[A-Z]{2}'] *)
Definition code_word : regex :=
  seq_re [Wordb; Grp 1 (exactly 8 cls_d); Wordb].
Definition plain_number : regex :=
  seq_re [Bol; rep1 cls_d; from_to 0 1 (N.eqb 46); rep0 cls_d; Eol].
Definition packaging_text : regex :=
  seq_re [Grp 1 (Alt (lit "Взаемно определено")
                (Alt (lit "Палета")
                (Alt (lit "Картон")
                (Alt (lit "Кутија") (lit "Сандак")))));
          lit "-"; rep1 cls_d; lit "-"; exactly 2 upper_AZ].

(** The code in the four lines after a tariff heading, kept unless the
    same code is already recorded within one line of it. *)
Definition customs_code_after (lines : list pystr) (i : Z)
           (commodity_positions : list (Z * pystr))
  : outcome (list (Z * pystr)) :=
  for_each (range (i + 1) (Z.min (i + 5) (zlen lines)))
    (fun j commodity_positions =>
       l <- getitem lines j ;;
       let check_line := strip l in
       match re_search code_word check_line with
       | Some code_match =>
         let commodity_code := group 1 code_match in
         if negb (existsb (fun pos => (Z.abs (fst pos - j) <? 2)%Z
                                      && str_eqb (snd pos) commodity_code)
                          commodity_positions)
         then Ok (Break (commodity_positions ++ [(j, commodity_code)]))
         else Ok (Next commodity_positions)
       | None => Ok (Next commodity_positions)
       end)
    commodity_positions.

(** The commodity codes.  (The source counts [i] up in a [while] loop
    without leaving it; this is the loop over the range.) *)
Definition customs_commodity_positions (lines : list pystr) (dsi : Z)
  : outcome (list (Z * pystr)) :=
  let search_start := Z.max dsi 30 in
  for_each (range search_start (zlen lines))
    (fun i commodity_positions =>
       l <- getitem lines i ;;
       let line := strip l in
       combined_line <-
         (if (i + 1 <? zlen lines)%Z
          then l' <- getitem lines (i + 1) ;; Ok (line ++ u " " ++ strip l')
          else Ok line) ;;
       if contains (u "33 Тарифн") combined_line
          || contains (u "33 Тарифна ознака") combined_line
          || (contains (u "Тарифна ознака") combined_line
              && contains (u "32") combined_line)
       then
         commodity_positions <- customs_code_after lines i commodity_positions ;;
         Ok (Next commodity_positions)
       else Ok (Next commodity_positions))
    [].

(** The description: the first line before the commodity code, going
    back, that is neither a heading, a number nor a packaging line. *)
Definition customs_item_description (lines : list pystr) (commodity_index : Z)
           (item : goods_item) : outcome goods_item :=
  for_each (range_down (commodity_index - 1) (Z.max 0 (commodity_index - 15)))
    (fun i item =>
       l <- getitem lines i ;;
       let line := strip l in
       if contains (u "Ознаки и броеви") line || str_eqb line (u "32")
          || str_eqb line (u "Не") || startswith (u "33 ") line || isdigit line
       then Ok (Next item)
       else if found packaging_text line || contains (u "на стока") line
               || contains (u "опис") line || contains (u "Колети") line
               || startswith (u "31 ") line
       then Ok (Next item)
       else if truthy line && (5 <=? length line)%nat
               && (existsb (fun c => (1040 <=? c)%N && (c <=? 1103)%N) line
                   || existsb uni_isupper line)
               && negb (startswith (u "32 ") line)
               && negb (startswith (u "33 ") line)
               && negb (startswith (u "34 ") line)
               && negb (startswith (u "35 ") line)
               && negb (startswith (u "37 ") line)
               && negb (startswith (u "38 ") line)
               && negb (startswith (u "39 ") line)
               && negb (startswith (u "40 ") line)
               && negb (startswith (u "41 ") line)
               && negb (startswith (u "44 ") line)
               && negb (startswith (u "46 ") line)
               && negb (contains (u "Бруто маса") line)
               && negb (contains (u "Нето маса") line)
               && negb (contains (u "Квота") line)
               && negb (contains (u "ПОСТАПКА") line)
               && negb (matches plain_number line)
               && negb (matches two_letters line)
       then Ok (Break (set_GooDesGDS23 (strip (rstrip_chr 44 line)) item))
       else Ok (Next item))
    item.

(** The gross mass: the first number in the lines after the heading of
    field 35, within the item. *)
Definition customs_item_mass (lines : list pystr) (item_start item_end : Z)
           (item : goods_item) : outcome goods_item :=
  for_each (range item_start item_end)
    (fun i item =>
       l <- getitem lines i ;;
       if contains (u "35 Бруто маса") l then
         item <- for_each (range (i + 1) (Z.min (i + 10) item_end))
                   (fun j item =>
                      l <- getitem lines j ;;
                      let mass_line := strip l in
                      match re_search decimal_number mass_line with
                      | Some mass_match =>
                        match float_of_str (group 1 mass_match) with
                        | Some mass => Ok (Break (set_GroMasGDS46 mass item))
                        | None => Ok (Next item)
                        end
                      | None => Ok (Next item)
                      end)
                   item ;;
         Ok (Break item)
       else Ok (Next item))
    item.

(** One turn of the loop over the commodity codes. *)
Definition customs_extract_item (lines : list pystr)
           (commodity_positions : list (Z * pystr)) (item_num : Z)
           (commodity_index : Z) (commodity_code : pystr) : outcome goods_item :=
  let item := GoodsItem (str_of_Z item_num) None (u "") None commodity_code
                        [] [] in
  next_commodity_index <-
    (if (item_num <? zlen commodity_positions)%Z
     then p <- getitem commodity_positions item_num ;; Ok (fst p)
     else Ok (zlen lines)) ;;
  let item_start := Z.max 0 (commodity_index - 10) in
  let item_end := Z.min (zlen lines) next_commodity_index in
  item <- customs_item_description lines commodity_index item ;;
  item <- customs_item_mass lines item_start item_end item ;;
  item <- customs_item_packaging lines item_start commodity_index item ;;
  customs_item_documents lines commodity_index item_end item.

Definition customs_gooitegds_items (lines : list pystr) (dsi : Z)
           (goods : list goods_item) : outcome (list goods_item) :=
  commodity_positions <- customs_commodity_positions lines dsi ;;
  match commodity_positions with
  | [] => Ok (goods ++ [_create_empty_item])
  | _ =>
    for_each (enumerate_from 1 commodity_positions)
      (fun np goods =>
         let '(item_num, (commodity_index, commodity_code)) := np in
         item <- customs_extract_item lines commodity_positions item_num
                                      commodity_index commodity_code ;;
         Ok (Next (goods ++ [item])))
      goods
  end.

(** *** [extract_all] with the methods of the customs engine *)
Definition customs_extract_all (text_lines : list pystr) : outcome value :=
  let self := Extractor text_lines (customs_find_data_section text_lines)
                        (HEAHEA init) (TRAEXPEX1 init) (TRACONCE1 init)
                        (SEAINFSLI init) (GOOITEGDS init) in
  h <- customs_heahea_fields (lines self) (data_start_index self) (HEAHEA self) ;;
  t <- customs_traexpex1_fields (lines self) (TRAEXPEX1 self) ;;
  c <- customs_traconce1_fields str_upper (lines self) (TRACONCE1 self) ;;
  g <- customs_gooitegds_items (lines self) (data_start_index self)
                               (GOOITEGDS self) ;;
  Ok (data (Extractor (lines self) (data_start_index self) h t c
                      (SEAINFSLI self) g)).

End CustomsGoods.


(** ** Auxiliary definitions for the statements *)

(** The decision of [detect_format] as a function of the two scores. *)
Definition decision (customs standard : nat) : ECDFormat :=
  if Nat.ltb standard customs && Nat.leb 2 customs then CUSTOMS
  else if Nat.ltb customs standard && Nat.leb 2 standard then STANDARD
  else UNKNOWN.

(** The sum of the weights of the tests that matched. *)
Fixpoint weigh (ws : list nat) (fs : list bool) : nat :=
  match ws, fs with
  | w :: ws', f :: fs' => (if f then w else 0) + weigh ws' fs'
  | _, _ => 0
  end.

Definition customs_weights : list nat := [2; 1; 2; 1].
Definition standard_weights : list nat := [2; 2; 1; 1].

Section Landmarks.
Context {L : PyLib}.

(** The line before the first line that reads [KGM], stripped (empty when
    that line is the first one); [None] when no line reads [KGM]. *)
Definition mass_line (lines : list pystr) : option pystr :=
  match find (fun il => str_eqb (strip (snd il)) (u "KGM")) (enumerate lines) with
  | Some (i, _) => Some (get_line_safe lines (i - 1))
  | None => None
  end.


(** The positions, from [start] on, of the lines that are an eight-digit
    commodity code. *)
Definition commodity_lines (lines : list pystr) (start : Z) : list Z :=
  filter (fun i => matches commodity_pattern (get_line_safe lines i))
         (range start (zlen lines)).


(** The sender's tax number, once stored, is a string. *)
Definition tin_is_str (t : dict) : Prop :=
  dict_get (u "TINEX159") t = None
  \/ exists s, dict_get (u "TINEX159") t = Some (VStr s).

(** What the loops over the lines of an item leave as it was created. *)
Definition item_frame (n c : pystr) (it : goods_item) : Prop :=
  IteNumGDS7 it = n /\ ComNomCMD1 it = c /\ PRODOCDC2 it = [].

Definition doc_pair (d : document) : pystr * pystr :=
  (DocTypDC21 d, DocRefDC23 d).

(** The reference documents of an item: no (type, reference) pair twice,
    and every type in the vocabulary. *)
Definition docs_ok (vocabulary : list pystr) (it : goods_item) : Prop :=
  NoDup (map doc_pair (PRODOCDC2 it))
  /\ Forall (fun d => In (DocTypDC21 d) vocabulary) (PRODOCDC2 it).



Definition country_from (lines : list pystr) (dsi : Z) (c0 c : dict) : Prop :=
  dict_get (u "CouCE125") c = dict_get (u "CouCE125") c0
  \/ exists i, (dsi + 5 <= i < dsi + 30)%Z /\ (i < zlen lines)%Z
               /\ matches reference_pattern (get_line_safe lines i) = true
               /\ dict_get (u "CouCE125") c
                  = Some (VStr (get_line_safe lines (i - 1))).

Definition doc_key (d : document) : pystr :=
  DocTypDC21 d ++ u "-" ++ DocRefDC23 d.

(** [v[k]] when [v] is a dictionary that holds [k]. *)
Definition field (k : string) (v : value) : option value :=
  match v with
  | VDict d => dict_get (u k) d
  | _ => None
  end.



(** The record [extract_all] assembles from the five entries. *)
Definition declaration (h t c : dict) (g : list goods_item) : value :=
  VDict [(u "HEAHEA", VDict h); (u "TRAEXPEX1", VDict t);
         (u "TRACONCE1", VDict c); (u "SEAINFSLI", SEAINFSLI init);
         (u "GOOITEGDS", VList (map value_of_item g))].

End Landmarks.

(** *** For the further properties *)

Section Statements.
Context {L : PyLib}.

(** The report [r] with what [r1] records appended. *)
Definition extend (r r1 : report) : report :=
  Report (differences r ++ differences r1) (matches_ r ++ matches_ r1).

Definition lift (r : report) (o : outcome report) : outcome report :=
  match o with
  | Ok r1 => Ok (extend r r1)
  | Raise e => Raise e
  end.

Section AgreeLoops.
Variable agr : value -> value -> bool.

Fixpoint agree_elems (al el : list value) {struct el} : bool :=
  match al, el with
  | a :: al', e :: el' => agr a e && agree_elems al' el'
  | _, _ => true
  end.

End AgreeLoops.

(** The expected value is found in the actual one: every key of an
    expected dictionary is a key of the actual dictionary, with values that
    agree; an expected list is matched by a value of the same length whose
    elements agree in turn; an expected leaf is equal to the actual value. *)
Fixpoint agrees (actual expected : value) {struct expected} : bool :=
  match expected with
  | VDict ed =>
    match actual with
    | VDict d =>
      forallb (fun kv => match dict_get (fst kv) d with
                         | Some av => agrees av (snd kv)
                         | None => false
                         end) ed
    | _ => match ed with [] => true | _ :: _ => false end
    end
  | VList el =>
    match py_len actual with
    | Ok n => Nat.eqb n (length el) && agree_elems agrees (py_iter actual) el
    | Raise _ => false
    end
  | _ => leaf_eq actual expected
  end.

(** [None], a boolean or a number: a value without [len] and [in]. *)
Definition is_scalar (v : value) : bool :=
  match v with
  | VNone | VBool _ | VInt _ | VFloat _ => true
  | _ => false
  end.

(** A comparison appends to the report it is given. *)
Definition appends_to
           (cmp : pystr -> value -> value -> report -> outcome report)
           (e : value) : Prop :=
  forall a path r, cmp path a e r = lift r (cmp path a e (Report [] [])).

(** On an empty report, the comparison leaves no difference exactly when
    the expected value is found. *)
Definition sound_for
           (cmp : pystr -> value -> value -> report -> outcome report)
           (e : value) : Prop :=
  forall a path r1,
    cmp path a e (Report [] []) = Ok r1 ->
    Nat.eqb (length (differences r1)) 0 = agrees a e.

(** [i] is the first line that satisfies [p]. *)
Definition first_at (p : pystr -> bool) (lines : list pystr) (i : nat) : Prop :=
  (exists l, nth_error lines i = Some l /\ p l = true)
  /\ forall j l, (j < i)%nat -> nth_error lines j = Some l -> p l = false.

(** The test of [find_next_nonempty_line] on a stripped line: not empty
    and not one of the markers. *)
Definition significant (line : pystr) : bool :=
  truthy line && negb (str_in line markers).

(** A header field as the loops leave it: as it was, or set to a string
    of the field's domain. *)
Definition kept_or (P : pystr -> Prop) (K : pystr) (h h' : dict) : Prop :=
  dict_get K h' = dict_get K h
  \/ exists s, dict_get K h' = Some (VStr s) /\ P s.

(** A key that is absent or holds a string. *)
Definition none_or_str (K : pystr) (t : dict) : Prop :=
  dict_get K t = None \/ exists s, dict_get K t = Some (VStr s).

(** The packaging of an item: no entry, or one entry of a known kind with
    a count made of digits. *)
Definition pack_ok (it : goods_item) : Prop :=
  PACGS2 it = []
  \/ exists p, PACGS2 it = [p]
               /\ str_in (KinOfPacGS23 p) package_types = true
               /\ isdigit (NumOfPacGS24 p) = true
               /\ MarNumOfPacGS21 p = None.

(** No reference document of the item has the type [5007]. *)
Definition no_5007 (it : goods_item) : Prop :=
  Forall (fun d => str_eqb (DocTypDC21 d) (u "5007") = false) (PRODOCDC2 it).

End Statements.

(** *** For the properties of the customs engine *)

Section CustomsStatements.
Context {L : PyLib}.

(** The coded fields of a customs header, where set, hold values of their
    domains. *)
Definition customs_header_ok (h : dict) : Prop :=
  (forall v, dict_get (u "TotGroMasHEA307") h = Some v -> exists f, v = VFloat f)
  /\ (forall v, dict_get (u "TraModAtBorHEA76") h = Some v ->
                exists s, v = VStr s /\ str_in s mode_digits = true)
  /\ (forall v, dict_get (u "CouOfDisCodHEA55") h = Some v -> v = VStr (u "MK"))
  /\ (forall v, dict_get (u "CouOfDesCodHEA30") h = Some v ->
                exists s, v = VStr s /\ str_eqb s (u "MK") = false)
  /\ (forall v, dict_get (u "ConIndHEA96") h = Some v ->
                exists s, v = VStr s /\ str_in s [u "0"; u "1"] = true).

(** A recorded commodity code: its line lies after line [lo], and the code
    is the first word of eight digits of that line. *)
Definition customs_position_ok (lines : list pystr) (lo : Z) (p : Z * pystr)
  : Prop :=
  (lo < fst p < zlen lines)%Z
  /\ exists l m, nth_error lines (Z.to_nat (fst p)) = Some l
                 /\ re_search code_word (strip l) = Some m
                 /\ snd p = group 1 m.

(** Two recorded codes: different, or at least two lines apart. *)
Definition apart (p q : Z * pystr) : Prop :=
  (Z.abs (fst p - fst q) < 2)%Z -> snd p <> snd q.

(** A goods item of the customs engine, for the code [code] found as the
    [n]-th. *)
Definition customs_item_ok (n : Z) (code : pystr) (it : goods_item) : Prop :=
  IteNumGDS7 it = str_of_Z n /\ ComNomCMD1 it = code
  /\ UNDanGooCodGDI1 it = None
  /\ (length (PACGS2 it) <= 1)%nat
  /\ docs_ok customs_doc_types it.

End CustomsStatements.


(** ** Sample documents, for running the model *)

(** The first lines of a declaration of the standard layout: the
    declaration code, the parties and the header. *)
Definition header_lines : list pystr :=
  [u "EXMK"; u "MK4030000000000"; u "Firma"; u "ул. Prva 1, Скопје"; u "";
   u ""; u "ROBERT & CO LTD"; u "BASE 71210 St.Eusebe"; u "FR"; u "123456";
   u "FR12345"; u "SK1817AN/SK4715AI"; u "MK"; u "0"; u "CPT"; u "3";
   u "EUR"; u "2031"; u "ТАБАНОВЦЕ-ПАТН."; u "1200"; u "KGM"].

(** The whole declaration, with two goods items past line 100. *)
Definition sample_lines : list pystr :=
  header_lines
  ++ repeat [] 88
  ++ [u "7"; u "PX"; u "1.000"; u "635.000"; u "84253100"; u "Палета";
      u "Витло на електричен погон -1  ком.,";
      u "5010(011/2022); 5016(0002826); 5010(011/2022); 5007(x)";
      u "84253111"].

(** What a computation returned, [default] standing for an exception. *)
Definition returned {A : Type} (default : A) (o : outcome A) : A :=
  match o with
  | Ok a => a
  | Raise _ => default
  end.


(** A record with one goods item, of the shape that the extraction
    gives. *)
Definition sample_record : @value sample_lib :=
  declaration (L := sample_lib)
    [(u "TotGroMasHEA307", VInt 1200);
     (u "IdeOfMeaOfTraAtDHEA78", VStr (u "SK1817AN/SK4715AI"));
     (u "NatOfMeaOfTraCroHEA87", VStr (u "MK"));
     (u "TraModAtBorHEA76", VStr (u "3"));
     (u "ConIndHEA96", VStr (u "0"));
     (u "DecPlaHEA394", VStr (u "2031 ТАБАНОВЦЕ-ПАТН."))]
    [(u "TINEX159", VStr (u "MK4030000000000")); (u "NamEX17", VStr (u "Firma"));
     (u "PosCodEX123", VNone); (u "CouEX125", VStr (u "МК"))]
    [(u "CouCE125", VStr (u "FR")); (u "NamCE17", VStr (u "ROBERT & CO LTD"));
     (u "TINCE159", VNone)]
    [GoodsItem (L := sample_lib) (u "1") (Some (float_of_Z 635))
               (u "Витло на електричен погон -1ком.,") None (u "84253100")
               [Package (u "PX") (u "7") None]
               [Document (u "5010") (u "011/2022");
                Document (u "5016") (u "0002826")]].

(** A goods item whose mass line reads [nan], and the record extracted
    from it. *)
Definition nan_lines : list pystr :=
  repeat [] 100 ++ [u "84253100"; u "PX"; u "1"; u "nan"].

Definition nan_record : @value sample_lib :=
  declaration (L := sample_lib) [(u "TraModAtBorHEA76", VStr (u "1"))]
    [(u "PosCodEX123", VNone)] [(u "TINCE159", VNone)]
    [GoodsItem (L := sample_lib) (u "1") (Some PrimFloat.nan) (u "") None
               (u "84253100") [Package (u "PX") (u "84253100") None] []].

(** The lines of an item of the customs layout, with its documents. *)
Definition customs_lines : list pystr :=
  [u "12345678"; u "44 Дополнителни"; u "информации";
   u "AUN-MK19AUN, POAN- MK26POA, 5016-0052639/2024,";
   u "5011-93015589, 5016-0052639/2024"; u "46 Stat"].


(** [str.upper] on the repertoire of the sample instance. *)
Definition sample_upper_chr (c : N) : N :=
  if in_range 97 122 c then (c - 32)%N
  else if in_range 224 246 c || in_range 248 254 c then (c - 32)%N
  else if in_range 1072 1103 c then (c - 32)%N
  else if in_range 1104 1119 c then (c - 80)%N
  else c.

Definition sample_upper (s : pystr) : pystr := map sample_upper_chr s.

(** [str.isupper] on a character of the repertoire of the sample
    instance. *)
Definition sample_isupper (c : N) : bool :=
  in_range 65 90 c || in_range 192 214 c || in_range 216 222 c
  || in_range 1024 1071 c.

(** A declaration of the customs layout with one goods item, and the item
    and the record extracted from it. *)
Definition customs_item_lines : list pystr :=
  [u "2 Consignor/Exporter"; u "ДОМЕЛ ДООЕЛ"; u "ул. Индустриска 5 1000"; u "";
   u "MK4030000000000"; u ""; u "Скопје"; u "MK"]
  ++ repeat [] 20
  ++ [u "Електромотор за правосмукалка,"; u "Палета-2-PX";
      u "33 Тарифна ознака"; u "85011010"; u "35 Бруто маса (kg)"; u "12.5";
      u "44 Дополнителни"; u "5016-0052639/2024"; u "46 Stat"].

Definition customs_item_sample : @goods_item sample_lib :=
  GoodsItem (L := sample_lib) (u "1")
            (Some (PrimFloat.div (float_of_Z 25) (float_of_Z 2)))
            (u "Електромотор за правосмукалка") None (u "85011010")
            [Package (u "PX") (u "2") None]
            [Document (u "5016") (u "0052639/2024")].

Definition customs_item_record : @value sample_lib :=
  declaration (L := sample_lib)
    [(u "TotGroMasHEA307",
      VFloat (L := sample_lib) (PrimFloat.div (float_of_Z 25) (float_of_Z 2)))]
    [(u "NamEX17", VStr (u "ДОМЕЛ ДООЕЛ"));
     (u "StrAndNumEX122", VStr (u "ул. Индустриска 5 1000"));
     (u "TINEX159", VStr (u "MK4030000000000"));
     (u "CitEX124", VStr (u "Скопје")); (u "CouEX125", VStr (u "МК"));
     (u "PosCodEX123", VStr (u "1000"))]
    []
    [customs_item_sample].

(** A text that ends on its commodity code. *)
Definition customs_short_lines : list pystr :=
  repeat [] 30 ++ [u "33 Тарифна ознака"; u "85011010"].

(** * Properties *)

(** ** Strings and loops *)

Lemma str_eqb_refl (s : pystr) : str_eqb s s = true.
Proof.
  induction s as [|c s IH]; simpl; [reflexivity|].
  now rewrite N.eqb_refl, IH.
Qed.

Lemma str_eqb_eq (a b : pystr) : str_eqb a b = true <-> a = b.
Proof.
  split.
  - revert b; induction a as [|x a IH]; intros [|y b] H; simpl in H;
      try discriminate; [reflexivity|].
    apply andb_true_iff in H as [Hx Hab].
    apply N.eqb_eq in Hx. f_equal; auto.
  - intros ->. apply str_eqb_refl.
Qed.

Lemma str_in_In (s : pystr) (l : list pystr) : str_in s l = true <-> In s l.
Proof.
  unfold str_in. rewrite existsb_exists. split.
  - intros [x [Hx He]]. apply str_eqb_eq in He. now subst.
  - intros H. exists s. split; [assumption|apply str_eqb_refl].
Qed.

(** ** The classifier *)

Section DetectorFacts.
Context {L : PyLib}.

Lemma customs_indicators_weigh (text : pystr) :
  customs_indicators text = weigh customs_weights (customs_checks text).
Proof.
  unfold customs_indicators, customs_checks, customs_weights; simpl.
  destruct (customs_check1 text), (customs_check2 text),
    (customs_check3 text), (customs_check4 text); reflexivity.
Qed.

Lemma standard_indicators_weigh (text : pystr) :
  standard_indicators text = weigh standard_weights (standard_checks text).
Proof.
  unfold standard_indicators, standard_checks, standard_weights; simpl.
  destruct (standard_check1 text), (standard_check2 text),
    (standard_check3 text), (standard_check4 text); reflexivity.
Qed.

(** An empty sample matches no customs test and scores at most 1 as
    standard (whatever [str.lower] makes of it). *)
Lemma indicators_nil :
  customs_indicators [] = 0 /\ standard_indicators [] <= 1.
Proof.
  split; [vm_compute; reflexivity|].
  unfold standard_indicators.
  replace (standard_check1 []) with false by (vm_compute; reflexivity).
  replace (standard_check2 []) with false by (vm_compute; reflexivity).
  replace (standard_check3 []) with false by (vm_compute; reflexivity).
  destruct (standard_check4 []); simpl; lia.
Qed.

Lemma detect_format_decision_eq (text : pystr) :
  detect_format text
  = decision (customs_indicators text) (standard_indicators text).
Proof.
  unfold detect_format. destruct text as [|c text].
  - change (negb (truthy [])) with true. cbv iota.
    destruct indicators_nil as [-> H1]. unfold decision.
    destruct (standard_indicators []) as [|[|n]]; [reflexivity|reflexivity|lia].
  - change (negb (truthy (c :: text))) with false. cbv iota zeta.
    unfold decision. reflexivity.
Qed.

Lemma decision_customs (c s : nat) :
  decision c s = CUSTOMS <-> s < c /\ 2 <= c.
Proof.
  unfold decision.
  destruct (Nat.ltb_spec s c), (Nat.leb_spec 2 c), (Nat.ltb_spec c s),
    (Nat.leb_spec 2 s); simpl; split; intro; try discriminate;
    try lia; try reflexivity.
Qed.

Lemma decision_standard (c s : nat) :
  decision c s = STANDARD <-> c < s /\ 2 <= s.
Proof.
  unfold decision.
  destruct (Nat.ltb_spec s c), (Nat.leb_spec 2 c), (Nat.ltb_spec c s),
    (Nat.leb_spec 2 s); simpl; split; intro; try discriminate;
    try lia; try reflexivity.
Qed.

Lemma decision_lean_customs (c c' s : nat) :
  c <= c' -> customs_lean (decision c s) <= customs_lean (decision c' s).
Proof.
  intros Hle. unfold decision.
  destruct (Nat.ltb_spec s c), (Nat.leb_spec 2 c), (Nat.ltb_spec c s),
    (Nat.leb_spec 2 s), (Nat.ltb_spec s c'), (Nat.leb_spec 2 c'),
    (Nat.ltb_spec c' s); simpl; lia.
Qed.

Lemma decision_lean_standard (c s s' : nat) :
  s <= s' -> customs_lean (decision c s') <= customs_lean (decision c s).
Proof.
  intros Hle. unfold decision.
  destruct (Nat.ltb_spec s c), (Nat.leb_spec 2 c), (Nat.ltb_spec c s),
    (Nat.leb_spec 2 s), (Nat.ltb_spec s' c), (Nat.ltb_spec c s'),
    (Nat.leb_spec 2 s'); simpl; lia.
Qed.

Lemma weigh_one_more (ws : list nat) (fs fs' : list bool) :
  one_more fs fs' -> weigh ws fs <= weigh ws fs'.
Proof.
  intros (a & b & -> & ->). revert ws.
  induction a as [|f a IH]; intros [|w ws]; simpl; try lia.
  specialize (IH ws). lia.
Qed.

(** C3.  The classifier returns the customs variant exactly when the
    customs score is strictly greater than the standard score and at least
    2, the standard variant exactly when the standard score is strictly
    greater than the customs score and at least 2, and [UNKNOWN] in every
    other case (ties and scores under the threshold included). *)
Theorem detect_format_decision (text : pystr) :
  (detect_format text = CUSTOMS <->
   standard_indicators text < customs_indicators text
   /\ 2 <= customs_indicators text)
  /\ (detect_format text = STANDARD <->
      customs_indicators text < standard_indicators text
      /\ 2 <= standard_indicators text)
  /\ (detect_format text = UNKNOWN <->
      ~ (standard_indicators text < customs_indicators text
         /\ 2 <= customs_indicators text)
      /\ ~ (customs_indicators text < standard_indicators text
            /\ 2 <= standard_indicators text)).
Proof.
  rewrite detect_format_decision_eq.
  set (c := customs_indicators text). set (s := standard_indicators text).
  split; [apply decision_customs|]. split; [apply decision_standard|].
  rewrite <- decision_customs, <- decision_standard.
  destruct (decision c s); split; try intros [H1 H2]; try intros H;
    try discriminate; try reflexivity;
    try (split; intros H'; discriminate);
    first [exfalso; apply H1; reflexivity | exfalso; apply H2; reflexivity].
Qed.

(** C7.  When a sample gains one matching indicator of a variant while the
    indicators matched for the other variant stay the same, the score of
    that variant does not decrease and the decision does not move toward
    the other variant. *)
Theorem classifier_monotone (text text' : pystr) :
  (one_more (customs_checks text) (customs_checks text') ->
   standard_checks text' = standard_checks text ->
   customs_indicators text <= customs_indicators text'
   /\ customs_lean (detect_format text) <= customs_lean (detect_format text'))
  /\ (one_more (standard_checks text) (standard_checks text') ->
      customs_checks text' = customs_checks text ->
      standard_indicators text <= standard_indicators text'
      /\ customs_lean (detect_format text') <= customs_lean (detect_format text)).
Proof.
  rewrite !detect_format_decision_eq.
  rewrite !customs_indicators_weigh, !standard_indicators_weigh.
  split; intros H1 H2; rewrite H2;
    pose proof (weigh_one_more customs_weights H1) as Hc;
    pose proof (weigh_one_more standard_weights H1) as Hs.
  - split; [exact Hc|]. now apply decision_lean_customs.
  - split; [exact Hs|]. now apply decision_lean_standard.
Qed.

End DetectorFacts.

(** ** The comparator *)

Section ComparatorFacts.
Context {L : PyLib}.

Section ValueInduction.
Variable P : value -> Prop.
Hypothesis HNone : P VNone.
Hypothesis HBool : forall b, P (VBool b).
Hypothesis HInt : forall z, P (VInt z).
Hypothesis HFloat : forall f, P (VFloat f).
Hypothesis HStr : forall s, P (VStr s).
Hypothesis HList : forall l, Forall P l -> P (VList l).
Hypothesis HDict : forall d, Forall (fun kv => P (snd kv)) d -> P (VDict d).

Fixpoint value_induction (v : value) : P v :=
  match v with
  | VNone => HNone
  | VBool b => HBool b
  | VInt z => HInt z
  | VFloat f => HFloat f
  | VStr s => HStr s
  | VList l =>
    HList ((fix all (l : list value) : Forall P l :=
              match l with
              | [] => Forall_nil P
              | x :: l' => Forall_cons x (value_induction x) (all l')
              end) l)
  | VDict d =>
    HDict ((fix all (d : list (pystr * value))
              : Forall (fun kv => P (snd kv)) d :=
              match d with
              | [] => Forall_nil _
              | kv :: d' =>
                Forall_cons kv
                  (match kv as p return P (snd p) with
                   | (k, x) => value_induction x
                   end)
                  (all d')
              end) d)
  end.

End ValueInduction.

(** What a self-comparison of [v] leaves in the report: no new difference
    and one match for each leaf. *)
Definition self_ok (cmp : pystr -> value -> value -> report -> outcome report)
           (v : value) : Prop :=
  forall path r, exists ms,
    cmp path v v r = Ok (Report (differences r) (matches_ r ++ ms))
    /\ length ms = leaves v.

Lemma dict_get_no_dup (d : dict) (k : pystr) (v : value) :
  no_dup_keys (map fst d) = true -> In (k, v) d -> dict_get k d = Some v.
Proof.
  induction d as [|[k' v'] d IH]; simpl; intros Hnd Hin; [contradiction|].
  apply andb_true_iff in Hnd as [Hk Hnd].
  destruct Hin as [Heq|Hin].
  - inversion Heq; subst. now rewrite str_eqb_refl.
  - destruct (str_eqb k k') eqn:E.
    + apply str_eqb_eq in E; subst k'.
      apply negb_true_iff in Hk.
      assert (str_in k (map fst d) = true) as Hc.
      { apply str_in_In. apply in_map_iff. exists (k, v). auto. }
      congruence.
    + auto.
Qed.

Lemma compare_elems_self cmp (l : list value) :
  Forall (self_ok cmp) l ->
  forall path i r, exists ms,
    compare_elems cmp path i l l r
    = Ok (Report (differences r) (matches_ r ++ ms))
    /\ length ms = fold_right (fun x n => leaves x + n) 0 l.
Proof.
  induction 1 as [|x l Hx Hl IH]; intros path i r; simpl.
  - exists []. now rewrite app_nil_r; destruct r.
  - destruct (Hx (index_path path i) r) as (ms1 & -> & Hlen1). simpl.
    destruct (IH path (S i) (Report (differences r) (matches_ r ++ ms1)))
      as (ms2 & -> & Hlen2). simpl.
    exists (ms1 ++ ms2). rewrite app_assoc, length_app. split; [reflexivity|lia].
Qed.

Lemma compare_keys_self cmp (d ed : dict) :
  (forall k v, In (k, v) ed -> dict_get k d = Some v) ->
  Forall (fun kv => self_ok cmp (snd kv)) ed ->
  forall path r, exists ms,
    compare_keys cmp path (VDict d) ed r
    = Ok (Report (differences r) (matches_ r ++ ms))
    /\ length ms = fold_right (fun kv n => leaves (snd kv) + n) 0 ed.
Proof.
  intros Hget Hall. induction Hall as [|[k v] ed Hv Hed IH]; intros path r; simpl.
  - exists []. now rewrite app_nil_r; destruct r.
  - unfold dict_has. rewrite (Hget k v) by (now left). simpl.
    destruct (Hv (key_path path k) r) as (ms1 & E1 & Hlen1).
    simpl in E1, Hlen1. rewrite E1. simpl.
    destruct (IH (fun k' v' H => Hget k' v' (or_intror H)) path
                 (Report (differences r) (matches_ r ++ ms1)))
      as (ms2 & -> & Hlen2). simpl.
    exists (ms1 ++ ms2). rewrite app_assoc, length_app. split; [reflexivity|lia].
Qed.

Lemma compare_dict_self (v : value) :
  well_formed v = true -> nan_free v = true -> self_ok compare_dict v.
Proof.
  induction v as [| b | z | f | s | l IH | d IH] using value_induction;
    intros Hwf Hnan path r; simpl in *.
  - exists [path]. auto.
  - exists [path]. now rewrite Bool.eqb_reflx.
  - exists [path]. now rewrite Z.eqb_refl.
  - exists [path]. now rewrite Hnan.
  - exists [path]. now rewrite str_eqb_refl.
  - rewrite Nat.eqb_refl. simpl. apply compare_elems_self.
    rewrite forallb_forall in Hwf, Hnan. rewrite Forall_forall in IH |- *.
    intros x Hx. apply IH; auto.
  - apply andb_true_iff in Hwf as [Hnd Hwf].
    rewrite forallb_forall in Hwf, Hnan. rewrite Forall_forall in IH.
    apply compare_keys_self.
    + intros k v Hin. now apply dict_get_no_dup.
    + apply Forall_forall. intros kv Hkv. apply IH; auto.
Qed.

(** C4, amended.  For every record in which no float is a NaN (and, as in
    any Python dictionary, no key is held twice), the comparator run with
    the record as both the actual and the reference value reports no
    difference, and as many matches as the record has leaves. *)
Theorem compare_with_itself (v : value) :
  well_formed v = true -> nan_free v = true ->
  exists r, compare_with_expected v v = Ok r
            /\ differences r = []
            /\ length (matches_ r) = leaves v
            /\ is_correct r = true.
Proof.
  intros Hwf Hnan. unfold compare_with_expected.
  destruct (compare_dict_self v Hwf Hnan [] (Report [] [])) as (ms & -> & Hlen).
  eexists. split; [reflexivity|]. simpl. auto.
Qed.

End ComparatorFacts.

Unset Implicit Arguments.

(** ** Loops, ranges and dictionaries *)

Definition ctl_state {S : Type} (c : ctl S) : S :=
  match c with Next s => s | Break s => s end.

(** A loop whose body never raises and keeps an invariant ends, with the
    invariant. *)
Lemma for_each_inv {A S : Type} (I : S -> Prop) (xs : list A)
      (body : A -> S -> outcome (ctl S)) (s : S) :
  I s ->
  (forall x s1, In x xs -> I s1 ->
                exists c, body x s1 = Ok c /\ I (ctl_state c)) ->
  exists s', for_each xs body s = Ok s' /\ I s'.
Proof.
  revert s. induction xs as [|x xs IH]; intros s Hs Hbody; simpl.
  - eauto.
  - destruct (Hbody x s (or_introl eq_refl) Hs) as ([s1|s1] & -> & H1);
      simpl in H1.
    + apply IH; [assumption|]. intros y s2 Hy. apply Hbody. now right.
    + eauto.
Qed.

Lemma In_range (a b i : Z) : In i (range a b) <-> (a <= i < b)%Z.
Proof.
  unfold range. rewrite in_map_iff. split.
  - intros (k & <- & Hk). apply in_seq in Hk. lia.
  - intros H. exists (Z.to_nat (i - a)). split; [lia|]. apply in_seq. lia.
Qed.

Lemma In_range_down (a b i : Z) : In i (range_down a b) <-> (b < i <= a)%Z.
Proof.
  unfold range_down. rewrite in_map_iff. split.
  - intros (k & <- & Hk). apply in_seq in Hk. lia.
  - intros H. exists (Z.to_nat (a - i)). split; [lia|]. apply in_seq. lia.
Qed.

Lemma In_window (lines : list pystr) (start n i : Z) :
  In i (window lines start n) <-> (start <= i < Z.min (zlen lines) (start + n))%Z.
Proof. apply In_range. Qed.

Lemma getitem_ok {A : Type} (xs : list A) (i : Z) :
  (0 <= i < zlen xs)%Z -> exists x, getitem xs i = Ok x /\ nth_error xs (Z.to_nat i) = Some x.
Proof.
  intros H. unfold getitem, zlen in *.
  destruct (Z.ltb_spec i 0); [lia|]. destruct (Z.ltb_spec i 0); [lia|].
  destruct (nth_error xs (Z.to_nat i)) eqn:E; [eauto|].
  apply nth_error_None in E. lia.
Qed.

Lemma dict_get_set_same {V : Type} (k : pystr) (v : V) (d : pydict V) :
  dict_get k (dict_set k v d) = Some v.
Proof.
  induction d as [|[k' v'] d IH]; simpl.
  - now rewrite str_eqb_refl.
  - destruct (str_eqb k k') eqn:E; simpl; rewrite E; auto.
Qed.

Lemma str_eqb_sym (a b : pystr) : str_eqb a b = str_eqb b a.
Proof.
  destruct (str_eqb a b) eqn:E1, (str_eqb b a) eqn:E2; auto.
  - apply str_eqb_eq in E1. subst. now rewrite str_eqb_refl in E2.
  - apply str_eqb_eq in E2. subst. now rewrite str_eqb_refl in E1.
Qed.

Lemma dict_get_set_other {V : Type} (k k' : pystr) (v : V) (d : pydict V) :
  str_eqb k k' = false -> dict_get k (dict_set k' v d) = dict_get k d.
Proof.
  intros Hk. induction d as [|[k2 v2] d IH]; simpl.
  - now rewrite Hk.
  - destruct (str_eqb k' k2) eqn:E; simpl.
    + apply str_eqb_eq in E. subst k2. now rewrite Hk.
    + destruct (str_eqb k k2); auto.
Qed.

Lemma dict_has_set_same {V : Type} (k : pystr) (v : V) (d : pydict V) :
  dict_has k (dict_set k v d) = true.
Proof. unfold dict_has. now rewrite dict_get_set_same. Qed.

Section GenericFacts.
Context {L : PyLib}.

Lemma first_nonempty_ok (lines : list pystr) (idxs : list Z) :
  (forall i, In i idxs -> (0 <= i < zlen lines)%Z) ->
  exists i line, first_nonempty lines idxs = Ok (i, line)
                 /\ (i = (-1)%Z /\ line = [] \/ In i idxs /\ truthy line = true).
Proof.
  induction idxs as [|j idxs IH]; intros H; cbn [first_nonempty].
  - exists (-1)%Z, []. auto.
  - destruct (getitem_ok lines j) as (l & -> & _); [apply H; now left|].
    cbn [bind].
    destruct (truthy (strip l) && negb (str_in (strip l) markers)) eqn:E.
    + exists j, (strip l). split; [reflexivity|]. right.
      apply andb_true_iff in E as [E _]. split; [now left|assumption].
    + destruct IH as (i & line & -> & Hi); [intros; apply H; now right|].
      exists i, line. split; [reflexivity|].
      destruct Hi as [Hi|[Hi Ht]]; [now left|right]. split; [now right|assumption].
Qed.

Lemma find_next_forward_ok (lines : list pystr) (start n : Z) :
  (0 <= start)%Z ->
  exists i line, find_next_nonempty_line lines start n false = Ok (i, line)
                 /\ (i = (-1)%Z /\ line = []
                     \/ (start <= i < zlen lines)%Z /\ truthy line = true).
Proof.
  intros H. unfold find_next_nonempty_line.
  destruct (first_nonempty_ok lines
              (range start (Z.min (zlen lines) (start + n))))
    as (i & line & E & Hi).
  - intros i Hi. apply In_range in Hi. lia.
  - exists i, line. split; [assumption|].
    destruct Hi as [?|[Hi ?]]; [now left|right]. apply In_range in Hi.
    split; [lia|assumption].
Qed.

Lemma find_next_backward_ok (lines : list pystr) (start n : Z) :
  (start < zlen lines)%Z ->
  exists i line, find_next_nonempty_line lines start n true = Ok (i, line).
Proof.
  intros H. unfold find_next_nonempty_line.
  destruct (first_nonempty_ok lines
              (range_down start (Z.max 0 (start - n))))
    as (i & line & E & Hi).
  - intros i Hi. apply In_range_down in Hi. lia.
  - eauto.
Qed.

Lemma get_line_safe_nth lines i l :
  (0 <= i < zlen lines)%Z -> nth_error lines (Z.to_nat i) = Some l ->
  get_line_safe lines i = strip l.
Proof.
  intros H E. unfold get_line_safe. rewrite E.
  destruct (Z.leb_spec 0 i), (Z.ltb_spec i (zlen lines)); simpl; try lia; reflexivity.
Qed.

End GenericFacts.

(** *** Tactics for loop bodies

    [crunch] runs a loop body: every indexing and line search is shown to
    be in range, every test is split.  [loop I] runs the outermost loop of
    the goal under the invariant [I]. *)

Ltac split_keys H :=
  cbn [str_in existsb] in H;
  repeat (let Hk := fresh "Hk" in
          apply orb_false_iff in H; destruct H as [Hk H]).

Ltac frame :=
  cbn [ctl_state];
  rewrite ?dict_get_set_other by assumption; try assumption; try reflexivity.

Ltac done_body := eexists; split; [reflexivity | frame].

Ltac crunch :=
  cbn [bind];
  repeat (
    match goal with
    | H : (_ = (-1)%Z /\ _ = []) \/ _ |- _ => destruct H as [[-> ->]|[? ?]]
    | |- context [(?a <? ?b)%Z] => destruct (Z.ltb_spec a b)
    | |- context [(?a <=? ?b)%Z] => destruct (Z.leb_spec a b)
    | |- context [(?a =? ?b)%Z] => destruct (Z.eqb_spec a b)
    | |- context [getitem ?xs ?i] =>
      let H := fresh "Hget" in
      let Hn := fresh "Hnth" in
      destruct (getitem_ok xs i) as (? & H & Hn); [lia | rewrite H; clear H]
    | |- context [find_next_nonempty_line ?l ?s ?n false] =>
      let H := fresh "Hnext" in
      let Hr := fresh "Hrange" in
      destruct (find_next_forward_ok l s n) as (? & ? & H & Hr);
      [lia | rewrite H; clear H]
    | |- context [find_next_nonempty_line ?l ?s ?n true] =>
      let H := fresh "Hnext" in
      destruct (find_next_backward_ok l s n) as (? & ? & H);
      [lia | rewrite H; clear H]
    | |- context [match ?o with Some _ => _ | None => _ end] =>
      destruct o eqn:?
    | |- context [if ?b then _ else _] => destruct b eqn:?
    end; cbn [bind]).

Ltac loop I :=
  cbv zeta;
  match goal with
  | |- context [for_each ?xs ?body ?s] =>
    let E := fresh "Eloop" in
    let x := fresh "st" in
    let Hdone := fresh "Hdone" in
    destruct (for_each_inv I xs body s) as (x & E & Hdone);
    [ | | replace (for_each xs body s) with (Ok x) by (symmetry; exact E);
          clear E; cbn [bind] ]
  end.

Ltac key_ne := reflexivity.

(** *** The header *)

Section HeaderFacts.
Context {L : PyLib}.

(** The first loop sets the mass from the mass line, or raises. *)
Lemma heahea_total_gross_mass_eq (lines : list pystr) (h : dict) :
  heahea_total_gross_mass lines h
  = match mass_line lines with
    | Some s =>
      if isdigit s then
        match py_int s with
        | Some n => Ok (dict_set (u "TotGroMasHEA307") (VInt n) h)
        | None => Raise ValueError
        end
      else Ok h
    | None => Ok h
    end.
Proof.
  unfold heahea_total_gross_mass, mass_line.
  induction (enumerate lines) as [|[i line] xs IH]; cbn [for_each find snd].
  - reflexivity.
  - destruct (str_eqb (strip line) (u "KGM")).
    + destruct (isdigit (get_line_safe lines (i - 1))); [|reflexivity].
      destruct (py_int (get_line_safe lines (i - 1))); reflexivity.
    + exact IH.
Qed.

(** Each of the later loops ends, and writes its own keys only. *)
Lemma heahea_identity_ok lines dsi h K :
  (0 <= dsi)%Z ->
  str_in K [u "IdeOfMeaOfTraAtDHEA78"; u "NatOfMeaOfTraCroHEA87"] = false ->
  exists h', heahea_identity lines dsi h = Ok h' /\ dict_get K h' = dict_get K h.
Proof.
  intros Hd HK. split_keys HK.
  apply (for_each_inv (fun h' => dict_get K h' = dict_get K h)); [reflexivity|].
  intros i h1 Hi Hinv. apply In_window in Hi.
  crunch; done_body.
Qed.

Lemma heahea_mode_ok lines dsi h K :
  (0 <= dsi)%Z -> str_in K [u "TraModAtBorHEA76"] = false ->
  exists h', heahea_mode lines dsi h = Ok h' /\ dict_get K h' = dict_get K h.
Proof.
  intros Hd HK. split_keys HK. unfold heahea_mode.
  loop (fun _ : list pystr => True).
  - exact I.
  - intros i cands Hi _. apply In_window in Hi.
    crunch; eexists; split; reflexivity || exact I.
  - destruct (rev st); done_body.
Qed.

Lemma heahea_dispatch_ok lines dsi h K :
  (0 <= dsi)%Z -> str_in K [u "CouOfDisCodHEA55"] = false ->
  exists h', heahea_dispatch lines dsi h = Ok h' /\ dict_get K h' = dict_get K h.
Proof.
  intros Hd HK. split_keys HK.
  apply (for_each_inv (fun h' => dict_get K h' = dict_get K h)); [reflexivity|].
  intros i h1 Hi Hinv. apply In_window in Hi.
  crunch; done_body.
Qed.

Lemma heahea_destination_ok lines dsi h K :
  (0 <= dsi)%Z -> str_in K [u "CouOfDesCodHEA30"] = false ->
  exists h', heahea_destination lines dsi h = Ok h'
             /\ dict_get K h' = dict_get K h.
Proof.
  intros Hd HK. split_keys HK.
  apply (for_each_inv (fun h' => dict_get K h' = dict_get K h)); [reflexivity|].
  intros i h1 Hi Hinv. apply In_window in Hi.
  crunch. loop (fun h' => dict_get K h' = dict_get K h).
  - assumption.
  - intros country h2 _ Hinv2.
    match goal with |- context [contains country ?l] =>
      destruct (contains country l) end.
    + loop (fun h' => dict_get K h' = dict_get K h).
      * assumption.
      * intros j h3 Hj Hinv3. apply In_range in Hj. crunch; done_body.
      * crunch; done_body.
    + done_body.
  - crunch; done_body.
Qed.

Lemma heahea_container_ok lines dsi h K :
  (0 <= dsi)%Z -> str_in K [u "ConIndHEA96"] = false ->
  exists h', heahea_container lines dsi h = Ok h' /\ dict_get K h' = dict_get K h.
Proof.
  intros Hd HK. split_keys HK.
  apply (for_each_inv (fun h' => dict_get K h' = dict_get K h)); [reflexivity|].
  intros i h1 Hi Hinv. apply In_window in Hi.
  crunch; done_body.
Qed.

Lemma heahea_place_ok lines dsi h K :
  (0 <= dsi)%Z -> str_in K [u "DecPlaHEA394"] = false ->
  exists h', heahea_place lines dsi h = Ok h' /\ dict_get K h' = dict_get K h.
Proof.
  intros Hd HK. split_keys HK.
  apply (for_each_inv (fun h' => dict_get K h' = dict_get K h)); [reflexivity|].
  intros i h1 Hi Hinv. apply In_window in Hi.
  crunch; done_body.
Qed.





(** *** The section locator *)

Lemma In_enumerate_nonneg {A : Type} (xs : list A) (i : Z) (x : A) :
  In (i, x) (enumerate xs) -> (0 <= i)%Z /\ In x xs.
Proof.
  unfold enumerate, enumerate_from. intros H. split.
  - apply in_combine_l in H. apply In_range in H. lia.
  - now apply in_combine_r in H.
Qed.

Lemma find_data_section_nonneg lines : (0 <= find_data_section lines)%Z.
Proof.
  unfold find_data_section.
  destruct (find _ (enumerate lines)) as [[i l]|] eqn:E1.
  - apply find_some in E1 as [E1 _]. now apply In_enumerate_nonneg in E1.
  - destruct (find (fun il => has_lrn (snd il)) (enumerate lines))
      as [[i l]|] eqn:E2; lia.
Qed.


End HeaderFacts.

(** *** Sender and receiver *)

Section PartyFacts.
Context {L : PyLib}.

Lemma tin_is_str_set k v t :
  str_eqb (u "TINEX159") k = false -> tin_is_str t -> tin_is_str (dict_set k v t).
Proof. intros Hk H. unfold tin_is_str. now rewrite dict_get_set_other. Qed.

Lemma tin_is_str_tin s t : tin_is_str (dict_set (u "TINEX159") (VStr s) t).
Proof. right. exists s. apply dict_get_set_same. Qed.



Lemma traconce1_fields_from lines dsi c :
  (0 <= dsi)%Z ->
  exists c', traconce1_fields lines dsi c = Ok c'
             /\ dict_get (u "TINCE159") c' = Some VNone
             /\ country_from lines dsi c c'.
Proof.
  intros Hd. unfold traconce1_fields.
  loop (country_from lines dsi c).
  - now left.
  - intros i c1 Hi Hinv. apply In_range in Hi.
    unfold traconce1_address, traconce1_name, traconce1_tin.
    crunch; eexists; (split; [reflexivity|]); cbn [ctl_state];
      try assumption;
      right; exists i; (split; [lia|]); (split; [lia|]);
      match goal with
      | H : (matches reference_pattern _ && _)%bool = true |- _ =>
        apply andb_true_iff in H as [H _]
      end;
      (split; [erewrite get_line_safe_nth by (try eassumption; lia); eassumption|]);
      rewrite ?dict_get_set_other by key_ne;
      erewrite get_line_safe_nth by (try eassumption; lia);
      apply dict_get_set_same.
  - eexists. split; [reflexivity|]. split; [apply dict_get_set_same|].
    unfold country_from in *. now rewrite dict_get_set_other by key_ne.
Qed.

End PartyFacts.

(** *** Goods items *)

Section GoodsFacts.
Context {L : PyLib}.

Lemma collect_positions lines xs acc :
  (forall i, In i xs -> (0 <= i < zlen lines)%Z) ->
  for_each xs
    (fun i commodity_positions =>
       l <- getitem lines i ;;
       let line := strip l in
       if matches commodity_pattern line
       then Ok (Next (commodity_positions ++ [(i, line)]))
       else Ok (Next commodity_positions))
    acc
  = Ok (acc ++ map (fun i => (i, get_line_safe lines i))
                   (filter (fun i => matches commodity_pattern (get_line_safe lines i)) xs)).
Proof.
  revert acc. induction xs as [|i xs IH]; intros acc H; cbn [for_each filter].
  - now rewrite app_nil_r.
  - destruct (getitem_ok lines i) as (l & -> & Hn); [apply H; now left|].
    cbn [bind]. cbv zeta.
    assert (get_line_safe lines i = strip l) as Hg
        by (apply get_line_safe_nth; [apply H; now left | exact Hn]).
    rewrite Hg.
    destruct (matches commodity_pattern (strip l)).
    + rewrite IH by (intros; apply H; now right).
      cbn [map]. rewrite Hg, <- app_assoc. reflexivity.
    + apply IH. intros; apply H; now right.
Qed.

Lemma find_commodity_positions_eq lines dsi :
  find_commodity_positions lines dsi
  = Ok (map (fun i => (i, get_line_safe lines i))
            (commodity_lines lines (Z.max dsi 100))).
Proof.
  unfold find_commodity_positions, commodity_lines. cbv zeta.
  rewrite collect_positions; [reflexivity|].
  intros i Hi. apply In_range in Hi. lia.
Qed.

Lemma item_description_ok lines ci ie it n c :
  (0 <= ci)%Z -> (ie <= zlen lines)%Z -> item_frame n c it ->
  exists it', item_description lines ci ie it = Ok it' /\ item_frame n c it'.
Proof.
  intros Hc He Hf. unfold item_description.
  loop (item_frame n c).
  - assumption.
  - intros i it1 Hi Hinv. apply In_range in Hi.
    crunch; eexists; (split; [reflexivity|]); exact Hinv.
  - destruct (negb (truthy (GooDesGDS23 st))).
    + apply for_each_inv; [assumption|].
      intros i it1 Hi Hinv. apply In_range in Hi.
      crunch; eexists; (split; [reflexivity|]); exact Hinv.
    + eauto.
Qed.

Lemma item_packaging_ok lines is_ ie it n c :
  (0 <= is_)%Z -> (ie <= zlen lines)%Z -> item_frame n c it ->
  exists it', item_packaging lines is_ ie it = Ok it' /\ item_frame n c it'.
Proof.
  intros Hc He Hf. unfold item_packaging.
  apply for_each_inv; [assumption|].
  intros i it1 Hi Hinv. apply In_range in Hi.
  crunch; eexists; (split; [reflexivity|]); exact Hinv.
Qed.


Lemma fold_left_inv {A B : Type} (f : A -> B -> A) (I : A -> Prop) (l : list B) (a : A) :
  I a -> (forall a b, In b l -> I a -> I (f a b)) -> I (fold_left f l a).
Proof.
  revert a. induction l as [|b l IH]; intros a Ha Hf; simpl; [assumption|].
  apply IH; [apply Hf; [now left|assumption]|].
  intros a' b' Hb. apply Hf. now right.
Qed.

Lemma NoDup_snoc {A : Type} (l : list A) (x : A) :
  NoDup l -> ~ In x l -> NoDup (l ++ [x]).
Proof.
  induction 1 as [|y l Hy Hl IH]; intros Hx; simpl.
  - constructor; [tauto|constructor].
  - constructor.
    + rewrite in_app_iff. simpl. intros [H|[H|[]]]; [tauto|].
      subst. apply Hx. now left.
    + apply IH. intros H. apply Hx. now right.
Qed.

Lemma pair_eqb_eq (a b : pystr * pystr) : pair_eqb a b = true <-> a = b.
Proof.
  destruct a as [a1 a2], b as [b1 b2]. unfold pair_eqb. simpl.
  rewrite andb_true_iff, !str_eqb_eq. split; [intros [-> ->]|intros H; inversion H]; auto.
Qed.

Lemma insert_by_pos_In (d x : temp_doc) (l : list temp_doc) :
  In d (insert_by_pos x l) -> d = x \/ In d l.
Proof.
  induction l as [|y l IH]; simpl.
  - intros [H|[]]; auto.
  - destruct (Nat.leb (snd x) (snd y)); simpl; intros [H|H]; auto.
    destruct (IH H); auto.
Qed.

Lemma sort_by_pos_In (d : temp_doc) (l : list temp_doc) :
  In d (sort_by_pos l) -> In d l.
Proof.
  induction l as [|x l IH]; simpl; [auto|].
  intros H. apply insert_by_pos_In in H as [H|H]; auto.
Qed.

Lemma item_documents_ok lines it n c :
  item_frame n c it ->
  IteNumGDS7 (item_documents lines it) = n
  /\ ComNomCMD1 (item_documents lines it) = c
  /\ docs_ok doc_types (item_documents lines it).
Proof.
  intros (Hn & Hc & Hd). unfold item_documents. cbv zeta.
  match goal with |- context [fold_left ?f ?l ?a] =>
    assert ((fun st : goods_item * list (pystr * pystr) =>
               IteNumGDS7 (fst st) = n /\ ComNomCMD1 (fst st) = c
               /\ docs_ok doc_types (fst st)
               /\ forall d, In d (PRODOCDC2 (fst st)) ->
                            existsb (pair_eqb (doc_pair d)) (snd st) = true)
              (fold_left f l a)) as HJ;
    [apply fold_left_inv|]
  end.
  - unfold docs_ok. cbn [fst snd]. rewrite Hd.
    split; [|split; [|split; [split; constructor|]]]; auto; try (now intros d []).
  - intros [item seen] [[doc_type doc_ref] pos] Hin (H1 & H2 & [H3 H4] & H5).
    unfold docs_ok. cbn [fst snd] in *.
    apply sort_by_pos_In in Hin. apply in_flat_map in Hin as (m & _ & Hm).
    destruct (str_in (group 1 m) doc_types) eqn:Ev; [|destruct Hm].
    destruct Hm as [Hm|[]]. inversion Hm; subst. clear Hm.
    destruct (str_eqb (group 1 m) (u "5007")); [repeat split; assumption|].
    destruct (existsb (pair_eqb (group 1 m, group 2 m)) seen) eqn:Es;
      cbn [negb fst snd]; [repeat split; assumption|].
    cbn [append_PRODOCDC2 IteNumGDS7 ComNomCMD1 PRODOCDC2].
    repeat split; auto.
    + rewrite map_app. apply NoDup_snoc; [assumption|].
      intros Hc'. apply in_map_iff in Hc' as (d & Hd1 & Hd2).
      apply H5 in Hd2. rewrite Hd1 in Hd2. unfold doc_pair in Hd2.
      cbn [DocTypDC21 DocRefDC23] in Hd2. congruence.
    + apply Forall_app. split; [assumption|]. constructor; [|constructor].
      cbn [DocTypDC21]. now apply str_in_In.
    + intros d Hd'. apply in_app_iff in Hd' as [Hd'|[Hd'|[]]]; cbn [existsb].
      * rewrite (H5 d Hd'). apply orb_true_r.
      * subst d. unfold doc_pair. cbn [DocTypDC21 DocRefDC23].
        replace (pair_eqb (group 1 m, group 2 m) (group 1 m, group 2 m)) with true;
          [reflexivity|]. symmetry. now apply pair_eqb_eq.
  - cbv beta in HJ. destruct HJ as (? & ? & ? & _). auto.
Qed.

Lemma extract_item_ok lines positions item_num ci code :
  (0 <= ci)%Z -> (0 <= item_num)%Z ->
  exists it, extract_item lines positions item_num ci code = Ok it
             /\ IteNumGDS7 it = str_of_Z item_num
             /\ ComNomCMD1 it = code
             /\ docs_ok doc_types it.
Proof.
  intros Hc Hn. unfold extract_item. cbv zeta.
  assert (exists j, (if (item_num <? zlen positions)%Z
                     then p <- getitem positions item_num ;; Ok (fst p)
                     else Ok (zlen lines)) = Ok j) as [j ->].
  { crunch; eauto. }
  cbn [bind].
  destruct (item_description_ok lines ci (Z.min (zlen lines) j)
              (GoodsItem (str_of_Z item_num) None (u "") None code [] [])
              (str_of_Z item_num) code) as (it1 & -> & Hf1);
    [lia | lia | repeat split |].
  cbn [bind].
  destruct (item_packaging_ok lines (Z.max 0 (ci - 30)) (Z.min (zlen lines) j)
              it1 (str_of_Z item_num) code) as (it2 & -> & Hf2);
    [lia | lia | assumption |].
  cbn [bind].
  destruct (item_num =? 1)%Z.
  - eexists. split; [reflexivity|]. now apply item_documents_ok.
  - eexists. split; [reflexivity|]. destruct Hf2 as (? & ? & Hd).
    repeat split; auto; rewrite Hd; constructor.
Qed.


Lemma for_each_collect {A B : Type} (Q : A -> B -> Prop) (xs : list A)
      (body : A -> list B -> outcome (ctl (list B))) (acc : list B) :
  (forall x acc, In x xs ->
                 exists y, body x acc = Ok (Next (acc ++ [y])) /\ Q x y) ->
  exists ys, for_each xs body acc = Ok (acc ++ ys) /\ Forall2 Q xs ys.
Proof.
  revert acc. induction xs as [|x xs IH]; intros acc H; cbn [for_each].
  - exists []. rewrite app_nil_r. split; [reflexivity|constructor].
  - destruct (H x acc (or_introl eq_refl)) as (y & -> & Hy).
    destruct (IH (acc ++ [y])) as (ys & -> & Hys).
    + intros x' acc' Hx'. apply H. now right.
    + exists (y :: ys). rewrite <- app_assoc. split; [reflexivity|].
      now constructor.
Qed.

Lemma length_range (a b : Z) : length (range a b) = Z.to_nat (b - a).
Proof. unfold range. now rewrite length_map, length_seq. Qed.

Lemma map_fst_combine_eq {A B : Type} (l1 : list A) (l2 : list B) :
  length l1 = length l2 -> map fst (combine l1 l2) = l1.
Proof.
  revert l2. induction l1 as [|x l1 IH]; intros [|y l2] H; simpl in *;
    try discriminate; [reflexivity|]. f_equal. apply IH. lia.
Qed.

Lemma map_snd_combine_eq {A B : Type} (l1 : list A) (l2 : list B) :
  length l1 = length l2 -> map snd (combine l1 l2) = l2.
Proof.
  revert l2. induction l1 as [|x l1 IH]; intros [|y l2] H; simpl in *;
    try discriminate; [reflexivity|]. f_equal. apply IH. lia.
Qed.

Lemma enumerate_from_fst {A : Type} (start : Z) (xs : list A) :
  map fst (enumerate_from start xs) = range start (start + zlen xs).
Proof.
  unfold enumerate_from. apply map_fst_combine_eq.
  rewrite length_range. unfold zlen. lia.
Qed.

Lemma enumerate_from_snd {A : Type} (start : Z) (xs : list A) :
  map snd (enumerate_from start xs) = xs.
Proof.
  unfold enumerate_from. apply map_snd_combine_eq.
  rewrite length_range. unfold zlen. lia.
Qed.

Lemma Forall2_maps {A B C : Type} (f : B -> C) (g : A -> C) (xs : list A)
      (ys : list B) :
  Forall2 (fun x y => f y = g x) xs ys -> map f ys = map g xs.
Proof. induction 1; simpl; congruence. Qed.

(** What [extract_gooitegds] appends: one item for each commodity code in
    turn, numbered from 1, or the empty item. *)
Lemma gooitegds_items_ok lines dsi goods :
  exists items,
    gooitegds_items lines dsi goods = Ok (goods ++ items)
    /\ (commodity_lines lines (Z.max dsi 100) = [] ->
        items = [_create_empty_item])
    /\ (commodity_lines lines (Z.max dsi 100) <> [] ->
        Forall2 (fun np it => IteNumGDS7 it = str_of_Z (fst np)
                              /\ ComNomCMD1 it = snd (snd np))
                (enumerate_from 1
                   (map (fun i => (i, get_line_safe lines i))
                        (commodity_lines lines (Z.max dsi 100))))
                items)
    /\ Forall (docs_ok doc_types) items.
Proof.
  unfold gooitegds_items. rewrite find_commodity_positions_eq. cbn [bind].
  destruct (commodity_lines lines (Z.max dsi 100)) as [|i0 codes] eqn:Ec.
  - exists [_create_empty_item]. cbn [map]. repeat split; try tauto.
    constructor; [|constructor]. split; simpl; constructor.
  - cbn [map].
    match goal with |- context [for_each ?xs ?body goods] =>
      destruct (for_each_collect
                  (fun np it => IteNumGDS7 it = str_of_Z (fst np)
                                /\ ComNomCMD1 it = snd (snd np)
                                /\ docs_ok doc_types it)
                  xs body goods) as (items & E & HQ)
    end.
    + intros [n [ci code]] acc Hin.
      assert (0 <= n)%Z as Hn.
      { apply in_combine_l in Hin. apply In_range in Hin. lia. }
      assert (0 <= ci)%Z as Hci.
      { apply in_combine_r in Hin.
        change ((i0, get_line_safe lines i0)
                  :: map (fun i => (i, get_line_safe lines i)) codes)
          with (map (fun i => (i, get_line_safe lines i)) (i0 :: codes)) in Hin.
        rewrite <- Ec in Hin. apply in_map_iff in Hin as (j & Hj & Hin).
        inversion Hj; subst. unfold commodity_lines in Hin.
        apply filter_In in Hin as [Hin _]. apply In_range in Hin. lia. }
      destruct (extract_item_ok lines
                  ((i0, get_line_safe lines i0)
                     :: map (fun i => (i, get_line_safe lines i)) codes)
                  n ci code Hci Hn) as (it & E & H1 & H2 & H3).
      exists it. rewrite E. cbn [bind fst snd]. auto.
    + exists items. split; [exact E|]. split; [discriminate|]. split.
      * intros _. eapply Forall2_impl; [|exact HQ]. cbv beta. intros ? ? (? & ? & ?); auto.
      * clear E. induction HQ; constructor; tauto.
Qed.

End GoodsFacts.

Section CustomsFacts.
Context {L : PyLib}.

(** *** Reference documents of the customs engine *)

(** A loop that goes on under [I] and is left, by [break] or at its end,
    under [J]. *)
Lemma for_each_inv_break {A S : Type} (I J : S -> Prop) (xs : list A)
      (body : A -> S -> outcome (ctl S)) (s : S) :
  I s -> (forall s, I s -> J s) ->
  (forall x s1, In x xs -> I s1 ->
                exists c, body x s1 = Ok c
                          /\ match c with Next s' => I s' | Break s' => J s' end) ->
  exists s', for_each xs body s = Ok s' /\ J s'.
Proof.
  intros Hs HIJ. revert s Hs. induction xs as [|x xs IH]; intros s Hs Hbody; simpl.
  - eauto.
  - destruct (Hbody x s (or_introl eq_refl) Hs) as ([s1|s1] & -> & H1).
    + apply IH; [assumption|]. intros y s2 Hy. apply Hbody. now right.
    + eauto.
Qed.

Lemma customs_parse_docs_ok doc_text item :
  PRODOCDC2 item = [] ->
  docs_ok customs_doc_types (customs_parse_docs doc_text item).
Proof.
  intros Hd. unfold customs_parse_docs. cbv zeta.
  match goal with |- context [fold_left ?f ?l ?a] =>
    assert ((fun st : goods_item * list pystr =>
               docs_ok customs_doc_types (fst st)
               /\ forall d, In d (PRODOCDC2 (fst st)) ->
                            str_in (doc_key d) (snd st) = true)
              (fold_left f l a)) as HJ;
    [apply fold_left_inv|]
  end.
  - unfold docs_ok. cbn [fst snd]. rewrite Hd.
    split; [split; constructor|]. now intros d [].
  - intros [it found_docs] m _ ([H3 H4] & H5). unfold docs_ok.
    cbn [fst snd] in *.
    destruct (negb (str_in (group 1 m ++ u "-" ++ group 2 m) found_docs)) eqn:Es;
      cbn [andb fst snd]; [|split; [split|]; assumption].
    destruct (str_in (group 1 m) customs_doc_types) eqn:Ev;
      cbn [fst snd]; [|split; [split|]; assumption].
    apply negb_true_iff in Es.
    cbn [append_PRODOCDC2 PRODOCDC2]. split; [split|].
    + rewrite map_app. apply NoDup_snoc; [assumption|].
      intros Hc'. apply in_map_iff in Hc' as (d & Hd1 & Hd2).
      apply H5 in Hd2. unfold doc_key in Hd2. unfold doc_pair in Hd1.
      cbn [DocTypDC21 DocRefDC23] in Hd1. inversion Hd1 as [[E1 E2]].
      rewrite E1, E2 in Hd2. congruence.
    + apply Forall_app. split; [assumption|]. constructor; [|constructor].
      cbn [DocTypDC21]. now apply str_in_In.
    + intros d Hd'. apply in_app_iff in Hd' as [Hd'|[Hd'|[]]];
        cbn [str_in existsb].
      * apply H5 in Hd'. unfold str_in in Hd'. rewrite Hd'. apply orb_true_r.
      * subst d. unfold doc_key. cbn [DocTypDC21 DocRefDC23].
        now rewrite str_eqb_refl.
  - cbv beta in HJ. tauto.
Qed.

Lemma customs_doc_text_ok lines i :
  (0 <= i)%Z -> exists doc_text, customs_doc_text lines i = Ok doc_text.
Proof.
  intros Hi. unfold customs_doc_text.
  destruct (for_each_inv (fun _ : pystr => True)
              (range (i + 1) (Z.min (i + 6) (zlen lines)))
              (fun j doc_text =>
                 l <- getitem lines j ;;
                 let next_line := strip l in
                 if startswith (u "46 ") next_line || startswith (u "47 ") next_line
                    || startswith (u "31 ") next_line || startswith (u "Шифр") next_line
                 then Ok (Break doc_text)
                 else if contains (u "информации") next_line
                         || contains (u "проложени") next_line
                 then Ok (Next doc_text)
                 else Ok (Next (doc_text ++ u " " ++ next_line)))
              []) as (t & E & _); [exact I| |eauto].
  intros j t Hj _. apply In_range in Hj.
  crunch; eexists; split; reflexivity || exact I.
Qed.

Lemma customs_item_documents_ok lines ci ie item :
  (0 <= ci)%Z -> (ie <= zlen lines)%Z -> PRODOCDC2 item = [] ->
  exists item', customs_item_documents lines ci ie item = Ok item'
                /\ docs_ok customs_doc_types item'.
Proof.
  intros Hc He Hd. unfold customs_item_documents.
  apply (for_each_inv_break (fun it => PRODOCDC2 it = [])
                            (docs_ok customs_doc_types)).
  - assumption.
  - intros it H. unfold docs_ok. rewrite H. split; constructor.
  - intros i it Hi Hinv. apply In_range in Hi.
    destruct (getitem_ok lines i) as (l & -> & _); [lia|]. cbn [bind]. cbv zeta.
    destruct (contains (u "44 Дополнителни") (strip l)).
    + destruct (customs_doc_text_ok lines i) as (t & ->); [lia|]. cbn [bind].
      destruct (truthy t).
      * eexists. split; [reflexivity|]. now apply customs_parse_docs_ok.
      * eexists. split; [reflexivity|]. unfold docs_ok. rewrite Hinv.
        split; constructor.
    + eexists. split; [reflexivity|]. assumption.
Qed.

End CustomsFacts.

(** ** The whole run *)

Section RunFacts.
Context {L : PyLib}.

Lemma gooitegds_items_spec lines dsi :
  exists items,
    gooitegds_items lines dsi [] = Ok items
    /\ (commodity_lines lines (Z.max dsi 100) = [] ->
        items = [_create_empty_item])
    /\ (commodity_lines lines (Z.max dsi 100) <> [] ->
        length items = length (commodity_lines lines (Z.max dsi 100))
        /\ map IteNumGDS7 items
           = map str_of_Z
                 (range 1 (1 + zlen (commodity_lines lines (Z.max dsi 100))))
        /\ map ComNomCMD1 items
           = map (get_line_safe lines) (commodity_lines lines (Z.max dsi 100)))
    /\ Forall (docs_ok doc_types) items.
Proof.
  destruct (gooitegds_items_ok lines dsi []) as (items & E & H0 & H1 & H2).
  exists items. split; [exact E|]. split; [exact H0|]. split; [|exact H2].
  intros Hne. specialize (H1 Hne).
  set (codes := commodity_lines lines (Z.max dsi 100)) in *.
  set (ps := map (fun i => (i, get_line_safe lines i)) codes) in *.
  assert (map IteNumGDS7 items
          = map (fun np : Z * (Z * pystr) => str_of_Z (fst np))
                (enumerate_from 1 ps)) as E1.
  { apply Forall2_maps. eapply Forall2_impl; [|exact H1]. cbv beta. tauto. }
  assert (map ComNomCMD1 items
          = map (fun np : Z * (Z * pystr) => snd (snd np))
                (enumerate_from 1 ps)) as E2.
  { apply Forall2_maps. eapply Forall2_impl; [|exact H1]. cbv beta. tauto. }
  assert (zlen ps = zlen codes) as El by (unfold zlen, ps; now rewrite length_map).
  split; [|split].
  - apply Forall2_length in H1. rewrite <- H1.
    rewrite <- (length_map fst), enumerate_from_fst, length_range.
    unfold zlen in *. lia.
  - rewrite E1, <- (map_map fst str_of_Z), enumerate_from_fst. now rewrite El.
  - rewrite E2, <- (map_map snd snd), enumerate_from_snd.
    unfold ps. rewrite map_map. reflexivity.
Qed.

(** A run that ends has gone through the four extractors, each from the
    empty entry [__init__] made. *)
Lemma extract_all_parts text_lines d :
  extract_all text_lines = Ok d <->
  exists h t c g,
    d = declaration h t c g
    /\ heahea_fields text_lines (find_data_section text_lines) [] = Ok h
    /\ traexpex1_fields text_lines (find_data_section text_lines) [] = Ok t
    /\ traconce1_fields text_lines (find_data_section text_lines) [] = Ok c
    /\ gooitegds_items text_lines (find_data_section text_lines) [] = Ok g.
Proof.
  unfold extract_all, extract_heahea, extract_traexpex1, extract_traconce1,
    extract_gooitegds, data, declaration.
  cbn [lines data_start_index HEAHEA TRAEXPEX1 TRACONCE1 SEAINFSLI GOOITEGDS init].
  destruct (heahea_fields text_lines (find_data_section text_lines) []) as [h|e];
    cbn [bind lines data_start_index HEAHEA TRAEXPEX1 TRACONCE1 SEAINFSLI GOOITEGDS].
  2: { split; [discriminate|]. intros (? & ? & ? & ? & _ & H & _). discriminate. }
  destruct (traexpex1_fields text_lines (find_data_section text_lines) []) as [t|e];
    cbn [bind lines data_start_index HEAHEA TRAEXPEX1 TRACONCE1 SEAINFSLI GOOITEGDS].
  2: { split; [discriminate|]. intros (? & ? & ? & ? & _ & _ & H & _). discriminate. }
  destruct (traconce1_fields text_lines (find_data_section text_lines) []) as [c|e];
    cbn [bind lines data_start_index HEAHEA TRAEXPEX1 TRACONCE1 SEAINFSLI GOOITEGDS].
  2: { split; [discriminate|]. intros (? & ? & ? & ? & _ & _ & _ & H & _). discriminate. }
  destruct (gooitegds_items text_lines (find_data_section text_lines) []) as [g|e];
    cbn [bind lines data_start_index HEAHEA TRAEXPEX1 TRACONCE1 SEAINFSLI GOOITEGDS].
  2: { split; [discriminate|]. intros (? & ? & ? & ? & _ & _ & _ & _ & H). discriminate. }
  split.
  - intros H. inversion H. exists h, t, c, g. auto.
  - intros (h' & t' & c' & g' & -> & H1 & H2 & H3 & H4).
    inversion H1; inversion H2; inversion H3; inversion H4. reflexivity.
Qed.



End RunFacts.

(** * The claims *)

Section Claims.
Context {L : PyLib}.

(** C1, amended.  The goods-item list the segmenter produces has one item
    for each eight-digit commodity-code line found at or after line
    [max(offset, 100)] (not at or after the section offset itself), or is
    exactly the one placeholder item (numbered "1", every other field null
    or empty) when there is none; the sequence numbers are the string forms
    of 1..N and the items carry the codes in document order. *)
Theorem goods_items_numbered (lines : list pystr) (dsi : Z) :
  exists items,
    gooitegds_items lines dsi [] = Ok items
    /\ (commodity_lines lines (Z.max dsi 100) = [] ->
        items = [_create_empty_item])
    /\ (commodity_lines lines (Z.max dsi 100) <> [] ->
        length items = length (commodity_lines lines (Z.max dsi 100))
        /\ map IteNumGDS7 items
           = map str_of_Z
                 (range 1 (1 + zlen (commodity_lines lines (Z.max dsi 100))))
        /\ map ComNomCMD1 items
           = map (get_line_safe lines) (commodity_lines lines (Z.max dsi 100))).
Proof.
  destruct (gooitegds_items_spec lines dsi) as (items & E & H0 & H1 & _).
  exists items. auto.
Qed.


(** C5.  In the reference-document list of every goods item the generic
    engine produces, and in the list the customs engine fills for an item,
    no (document type, reference) pair occurs twice and every document type
    belongs to the engine's vocabulary of document codes. *)
Theorem reference_documents_distinct (lines : list pystr) (dsi : Z)
        (commodity_index item_end : Z) (item : goods_item) :
  (exists items, gooitegds_items lines dsi [] = Ok items
                 /\ Forall (docs_ok doc_types) items)
  /\ ((0 <= commodity_index)%Z -> (item_end <= zlen lines)%Z ->
      PRODOCDC2 item = [] ->
      exists item',
        customs_item_documents lines commodity_index item_end item = Ok item'
        /\ docs_ok customs_doc_types item').
Proof.
  split.
  - destruct (gooitegds_items_spec lines dsi) as (items & E & _ & _ & H).
    eauto.
  - apply customs_item_documents_ok.
Qed.

(** C6: where the code breaks the claim.  When the line before the first
    [KGM] line passes [isdigit] without being made of decimal digits, the
    conversion raises and the run is aborted: the mass is neither set nor
    left unresolved. *)
Theorem mass_conversion_raises (text_lines : list pystr) (s : pystr) :
  mass_line text_lines = Some s -> isdigit s = true -> py_int s = None ->
  extract_all text_lines = Raise ValueError.
Proof.
  intros Hm Hd Hi.
  unfold extract_all, extract_heahea, heahea_fields.
  cbn [lines data_start_index HEAHEA init].
  rewrite heahea_total_gross_mass_eq, Hm, Hd, Hi. reflexivity.
Qed.




(** C10.  After the receiver extraction of the generic engine the
    receiver's tax number is null, whatever the entry held before and
    whatever the loop recorded; so it is in the record of every run. *)
Theorem receiver_tin_is_null (lines : list pystr) :
  (forall c0, exists c,
      traconce1_fields lines (find_data_section lines) c0 = Ok c
      /\ dict_get (u "TINCE159") c = Some VNone)
  /\ (forall d, extract_all lines = Ok d ->
                exists receiver, field "TRACONCE1" d = Some receiver
                                 /\ field "TINCE159" receiver = Some VNone).
Proof.
  pose proof (find_data_section_nonneg lines) as Hd. split.
  - intros c0. destruct (traconce1_fields_from lines _ c0 Hd) as (c & E & H & _).
    eauto.
  - intros d E.
    apply extract_all_parts in E as (h & t & c & g & -> & _ & _ & Hc & _).
    destruct (traconce1_fields_from lines _ [] Hd) as (c' & E & H & _).
    rewrite Hc in E. inversion E; subst c'.
    exists (VDict c). split; [reflexivity|exact H].
Qed.

End Claims.

(** * Further properties *)

(** ** The comparator: what it appends, and when it finds no difference *)

Section ComparatorMore.
Context {L : PyLib}.

Lemma extend_nil_l (r : report) : extend (Report [] []) r = r.
Proof. now destruct r. Qed.

Lemma extend_nil_r (r : report) : extend r (Report [] []) = r.
Proof. destruct r. unfold extend. simpl. now rewrite !app_nil_r. Qed.

Lemma extend_assoc (r a b : report) :
  extend (extend r a) b = extend r (extend a b).
Proof. unfold extend. simpl. now rewrite !app_assoc. Qed.

Lemma add_difference_extend (d : difference) (r : report) :
  add_difference d r = extend r (Report [d] []).
Proof. unfold add_difference, extend. simpl. now rewrite app_nil_r. Qed.

Lemma add_match_extend (p : pystr) (r : report) :
  add_match p r = extend r (Report [] [p]).
Proof. unfold add_match, extend. simpl. now rewrite app_nil_r. Qed.

Lemma compare_keys_appends cmp (actual : value) (ed : list (pystr * value)) :
  Forall (fun kv => appends_to cmp (snd kv)) ed ->
  forall path r r1,
    compare_keys cmp path actual ed (extend r r1)
    = lift r (compare_keys cmp path actual ed r1).
Proof.
  induction 1 as [|[k ev] ed Hev Hed IH]; intros path r r1; cbn [compare_keys].
  - reflexivity.
  - cbv zeta. destruct (key_in k actual) as [present|x]; cbn [bind]; [|reflexivity].
    destruct (negb present).
    + rewrite !add_difference_extend, extend_assoc. apply IH.
    + destruct (subscript actual k) as [av|x]; cbn [bind]; [|reflexivity].
      cbn [snd] in Hev.
      rewrite (Hev av _ (extend r r1)), (Hev av _ r1).
      destruct (cmp (key_path path k) av ev (Report [] [])) as [ra|x];
        cbn [lift bind]; [|reflexivity].
      rewrite extend_assoc. apply IH.
Qed.

Lemma compare_elems_appends cmp (el : list value) :
  Forall (appends_to cmp) el ->
  forall path i al r r1,
    compare_elems cmp path i al el (extend r r1)
    = lift r (compare_elems cmp path i al el r1).
Proof.
  induction 1 as [|e el He Hel IH]; intros path i al r r1;
    destruct al as [|a al]; cbn [compare_elems]; try reflexivity.
  rewrite (He a _ (extend r r1)), (He a _ r1).
  destruct (cmp (index_path path i) a e (Report [] [])) as [ra|x];
    cbn [lift bind]; [|reflexivity].
  rewrite extend_assoc. apply IH.
Qed.

Lemma compare_dict_appends (e : value) : appends_to compare_dict e.
Proof.
  induction e as [| b | z | f | s | l IH | d IH] using value_induction;
    intros a path r; cbn [compare_dict];
    try (destruct (negb (leaf_eq a _)); cbn [lift];
         rewrite ?add_difference_extend, ?add_match_extend, ?extend_nil_l;
         reflexivity).
  - destruct (py_len a) as [n|x]; cbn [bind lift]; [|reflexivity].
    destruct (negb (Nat.eqb n (length l))).
    + rewrite !add_difference_extend.
      rewrite (compare_elems_appends compare_dict l IH path 0 (py_iter a) r).
      reflexivity.
    + rewrite <- (extend_nil_r r) at 1.
      apply (compare_elems_appends compare_dict l IH).
  - rewrite <- (extend_nil_r r) at 1.
    apply (compare_keys_appends compare_dict a d IH).
Qed.

(** X2.  The comparator only appends to its two lists: what a comparison
    adds to the differences and to the matches (or the exception it raises)
    does not depend on what was recorded before, and what was recorded
    before is kept as it was. *)
Theorem comparator_appends (path : pystr) (actual expected : value) (r : report) :
  compare_dict path actual expected r
  = lift r (compare_dict path actual expected (Report [] [])).
Proof. apply compare_dict_appends. Qed.

(** *** No difference, exactly when the expected value is found *)

Lemma differences_extend_nil (r a : report) :
  Nat.eqb (length (differences (extend r a))) 0
  = Nat.eqb (length (differences r)) 0 && Nat.eqb (length (differences a)) 0.
Proof.
  unfold extend. cbn [differences]. rewrite length_app.
  destruct (length (differences r)), (length (differences a)); reflexivity.
Qed.

Lemma lift_ok (r : report) (o : outcome report) (r' : report) :
  lift r o = Ok r' -> exists r1, o = Ok r1 /\ r' = extend r r1.
Proof. destruct o; simpl; intros H; inversion H; eauto. Qed.

Lemma compare_keys_agrees (d : dict) (ed : list (pystr * value)) :
  Forall (fun kv => appends_to compare_dict (snd kv)) ed ->
  Forall (fun kv => sound_for compare_dict (snd kv)) ed ->
  forall path r1,
    compare_keys compare_dict path (VDict d) ed (Report [] []) = Ok r1 ->
    Nat.eqb (length (differences r1)) 0
    = forallb (fun kv => match dict_get (fst kv) d with
                         | Some av => agrees av (snd kv)
                         | None => false
                         end) ed.
Proof.
  intros Happ Hs. induction Hs as [|[k ev] ed Hev Hed IH]; intros path r1;
    cbn [compare_keys forallb fst snd key_in bind subscript].
  - intros H. inversion H. reflexivity.
  - inversion Happ as [|? ? Ha1 Ha2]; subst. cbv zeta. unfold dict_has.
    destruct (dict_get k d) as [av|] eqn:Eg; cbn [negb bind].
    + destruct (compare_dict (key_path path k) av ev (Report [] [])) as [ra|x] eqn:Ec;
        cbn [bind]; [|discriminate].
      rewrite <- (extend_nil_r ra) at 1.
      rewrite (compare_keys_appends compare_dict (VDict d) ed Ha2).
      intros H. apply lift_ok in H as (rb & Hb & ->).
      rewrite differences_extend_nil. cbn [snd] in Hev.
      rewrite (Hev av _ ra Ec), (IH Ha2 path rb Hb). reflexivity.
    + match goal with |- context [add_difference ?x (Report [] [])] =>
        change (add_difference x (Report [] []))
          with (extend (Report [x] []) (Report [] [])) end.
      rewrite (compare_keys_appends compare_dict (VDict d) ed Ha2).
      intros H. apply lift_ok in H as (rb & Hb & ->).
      rewrite differences_extend_nil. reflexivity.
Qed.

Lemma compare_elems_agrees (el : list value) :
  Forall (appends_to compare_dict) el ->
  Forall (sound_for compare_dict) el ->
  forall path i al r1,
    compare_elems compare_dict path i al el (Report [] []) = Ok r1 ->
    Nat.eqb (length (differences r1)) 0 = agree_elems agrees al el.
Proof.
  intros Happ Hs. induction Hs as [|e el He Hel IH]; intros path i al r1;
    destruct al as [|a al]; cbn [compare_elems agree_elems];
    try (intros H; inversion H; reflexivity).
  inversion Happ as [|? ? Ha1 Ha2]; subst.
  destruct (compare_dict (index_path path i) a e (Report [] [])) as [ra|x] eqn:Ec;
    cbn [bind]; [|discriminate].
  rewrite <- (extend_nil_r ra) at 1.
  rewrite (compare_elems_appends compare_dict el Ha2).
  intros H. apply lift_ok in H as (rb & Hb & ->).
  rewrite differences_extend_nil, (He a _ ra Ec), (IH Ha2 _ _ _ _ Hb).
  reflexivity.
Qed.

Lemma Forall_appends (l : list value) : Forall (appends_to compare_dict) l.
Proof. apply Forall_forall. intros x _. apply compare_dict_appends. Qed.

Lemma Forall_appends_snd (d : list (pystr * value)) :
  Forall (fun kv => appends_to compare_dict (snd kv)) d.
Proof. apply Forall_forall. intros x _. apply compare_dict_appends. Qed.

Lemma compare_dict_sound (e : value) : sound_for compare_dict e.
Proof.
  induction e as [| b | z | f | s | l IH | d IH] using value_induction;
    intros a path r1; cbn [compare_dict agrees];
    try (destruct (leaf_eq a _); cbn [negb]; intros H; inversion H; reflexivity).
  - destruct (py_len a) as [n|x]; cbn [bind]; [|discriminate].
    destruct (Nat.eqb n (length l)); cbn [negb andb].
    + apply compare_elems_agrees; [apply Forall_appends|exact IH].
    + match goal with |- context [add_difference ?x (Report [] [])] =>
        change (add_difference x (Report [] []))
          with (extend (Report [x] []) (Report [] [])) end.
      rewrite (compare_elems_appends compare_dict l (Forall_appends l)).
      intros H. apply lift_ok in H as (rb & Hb & ->).
      rewrite differences_extend_nil. reflexivity.
  - destruct a as [| b | z | f | s | al | ad];
      try (destruct d as [|[k ev] d]; cbn [compare_keys key_in bind];
           [intros H; inversion H; reflexivity|discriminate]).
    + destruct d as [|[k ev] d]; cbn [compare_keys key_in bind subscript];
        [intros H; inversion H; reflexivity|].
      cbv zeta. destruct (contains k s); cbn [negb]; [discriminate|].
      match goal with |- context [add_difference ?x (Report [] [])] =>
        change (add_difference x (Report [] []))
          with (extend (Report [x] []) (Report [] [])) end.
      inversion IH as [|? ? _ IH2]; subst.
      rewrite (compare_keys_appends compare_dict (VStr s) d (Forall_appends_snd d)).
      intros H. apply lift_ok in H as (rb & Hb & ->).
      rewrite differences_extend_nil. reflexivity.
    + destruct d as [|[k ev] d]; cbn [compare_keys key_in bind subscript];
        [intros H; inversion H; reflexivity|].
      cbv zeta. destruct (existsb _ al); cbn [negb]; [discriminate|].
      match goal with |- context [add_difference ?x (Report [] [])] =>
        change (add_difference x (Report [] []))
          with (extend (Report [x] []) (Report [] [])) end.
      rewrite (compare_keys_appends compare_dict (VList al) d (Forall_appends_snd d)).
      intros H. apply lift_ok in H as (rb & Hb & ->).
      rewrite differences_extend_nil. reflexivity.
    + apply compare_keys_agrees; [apply Forall_appends_snd|exact IH].
Qed.

(** X3.  When the comparison ends, it reports no difference (the method
    returns [True]) exactly when the expected record is found in the
    extracted one: every expected key is present, every expected list is
    matched by a value of the same length, and every expected leaf is equal
    to the extracted value at its place. *)
Theorem correct_iff_agrees (data expected : value) (r : report) :
  compare_with_expected data expected = Ok r ->
  is_correct r = agrees data expected.
Proof. intros H. unfold is_correct. eapply compare_dict_sound. exact H. Qed.

(** *** Keys the expected record does not have *)

Lemma compare_keys_extra_key cmp (k : pystr) (v : value) (d : dict)
      (ed : list (pystr * value)) :
  str_in k (map fst ed) = false ->
  forall path r,
    compare_keys cmp path (VDict (dict_set k v d)) ed r
    = compare_keys cmp path (VDict d) ed r.
Proof.
  induction ed as [|[k' ev] ed IH]; intros Hk path r;
    cbn [compare_keys key_in subscript bind]; [reflexivity|].
  cbn [map fst str_in existsb] in Hk. apply orb_false_iff in Hk as [Hk Hk'].
  cbv zeta. unfold dict_has.
  rewrite (dict_get_set_other k' k v d) by (now rewrite str_eqb_sym).
  destruct (dict_get k' d) as [av|]; cbn [negb bind].
  - destruct (cmp (key_path path k') av ev r); cbn [bind]; [|reflexivity].
    now apply IH.
  - now apply IH.
Qed.

(** X4.  A key of the extracted dictionary that the expected dictionary
    does not have is not looked at: setting it to any value leaves the
    report as it is. *)
Theorem extra_keys_ignored (k : pystr) (v : value) (d : dict)
        (ed : list (pystr * value)) (path : pystr) (r : report) :
  str_in k (map fst ed) = false ->
  compare_dict path (VDict (dict_set k v d)) (VDict ed) r
  = compare_dict path (VDict d) (VDict ed) r.
Proof. intros Hk. cbn [compare_dict]. now apply compare_keys_extra_key. Qed.

(** *** Missing keys *)

(** X5.  When the extracted dictionary has none of the expected keys, the
    comparison adds one missing-key difference for each expected key, in
    the order of the expected dictionary, and no match; nothing below the
    keys is compared. *)
Theorem missing_keys_reported (d : dict) (ed : list (pystr * value))
        (path : pystr) (r : report) :
  (forall k, In k (map fst ed) -> dict_get k d = None) ->
  compare_dict path (VDict d) (VDict ed) r
  = Ok (Report (differences r
                ++ map (fun kv => Missing (key_path path (fst kv))) ed)
               (matches_ r)).
Proof.
  cbn [compare_dict]. revert r.
  induction ed as [|[k ev] ed IH]; intros r H;
    cbn [compare_keys key_in bind map fst].
  - rewrite app_nil_r. now destruct r.
  - cbv zeta. unfold dict_has. rewrite (H k) by (now left). cbn [negb].
    rewrite IH by (intros k' Hk'; apply H; now right).
    unfold add_difference. cbn [differences matches_].
    now rewrite <- app_assoc.
Qed.

(** *** Values without length and membership *)

(** X6.  When the extracted value is [None], a boolean or a number where
    the expected record has a dictionary with a key, or a list, the
    comparison raises [TypeError] (from [key not in actual] and
    [len(actual)]) instead of recording a difference. *)
Theorem scalar_against_structure_raises (a : value) :
  is_scalar a = true ->
  (forall k ev ed path r,
      compare_dict path a (VDict ((k, ev) :: ed)) r = Raise TypeError)
  /\ (forall el path r, compare_dict path a (VList el) r = Raise TypeError).
Proof.
  intros H. destruct a; try discriminate; split; reflexivity.
Qed.

End ComparatorMore.

(** ** The classifier: two tests that exclude each other *)

Section ClassifierMore.
Context {L : PyLib}.

(** A pattern that starts with a literal matches where the literal stands. *)
Lemma rmatch_lit_startswith (R : Type) (s : pystr) (rest : regex) (c : cursor)
      (g : groups) (k : cursor -> groups -> option R) (x : R) :
  rmatch (Cat (lit_with N.eqb s) rest) c g k = Some x ->
  startswith s (c_rest c) = true.
Proof.
  cbn [rmatch]. revert c.
  induction s as [|a s IH]; intros c; cbn [lit_with fold_right startswith].
  - reflexivity.
  - cbn [rmatch]. destruct (c_rest c) as [|y rest'] eqn:Er; [discriminate|].
    destruct (N.eqb a y) eqn:Ea; [|discriminate].
    intros H. apply IH in H. cbn [c_rest] in H. now rewrite H.
Qed.

Lemma search_from_lit_contains (s : pystr) (rest : regex) (text : pystr) :
  forall pos prev m,
    search_from (Cat (lit_with N.eqb s) rest) pos prev text = Some m ->
    contains s text = true.
Proof.
  induction text as [|y text IH]; intros pos prev m; cbn [search_from].
  - destruct (match_at _ _) eqn:E; [|discriminate]. intros _.
    apply rmatch_lit_startswith in E. cbn [c_rest] in E.
    destruct s; [reflexivity|discriminate].
  - destruct (match_at _ _) eqn:E.
    + intros _. apply rmatch_lit_startswith in E. cbn [c_rest] in E.
      cbn [contains]. now rewrite E.
    + intros H. apply IH in H. cbn [contains].
      destruct s; [reflexivity|]. rewrite H. apply orb_true_r.
Qed.

(** X7.  The customs test for [РБД] and the standard test for [РДБ]
    followed by a digit never both match the same text: the customs test
    asks that [РДБ] does not occur at all. *)
Theorem rbd_rdb_exclusive (text : pystr) :
  customs_check2 text && standard_check3 text = false.
Proof.
  unfold customs_check2, standard_check3, found, re_search.
  destruct (search_from rdb_pattern 0 None text) as [m|] eqn:E.
  - apply (search_from_lit_contains (u "РДБ")) in E. rewrite E.
    now rewrite andb_false_r.
  - apply andb_false_r.
Qed.

End ClassifierMore.

(** ** The section locator and the runs of the generic engine *)

Section LocatorFacts.
Context {L : PyLib}.

Lemma range_cons (a b : Z) : (a < b)%Z -> range a b = a :: range (a + 1) b.
Proof.
  intros H. unfold range.
  replace (Z.to_nat (b - a)) with (S (Z.to_nat (b - (a + 1)))) by lia.
  cbn [seq map]. f_equal; [lia|].
  rewrite <- seq_shift, map_map. apply map_ext. intros k. lia.
Qed.

Lemma enumerate_from_cons {A : Type} (start : Z) (x : A) (xs : list A) :
  enumerate_from start (x :: xs) = (start, x) :: enumerate_from (start + 1) xs.
Proof.
  unfold enumerate_from, zlen. cbn [length].
  rewrite range_cons by lia. cbn [combine].
  replace (start + Z.of_nat (S (length xs)))%Z
    with (start + 1 + Z.of_nat (length xs))%Z by lia.
  reflexivity.
Qed.

(** What [find] returns on an enumeration: the first element that
    satisfies the test, with its index. *)
Lemma find_enumerate_first {A : Type} (p : A -> bool) (xs : list A) :
  forall start,
    match find (fun il => p (snd il)) (enumerate_from start xs) with
    | Some (i, x) =>
      exists n, i = (start + Z.of_nat n)%Z /\ nth_error xs n = Some x
                /\ p x = true
                /\ forall j y, (j < n)%nat -> nth_error xs j = Some y -> p y = false
    | None => forall y, In y xs -> p y = false
    end.
Proof.
  induction xs as [|x xs IH]; intros start.
  - unfold enumerate_from. rewrite combine_nil. cbn [find]. intros y [].
  - rewrite enumerate_from_cons. cbn [find snd].
    destruct (p x) eqn:Ep.
    + exists 0%nat. repeat split; [lia|assumption|]. intros j y Hj. lia.
    + specialize (IH (start + 1)%Z).
      destruct (find _ (enumerate_from (start + 1) xs)) as [[i y]|].
      * destruct IH as (n & Hi & Hn & Hp & Hmin).
        exists (S n). repeat split; [lia|assumption|assumption|].
        intros [|j] z Hj Hz; cbn [nth_error] in Hz.
        -- inversion Hz; subst. assumption.
        -- eapply Hmin; [|eassumption]. lia.
      * intros y [<-|Hy]; auto.
Qed.

Lemma first_at_unique p lines i j :
  first_at p lines i -> first_at p lines j -> i = j.
Proof.
  intros [(l & Hl & Hp) Hi] [(l' & Hl' & Hp') Hj].
  destruct (Nat.lt_trichotomy i j) as [H|[H|H]]; [|assumption|].
  - rewrite (Hj i l H Hl) in Hp. discriminate.
  - rewrite (Hi j l' H Hl') in Hp'. discriminate.
Qed.

(** X8.  The section locator returns the index of the first line with a
    declaration code, wherever the LRN labels stand; without such a line,
    two lines before the first line with an LRN label, and not before line
    0.  The offset is never negative, and it is the index of a line unless
    it is the default 80. *)
Theorem find_data_section_first (lines : list pystr) :
  (forall i, first_at has_declaration_code lines i ->
             find_data_section lines = Z.of_nat i)
  /\ (forall i, (forall l, In l lines -> has_declaration_code l = false) ->
                first_at has_lrn lines i ->
                find_data_section lines = Z.max 0 (Z.of_nat i - 2))
  /\ (0 <= find_data_section lines)%Z
  /\ ((find_data_section lines < zlen lines)%Z
      \/ find_data_section lines = 80%Z).
Proof.
  unfold find_data_section, enumerate.
  pose proof (find_enumerate_first has_declaration_code lines 0) as H1.
  pose proof (find_enumerate_first has_lrn lines 0) as H2.
  destruct (find (fun il => has_declaration_code (snd il)) (enumerate_from 0 lines))
    as [[i l]|].
  - destruct H1 as (n & -> & Hn & Hp & Hmin).
    assert (first_at has_declaration_code lines n) as Hf by (split; eauto).
    assert (n < length lines)%nat as Hlt by (apply nth_error_Some; congruence).
    split; [|split; [|split]].
    + intros i Hi. rewrite (first_at_unique _ _ _ _ Hi Hf). lia.
    + intros i Hno. apply nth_error_In in Hn. rewrite (Hno l Hn) in Hp.
      discriminate.
    + lia.
    + left. unfold zlen. lia.
  - destruct (find (fun il => has_lrn (snd il)) (enumerate_from 0 lines))
      as [[i l]|].
    + destruct H2 as (n & -> & Hn & Hp & Hmin).
      assert (first_at has_lrn lines n) as Hf by (split; eauto).
      assert (n < length lines)%nat as Hlt by (apply nth_error_Some; congruence).
      split; [|split; [|split]].
      * intros i [(l' & Hl' & Hp') _]. apply nth_error_In in Hl'.
        rewrite (H1 l' Hl') in Hp'. discriminate.
      * intros i _ Hi. rewrite (first_at_unique _ _ _ _ Hi Hf). lia.
      * lia.
      * left. unfold zlen. lia.
    + split; [|split; [|split]].
      * intros i [(l' & Hl' & Hp') _]. apply nth_error_In in Hl'.
        rewrite (H1 l' Hl') in Hp'. discriminate.
      * intros i _ [(l' & Hl' & Hp') _]. apply nth_error_In in Hl'.
        rewrite (H2 l' Hl') in Hp'. discriminate.
      * lia.
      * now right.
Qed.

End LocatorFacts.

Section RunMore.
Context {L : PyLib}.


End RunMore.

(** ** The line searches *)

Section LineSearch.
Context {L : PyLib}.

Lemma range_nil (a b : Z) : (b <= a)%Z -> range a b = [].
Proof. intros H. unfold range. now replace (Z.to_nat (b - a)) with 0%nat by lia. Qed.

Lemma range_down_cons (a b : Z) :
  (b < a)%Z -> range_down a b = a :: range_down (a - 1) b.
Proof.
  intros H. unfold range_down.
  replace (Z.to_nat (a - b)) with (S (Z.to_nat (a - 1 - b))) by lia.
  cbn [seq map]. f_equal; [lia|].
  rewrite <- seq_shift, map_map. apply map_ext. intros k. lia.
Qed.

Lemma range_down_nil (a b : Z) : (a <= b)%Z -> range_down a b = [].
Proof.
  intros H. unfold range_down. now replace (Z.to_nat (a - b)) with 0%nat by lia.
Qed.

Lemma first_nonempty_range (lines : list pystr) (n : nat) :
  forall a b,
    Z.to_nat (b - a) = n -> (0 <= a)%Z -> (b <= zlen lines)%Z ->
    exists i line,
      first_nonempty lines (range a b) = Ok (i, line)
      /\ ((i = (-1)%Z /\ line = []
           /\ forall j, (a <= j < b)%Z -> significant (get_line_safe lines j) = false)
          \/ ((a <= i < b)%Z /\ line = get_line_safe lines i
              /\ significant line = true
              /\ forall j, (a <= j < i)%Z ->
                           significant (get_line_safe lines j) = false)).
Proof.
  induction n as [|n IH]; intros a b Hn Ha Hb.
  - rewrite range_nil by lia. exists (-1)%Z, []. split; [reflexivity|].
    left. repeat split. intros j Hj. lia.
  - rewrite range_cons by lia. cbn [first_nonempty].
    destruct (getitem_ok lines a) as (l & -> & Hl); [lia|]. cbn [bind]. cbv zeta.
    assert (get_line_safe lines a = strip l) as Hg
        by (apply get_line_safe_nth; [lia|exact Hl]).
    fold (significant (strip l)).
    destruct (significant (strip l)) eqn:Es.
    + exists a, (strip l). split; [reflexivity|]. right.
      repeat split; try lia; auto.
    + destruct (IH (a + 1)%Z b) as (i & line & -> & Hi); try lia.
      exists i, line. split; [reflexivity|].
      destruct Hi as [(-> & -> & Hall)|(Hr & -> & Hs & Hall)].
      * left. repeat split. intros j Hj.
        destruct (Z.eq_dec j a) as [->|Hne]; [now rewrite Hg|apply Hall; lia].
      * right. repeat split; try lia; auto. intros j Hj.
        destruct (Z.eq_dec j a) as [->|Hne]; [now rewrite Hg|apply Hall; lia].
Qed.

(** X10.  The forward search, from a start that is not negative, never
    raises; it returns the first line of its window (at most [max_search]
    lines, within the text) that is, once stripped, neither empty nor one
    of the markers, with its index; and [(-1, "")] when the window has
    none. *)
Theorem find_next_forward_first (lines : list pystr) (start max_search : Z) :
  (0 <= start)%Z ->
  exists i line,
    find_next_nonempty_line lines start max_search false = Ok (i, line)
    /\ ((i = (-1)%Z /\ line = []
         /\ forall j, (start <= j < Z.min (zlen lines) (start + max_search))%Z ->
                      significant (get_line_safe lines j) = false)
        \/ ((start <= i < Z.min (zlen lines) (start + max_search))%Z
            /\ line = get_line_safe lines i
            /\ significant line = true
            /\ forall j, (start <= j < i)%Z ->
                         significant (get_line_safe lines j) = false)).
Proof.
  intros H. unfold find_next_nonempty_line.
  eapply first_nonempty_range; [reflexivity|lia|lia].
Qed.

Lemma first_nonempty_range_down (lines : list pystr) (n : nat) :
  forall a b,
    Z.to_nat (a - b) = n -> (0 <= b)%Z -> (a < zlen lines)%Z ->
    exists i line,
      first_nonempty lines (range_down a b) = Ok (i, line)
      /\ ((i = (-1)%Z /\ line = []
           /\ forall j, (b < j <= a)%Z -> significant (get_line_safe lines j) = false)
          \/ ((b < i <= a)%Z /\ line = get_line_safe lines i
              /\ significant line = true
              /\ forall j, (i < j <= a)%Z ->
                           significant (get_line_safe lines j) = false)).
Proof.
  induction n as [|n IH]; intros a b Hn Hb Ha.
  - rewrite range_down_nil by lia. exists (-1)%Z, []. split; [reflexivity|].
    left. repeat split. intros j Hj. lia.
  - rewrite range_down_cons by lia. cbn [first_nonempty].
    destruct (getitem_ok lines a) as (l & -> & Hl); [lia|]. cbn [bind]. cbv zeta.
    assert (get_line_safe lines a = strip l) as Hg
        by (apply get_line_safe_nth; [lia|exact Hl]).
    fold (significant (strip l)).
    destruct (significant (strip l)) eqn:Es.
    + exists a, (strip l). split; [reflexivity|]. right.
      repeat split; try lia; auto.
    + destruct (IH (a - 1)%Z b) as (i & line & -> & Hi); try lia.
      exists i, line. split; [reflexivity|].
      destruct Hi as [(-> & -> & Hall)|(Hr & -> & Hs & Hall)].
      * left. repeat split. intros j Hj.
        destruct (Z.eq_dec j a) as [->|Hne]; [now rewrite Hg|apply Hall; lia].
      * right. repeat split; try lia; auto. intros j Hj.
        destruct (Z.eq_dec j a) as [->|Hne]; [now rewrite Hg|apply Hall; lia].
Qed.

(** X11.  The backward search from a start inside the text returns the
    nearest line at or before the start that is neither empty nor a marker,
    among the [max_search] lines down to, but never including, line 0
    (the stop [max(0, start - max_search)] is excluded); started at or past
    the end of the text it raises [IndexError]. *)
Theorem find_next_backward_bounds (lines : list pystr) (start max_search : Z) :
  ((start < zlen lines)%Z ->
   exists i line,
     find_next_nonempty_line lines start max_search true = Ok (i, line)
     /\ ((i = (-1)%Z /\ line = []
          /\ forall j, (Z.max 0 (start - max_search) < j <= start)%Z ->
                       significant (get_line_safe lines j) = false)
         \/ ((Z.max 0 (start - max_search) < i <= start)%Z
             /\ line = get_line_safe lines i
             /\ significant line = true
             /\ forall j, (i < j <= start)%Z ->
                          significant (get_line_safe lines j) = false)))
  /\ ((zlen lines <= start)%Z -> (1 <= start)%Z -> (1 <= max_search)%Z ->
      find_next_nonempty_line lines start max_search true = Raise IndexError).
Proof.
  unfold find_next_nonempty_line. split.
  - intros H. eapply first_nonempty_range_down; [reflexivity|lia|lia].
  - intros H1 H2 H3. rewrite range_down_cons by lia. cbn [first_nonempty].
    unfold getitem. destruct (Z.ltb_spec start 0); [lia|].
    destruct (Z.ltb_spec start 0); [lia|].
    destruct (nth_error lines (Z.to_nat start)) eqn:E; [|reflexivity].
    assert (Z.to_nat start < length lines)%nat
      by (apply nth_error_Some; congruence).
    unfold zlen in H1. lia.
Qed.

End LineSearch.

(** ** Sender and receiver of the generic engine *)

Section PartyMore.
Context {L : PyLib}.

(** X12.  The sender extractor of the generic engine ends; the sender's
    country is a key exactly when a tax number was found in the window, and
    it is then derived from it: the Cyrillic [МК] when the number starts
    with [MK], its first two characters otherwise. *)
Theorem sender_country_from_tin (lines : list pystr) (dsi : Z) :
  (0 <= dsi)%Z ->
  exists t,
    traexpex1_fields lines dsi [] = Ok t
    /\ ((dict_get (u "TINEX159") t = None /\ dict_get (u "CouEX125") t = None)
        \/ exists i m,
            (dsi <= i < dsi + 20)%Z /\ (i < zlen lines)%Z
            /\ re_match tin_pattern (get_line_safe lines i) = Some m
            /\ dict_get (u "TINEX159") t = Some (VStr (group 1 m))
            /\ dict_get (u "CouEX125") t
               = Some (VStr (if str_eqb (firstn 2 (group 1 m)) (u "MK")
                             then u "МК" else firstn 2 (group 1 m)))).
Proof.
  intros Hd. unfold traexpex1_fields.
  loop (fun t : dict =>
          dict_get (u "CouEX125") t = None
          /\ (dict_get (u "TINEX159") t = None
              \/ exists i m,
                  (dsi <= i < dsi + 20)%Z /\ (i < zlen lines)%Z
                  /\ re_match tin_pattern (get_line_safe lines i) = Some m
                  /\ dict_get (u "TINEX159") t = Some (VStr (group 1 m)))).
  - split; [reflexivity|now left].
  - intros i t1 Hi [Hc Hinv]. apply In_window in Hi.
    crunch; eexists; (split; [reflexivity|]); cbn [ctl_state];
      (split; [rewrite ?dict_get_set_other by key_ne; exact Hc|]);
      try assumption;
      right; exists i; eexists; (split; [lia|]); (split; [lia|]);
      (split; [erewrite get_line_safe_nth by (try eassumption; lia); eassumption|]);
      rewrite ?dict_get_set_other by key_ne; apply dict_get_set_same.
  - cbv zeta. rewrite (dict_get_set_other (u "TINEX159")) by key_ne.
    destruct Hdone as [Hc [E|(i & m & H1 & H2 & H3 & E)]]; rewrite E.
    + eexists. split; [reflexivity|]. left.
      rewrite !dict_get_set_other by key_ne. auto.
    + destruct (str_eqb (firstn 2 (group 1 m)) (u "MK")) eqn:Em; eexists;
        (split; [reflexivity|]); right; exists i, m; rewrite Em;
        repeat (split; [assumption|]);
        (split; [now rewrite !dict_get_set_other by key_ne
                |apply dict_get_set_same]).
Qed.

(** X13.  The receiver extractor of the generic engine ends, and the
    receiver's country, when set, is a line of two capital letters that is
    neither [MK] nor the Cyrillic [МК]. *)
Theorem receiver_country_is_foreign (lines : list pystr) (dsi : Z) :
  (0 <= dsi)%Z ->
  exists c,
    traconce1_fields lines dsi [] = Ok c
    /\ (dict_get (u "CouCE125") c = None
        \/ exists s, dict_get (u "CouCE125") c = Some (VStr s)
                     /\ matches two_letters s = true
                     /\ str_in s [u "MK"; u "МК"] = false).
Proof.
  intros Hd. unfold traconce1_fields.
  loop (fun c : dict =>
          dict_get (u "CouCE125") c = None
          \/ exists s, dict_get (u "CouCE125") c = Some (VStr s)
                       /\ matches two_letters s = true
                       /\ str_in s [u "MK"; u "МК"] = false).
  - now left.
  - intros i c1 Hi Hinv. apply In_range in Hi.
    unfold traconce1_address, traconce1_name, traconce1_tin.
    crunch; eexists; (split; [reflexivity|]); cbn [ctl_state];
      try assumption;
      right; eexists;
      match goal with
      | H : (matches two_letters _ && negb _)%bool = true |- _ =>
        let Ha := fresh "Ha" in
        let Hb := fresh "Hb" in
        apply andb_true_iff in H as [Ha Hb]; apply negb_true_iff in Hb
      end;
      (split; [rewrite ?dict_get_set_other by key_ne; apply dict_get_set_same|]);
      split; assumption.
  - eexists. split; [reflexivity|].
    now rewrite dict_get_set_other by key_ne.
Qed.

End PartyMore.

(** ** The coded fields of the header *)

Section HeaderMore.
Context {L : PyLib}.

Lemma heahea_mass_frame lines h h' K :
  str_in K [u "TotGroMasHEA307"] = false ->
  heahea_total_gross_mass lines h = Ok h' -> dict_get K h' = dict_get K h.
Proof.
  intros HK. split_keys HK. rewrite heahea_total_gross_mass_eq.
  destruct (mass_line lines) as [s|]; [|congruence].
  destruct (isdigit s); [|congruence].
  destruct (py_int s); [|discriminate].
  intros H. inversion H. now apply dict_get_set_other.
Qed.

Lemma heahea_identity_frame lines dsi h h' K :
  (0 <= dsi)%Z ->
  str_in K [u "IdeOfMeaOfTraAtDHEA78"; u "NatOfMeaOfTraCroHEA87"] = false ->
  heahea_identity lines dsi h = Ok h' -> dict_get K h' = dict_get K h.
Proof.
  intros Hd HK E. destruct (heahea_identity_ok lines dsi h K Hd HK) as (? & E' & ?).
  congruence.
Qed.

Lemma heahea_mode_frame lines dsi h h' K :
  (0 <= dsi)%Z -> str_in K [u "TraModAtBorHEA76"] = false ->
  heahea_mode lines dsi h = Ok h' -> dict_get K h' = dict_get K h.
Proof.
  intros Hd HK E. destruct (heahea_mode_ok lines dsi h K Hd HK) as (? & E' & ?).
  congruence.
Qed.

Lemma heahea_dispatch_frame lines dsi h h' K :
  (0 <= dsi)%Z -> str_in K [u "CouOfDisCodHEA55"] = false ->
  heahea_dispatch lines dsi h = Ok h' -> dict_get K h' = dict_get K h.
Proof.
  intros Hd HK E. destruct (heahea_dispatch_ok lines dsi h K Hd HK) as (? & E' & ?).
  congruence.
Qed.

Lemma heahea_destination_frame lines dsi h h' K :
  (0 <= dsi)%Z -> str_in K [u "CouOfDesCodHEA30"] = false ->
  heahea_destination lines dsi h = Ok h' -> dict_get K h' = dict_get K h.
Proof.
  intros Hd HK E.
  destruct (heahea_destination_ok lines dsi h K Hd HK) as (? & E' & ?).
  congruence.
Qed.

Lemma heahea_container_frame lines dsi h h' K :
  (0 <= dsi)%Z -> str_in K [u "ConIndHEA96"] = false ->
  heahea_container lines dsi h = Ok h' -> dict_get K h' = dict_get K h.
Proof.
  intros Hd HK E.
  destruct (heahea_container_ok lines dsi h K Hd HK) as (? & E' & ?).
  congruence.
Qed.

Lemma heahea_place_frame lines dsi h h' K :
  (0 <= dsi)%Z -> str_in K [u "DecPlaHEA394"] = false ->
  heahea_place lines dsi h = Ok h' -> dict_get K h' = dict_get K h.
Proof.
  intros Hd HK E. destruct (heahea_place_ok lines dsi h K Hd HK) as (? & E' & ?).
  congruence.
Qed.

Lemma heahea_identity_domain lines dsi h :
  (0 <= dsi)%Z ->
  exists h', heahea_identity lines dsi h = Ok h'
             /\ kept_or (fun s => matches two_letters s = true)
                        (u "NatOfMeaOfTraCroHEA87") h h'.
Proof.
  intros Hd.
  apply (for_each_inv (kept_or _ (u "NatOfMeaOfTraCroHEA87") h)); [now left|].
  intros i h1 Hi Hinv. apply In_window in Hi.
  crunch; eexists; (split; [reflexivity|]); cbn [ctl_state]; try assumption.
  - right. eexists. split; [apply dict_get_set_same|].
    match goal with H : (_ && _)%bool = true |- _ =>
      apply andb_true_iff in H as [_ H]; exact H end.
  - unfold kept_or in *. now rewrite dict_get_set_other by key_ne.
  - right. eexists. split; [apply dict_get_set_same|].
    match goal with H : (_ && _)%bool = true |- _ =>
      apply andb_true_iff in H as [_ H]; exact H end.
  - unfold kept_or in *. now rewrite dict_get_set_other by key_ne.
Qed.

Lemma heahea_mode_domain lines dsi h :
  (0 <= dsi)%Z ->
  exists h', heahea_mode lines dsi h = Ok h'
             /\ kept_or (fun s => str_in s mode_digits = true)
                        (u "TraModAtBorHEA76") h h'.
Proof.
  intros Hd. unfold heahea_mode.
  loop (Forall (fun s : pystr => str_in s mode_digits = true)).
  - constructor.
  - intros i cands Hi Hinv. apply In_window in Hi.
    crunch; eexists; (split; [reflexivity|]); cbn [ctl_state]; try assumption;
      apply Forall_app; (split; [assumption|]); constructor; auto.
  - destruct (rev st) as [|m rest] eqn:Er.
    + eexists. split; [reflexivity|now left].
    + eexists. split; [reflexivity|]. right. exists m.
      split; [apply dict_get_set_same|].
      rewrite Forall_forall in Hdone. apply Hdone. apply in_rev.
      rewrite Er. now left.
Qed.

Lemma heahea_dispatch_domain lines dsi h :
  (0 <= dsi)%Z ->
  exists h', heahea_dispatch lines dsi h = Ok h'
             /\ kept_or (fun s => matches two_letters s = true)
                        (u "CouOfDisCodHEA55") h h'.
Proof.
  intros Hd.
  apply (for_each_inv (kept_or _ (u "CouOfDisCodHEA55") h)); [now left|].
  intros i h1 Hi Hinv. apply In_window in Hi.
  crunch; eexists; (split; [reflexivity|]); cbn [ctl_state]; try assumption;
    right; eexists; (split; [apply dict_get_set_same|]).
  all: match goal with
       | H : (truthy _ && matches two_letters _)%bool = true |- _ =>
         apply andb_true_iff in H as [_ H]; exact H
       | H : (str_eqb _ (u "MK") && _)%bool = true |- _ =>
         apply andb_true_iff in H as [H _]; apply str_eqb_eq in H;
         rewrite H; reflexivity
       end.
Qed.

Lemma heahea_destination_domain lines dsi h :
  (0 <= dsi)%Z ->
  exists h', heahea_destination lines dsi h = Ok h'
             /\ kept_or (fun s => matches two_letters s = true
                                  /\ str_eqb s (u "MK") = false)
                        (u "CouOfDesCodHEA30") h h'.
Proof.
  intros Hd.
  apply (for_each_inv (kept_or _ (u "CouOfDesCodHEA30") h)); [now left|].
  intros i h1 Hi Hinv. apply In_window in Hi.
  crunch. loop (kept_or (fun s => matches two_letters s = true
                                  /\ str_eqb s (u "MK") = false)
                        (u "CouOfDesCodHEA30") h).
  - assumption.
  - intros country h2 _ Hinv2.
    match goal with |- context [contains country ?l] =>
      destruct (contains country l) end.
    + loop (kept_or (fun s => matches two_letters s = true
                              /\ str_eqb s (u "MK") = false)
                    (u "CouOfDesCodHEA30") h).
      * assumption.
      * intros j h3 Hj Hinv3. apply In_range in Hj.
        crunch; eexists; (split; [reflexivity|]); cbn [ctl_state];
          try assumption.
        right. eexists. split; [apply dict_get_set_same|].
        match goal with H : (_ && negb _)%bool = true |- _ =>
          apply andb_true_iff in H as [Ha Hb]; apply negb_true_iff in Hb;
          split; assumption end.
      * crunch; eexists; (split; [reflexivity|]); assumption.
    + eexists; (split; [reflexivity|]); assumption.
  - crunch; eexists; (split; [reflexivity|]); assumption.
Qed.

Lemma heahea_container_domain lines dsi h :
  (0 <= dsi)%Z ->
  exists h', heahea_container lines dsi h = Ok h'
             /\ kept_or (fun s => str_in s [u "0"; u "1"] = true)
                        (u "ConIndHEA96") h h'.
Proof.
  intros Hd.
  apply (for_each_inv (kept_or _ (u "ConIndHEA96") h)); [now left|].
  intros i h1 Hi Hinv. apply In_window in Hi.
  crunch; eexists; (split; [reflexivity|]); cbn [ctl_state]; try assumption;
    right; eexists; (split; [apply dict_get_set_same|assumption]).
Qed.

Lemma heahea_fields_steps lines dsi h0 h :
  heahea_fields lines dsi h0 = Ok h ->
  exists h1 h2 h3 h4 h5 h6,
    heahea_total_gross_mass lines h0 = Ok h1
    /\ heahea_identity lines dsi h1 = Ok h2
    /\ heahea_mode lines dsi h2 = Ok h3
    /\ heahea_dispatch lines dsi h3 = Ok h4
    /\ heahea_destination lines dsi h4 = Ok h5
    /\ heahea_container lines dsi h5 = Ok h6
    /\ heahea_place lines dsi h6 = Ok h.
Proof.
  unfold heahea_fields.
  destruct (heahea_total_gross_mass lines h0) as [h1|] eqn:E1; cbn [bind]; [|discriminate].
  destruct (heahea_identity lines dsi h1) as [h2|] eqn:E2; cbn [bind]; [|discriminate].
  destruct (heahea_mode lines dsi h2) as [h3|] eqn:E3; cbn [bind]; [|discriminate].
  destruct (heahea_dispatch lines dsi h3) as [h4|] eqn:E4; cbn [bind]; [|discriminate].
  destruct (heahea_destination lines dsi h4) as [h5|] eqn:E5; cbn [bind]; [|discriminate].
  destruct (heahea_container lines dsi h5) as [h6|] eqn:E6; cbn [bind]; [|discriminate].
  intros H. exists h1, h2, h3, h4, h5, h6. repeat split; assumption.
Qed.

Lemma kept_or_value P K h h' v :
  kept_or P K h h' -> dict_get K h = None -> dict_get K h' = Some v ->
  exists s, v = VStr s /\ P s.
Proof.
  intros [E|(s & E & Hs)] H0 H1; [congruence|].
  exists s. split; [congruence|assumption].
Qed.

(** X14.  In the header a run produces, the coded fields hold values of
    their domain when they are set: the nationality of the means of
    transport and the country of dispatch are lines of two capital letters,
    the mode of transport is one of the digits 1 to 9, the country of
    destination is a line of two capital letters other than [MK], and the
    container indicator is [0] or [1]. *)
Theorem header_codes_domain (lines : list pystr) (dsi : Z) (h : dict) :
  (0 <= dsi)%Z ->
  heahea_fields lines dsi [] = Ok h ->
  (forall v, dict_get (u "NatOfMeaOfTraCroHEA87") h = Some v ->
             exists s, v = VStr s /\ matches two_letters s = true)
  /\ (forall v, dict_get (u "TraModAtBorHEA76") h = Some v ->
                exists s, v = VStr s /\ str_in s mode_digits = true)
  /\ (forall v, dict_get (u "CouOfDisCodHEA55") h = Some v ->
                exists s, v = VStr s /\ matches two_letters s = true)
  /\ (forall v, dict_get (u "CouOfDesCodHEA30") h = Some v ->
                exists s, v = VStr s /\ matches two_letters s = true
                          /\ str_eqb s (u "MK") = false)
  /\ (forall v, dict_get (u "ConIndHEA96") h = Some v ->
                exists s, v = VStr s /\ str_in s [u "0"; u "1"] = true).
Proof.
  intros Hd E.
  apply heahea_fields_steps in E
    as (h1 & h2 & h3 & h4 & h5 & h6 & E1 & E2 & E3 & E4 & E5 & E6 & E7).
  pose proof (fun K HK => heahea_mass_frame lines [] h1 K HK E1) as F1.
  pose proof (fun K HK => heahea_identity_frame lines dsi h1 h2 K Hd HK E2) as F2.
  pose proof (fun K HK => heahea_mode_frame lines dsi h2 h3 K Hd HK E3) as F3.
  pose proof (fun K HK => heahea_dispatch_frame lines dsi h3 h4 K Hd HK E4) as F4.
  pose proof (fun K HK => heahea_destination_frame lines dsi h4 h5 K Hd HK E5) as F5.
  pose proof (fun K HK => heahea_container_frame lines dsi h5 h6 K Hd HK E6) as F6.
  pose proof (fun K HK => heahea_place_frame lines dsi h6 h K Hd HK E7) as F7.
  destruct (heahea_identity_domain lines dsi h1 Hd) as (x2 & X2 & D2).
  destruct (heahea_mode_domain lines dsi h2 Hd) as (x3 & X3 & D3).
  destruct (heahea_dispatch_domain lines dsi h3 Hd) as (x4 & X4 & D4).
  destruct (heahea_destination_domain lines dsi h4 Hd) as (x5 & X5 & D5).
  destruct (heahea_container_domain lines dsi h5 Hd) as (x6 & X6 & D6).
  assert (x2 = h2) by congruence. assert (x3 = h3) by congruence.
  assert (x4 = h4) by congruence. assert (x5 = h5) by congruence.
  assert (x6 = h6) by congruence. subst.
  repeat split; intros v Hv.
  - rewrite F7, F6, F5, F4, F3 in Hv by reflexivity.
    eapply kept_or_value; [exact D2| |exact Hv]. now rewrite F1.
  - rewrite F7, F6, F5, F4 in Hv by reflexivity.
    eapply kept_or_value; [exact D3| |exact Hv]. now rewrite F2, F1.
  - rewrite F7, F6, F5 in Hv by reflexivity.
    eapply kept_or_value; [exact D4| |exact Hv]. now rewrite F3, F2, F1.
  - rewrite F7, F6 in Hv by reflexivity.
    assert (dict_get (u "CouOfDesCodHEA30") h4 = None) as H0
        by (now rewrite F4, F3, F2, F1).
    destruct (kept_or_value _ _ _ _ v D5 H0 Hv) as (s & ? & ? & ?). eauto.
  - rewrite F7 in Hv by reflexivity.
    eapply kept_or_value; [exact D6| |exact Hv].
    now rewrite F5, F4, F3, F2, F1.
Qed.

End HeaderMore.

(** ** Packaging and documents of the goods items *)

Section GoodsMore.
Context {L : PyLib}.

Lemma item_description_keeps lines ci ie it :
  (0 <= ci)%Z -> (ie <= zlen lines)%Z ->
  exists it', item_description lines ci ie it = Ok it'
              /\ PACGS2 it' = PACGS2 it.
Proof.
  intros Hc He. unfold item_description.
  loop (fun it' : goods_item => PACGS2 it' = PACGS2 it).
  - reflexivity.
  - intros i it1 Hi Hinv. apply In_range in Hi.
    crunch; eexists; (split; [reflexivity|]); exact Hinv.
  - destruct (negb (truthy (GooDesGDS23 st))).
    + apply for_each_inv; [assumption|].
      intros i it1 Hi Hinv. apply In_range in Hi.
      crunch; eexists; (split; [reflexivity|]); exact Hinv.
    + eauto.
Qed.

Lemma item_packaging_pack lines is_ ie it :
  (0 <= is_)%Z -> (ie <= zlen lines)%Z -> PACGS2 it = [] ->
  exists it', item_packaging lines is_ ie it = Ok it' /\ pack_ok it'.
Proof.
  intros Hc He Hp. unfold item_packaging.
  apply (for_each_inv_break (fun it' : goods_item => PACGS2 it' = []) pack_ok).
  - assumption.
  - intros s Hs. now left.
  - intros i it1 Hi Hinv. apply In_range in Hi.
    crunch; eexists; (split; [reflexivity|]); try exact Hinv;
      try (left; exact Hinv);
      right; eexists; cbn [append_PACGS2 set_GroMasGDS46 PACGS2];
      rewrite Hinv; (split; [reflexivity|]);
      cbn [KinOfPacGS23 NumOfPacGS24 MarNumOfPacGS21];
      repeat match goal with
             | H : (truthy _ && isdigit _)%bool = true |- _ =>
               apply andb_true_iff in H as [_ H]
             | H1 : nth_error ?l ?n = Some ?a, H2 : nth_error ?l ?n = Some ?b |- _ =>
               assert (a = b) by congruence; subst; clear H2
             end;
      repeat split; assumption.
Qed.

Lemma item_documents_keeps lines it :
  PACGS2 (item_documents lines it) = PACGS2 it.
Proof.
  unfold item_documents. cbv zeta.
  match goal with |- context [fold_left ?f ?l ?a] =>
    assert ((fun st : goods_item * list (pystr * pystr) =>
               PACGS2 (fst st) = PACGS2 it) (fold_left f l a)) as HJ;
    [apply fold_left_inv|exact HJ]
  end.
  - reflexivity.
  - intros [item seen] [[doc_type doc_ref] pos] _ H. cbn [fst] in *.
    destruct (str_eqb doc_type (u "5007")); [exact H|].
    destruct (negb (existsb (pair_eqb (doc_type, doc_ref)) seen)); exact H.
Qed.

Lemma item_documents_no_5007 lines it :
  PRODOCDC2 it = [] -> no_5007 (item_documents lines it).
Proof.
  intros Hd. unfold item_documents. cbv zeta.
  match goal with |- context [fold_left ?f ?l ?a] =>
    assert ((fun st : goods_item * list (pystr * pystr) => no_5007 (fst st))
              (fold_left f l a)) as HJ;
    [apply fold_left_inv|exact HJ]
  end.
  - unfold no_5007. cbn [fst]. rewrite Hd. constructor.
  - intros [item seen] [[doc_type doc_ref] pos] _ H. cbn [fst] in *.
    destruct (str_eqb doc_type (u "5007")) eqn:E5; [exact H|].
    destruct (negb (existsb (pair_eqb (doc_type, doc_ref)) seen)); [|exact H].
    unfold no_5007 in *. cbn [fst append_PRODOCDC2 PRODOCDC2].
    apply Forall_app. split; [assumption|]. constructor; [exact E5|constructor].
Qed.

Lemma extract_item_more lines positions item_num ci code :
  (0 <= ci)%Z -> (0 <= item_num)%Z ->
  exists it, extract_item lines positions item_num ci code = Ok it
             /\ pack_ok it /\ no_5007 it
             /\ (item_num <> 1%Z -> PRODOCDC2 it = []).
Proof.
  intros Hc Hn. unfold extract_item. cbv zeta.
  assert (exists j, (if (item_num <? zlen positions)%Z
                     then p <- getitem positions item_num ;; Ok (fst p)
                     else Ok (zlen lines)) = Ok j) as [j ->].
  { crunch; eauto. }
  cbn [bind].
  set (it0 := GoodsItem (str_of_Z item_num) None (u "") None code [] []).
  destruct (item_description_ok lines ci (Z.min (zlen lines) j) it0
              (str_of_Z item_num) code) as (it1 & E1 & Hf1);
    [lia | lia | repeat split |].
  destruct (item_description_keeps lines ci (Z.min (zlen lines) j) it0)
    as (it1' & E1' & Hp1); [lia | lia |].
  assert (it1' = it1) by congruence. subst it1'. rewrite E1. cbn [bind].
  destruct (item_packaging_ok lines (Z.max 0 (ci - 30)) (Z.min (zlen lines) j)
              it1 (str_of_Z item_num) code) as (it2 & E2 & Hf2);
    [lia | lia | assumption |].
  destruct (item_packaging_pack lines (Z.max 0 (ci - 30)) (Z.min (zlen lines) j)
              it1) as (it2' & E2' & Hp2); [lia | lia | exact Hp1 |].
  assert (it2' = it2) by congruence. subst it2'. rewrite E2. cbn [bind].
  destruct Hf2 as (_ & _ & Hd2).
  destruct (Z.eqb_spec item_num 1).
  - eexists. split; [reflexivity|]. split; [|split].
    + unfold pack_ok in *. now rewrite item_documents_keeps.
    + now apply item_documents_no_5007.
    + intros Hne. contradiction.
  - eexists. split; [reflexivity|]. split; [assumption|]. split.
    + unfold no_5007. rewrite Hd2. constructor.
    + intros _. exact Hd2.
Qed.

Lemma Forall2_Forall_r {A B : Type} (Q : A -> B -> Prop) (P : B -> Prop)
      (xs : list A) (ys : list B) :
  Forall2 Q xs ys -> (forall x y, In x xs -> Q x y -> P y) -> Forall P ys.
Proof.
  induction 1 as [|x y xs ys Hxy H IH]; intros HP; constructor.
  - apply (HP x y); [now left|assumption].
  - apply IH. intros x' y' Hx'. apply HP. now right.
Qed.

Lemma gooitegds_items_more lines dsi :
  exists items,
    gooitegds_items lines dsi [] = Ok items
    /\ Forall pack_ok items /\ Forall no_5007 items
    /\ Forall (fun it => PRODOCDC2 it = []) (tl items).
Proof.
  unfold gooitegds_items. rewrite find_commodity_positions_eq. cbn [bind].
  destruct (commodity_lines lines (Z.max dsi 100)) as [|i0 codes] eqn:Ec.
  - exists [_create_empty_item]. cbn [map app tl]. split; [reflexivity|].
    split; [|split]; repeat constructor.
  - set (ps := map (fun i => (i, get_line_safe lines i)) (i0 :: codes)).
    assert (forall p, In p ps -> (0 <= fst p)%Z) as Hps.
    { intros p Hin. apply in_map_iff in Hin as (j & <- & Hin). cbn [fst].
      rewrite <- Ec in Hin. unfold commodity_lines in Hin.
      apply filter_In in Hin as [Hin _]. apply In_range in Hin. lia. }
    change (match ps with [] => Ok ([] ++ [_create_empty_item]) | _ :: _ =>
              for_each (enumerate_from 1 ps)
                (fun np goods =>
                   let '(item_num, (commodity_index, commodity_code)) := np in
                   item <- extract_item lines ps item_num commodity_index
                                        commodity_code ;;
                   Ok (Next (goods ++ [item]))) [] end)
      with (for_each (enumerate_from 1 ps)
                (fun np goods =>
                   let '(item_num, (commodity_index, commodity_code)) := np in
                   item <- extract_item lines ps item_num commodity_index
                                        commodity_code ;;
                   Ok (Next (goods ++ [item]))) []).
    match goal with |- context [for_each ?xs ?body []] =>
      destruct (for_each_collect
                  (fun (np : Z * (Z * pystr)) it =>
                     pack_ok it /\ no_5007 it
                     /\ (fst np <> 1%Z -> PRODOCDC2 it = []))
                  xs body []) as (items & E & HQ)
    end.
    + intros [n [ci code]] acc Hin.
      assert (0 <= n)%Z as Hn.
      { apply in_combine_l in Hin. apply In_range in Hin. lia. }
      assert (0 <= ci)%Z as Hci.
      { apply in_combine_r in Hin. apply (Hps _ Hin). }
      destruct (extract_item_more lines ps n ci code Hci Hn) as (it & E & H).
      exists it. rewrite E. cbn [bind fst]. auto.
    + exists items. split; [exact E|]. split; [|split].
      * eapply Forall2_Forall_r; [exact HQ|]. cbv beta. tauto.
      * eapply Forall2_Forall_r; [exact HQ|]. cbv beta. tauto.
      * unfold ps in HQ. cbn [map] in HQ. rewrite enumerate_from_cons in HQ.
        inversion HQ as [|? it ? items' _ HQ']; subst. cbn [tl].
        eapply Forall2_Forall_r; [exact HQ'|]. cbv beta.
        intros np it' Hin (_ & _ & H). apply H.
        apply (in_map fst) in Hin. rewrite enumerate_from_fst in Hin.
        apply In_range in Hin. lia.
Qed.

(** X15.  Every goods item of the generic engine has at most one
    packaging entry; its kind is one of the seven packaging codes, its
    count is a line of digits and its marks are null. *)
Theorem one_package_per_item (lines : list pystr) (dsi : Z) :
  exists items, gooitegds_items lines dsi [] = Ok items
                /\ Forall pack_ok items.
Proof.
  destruct (gooitegds_items_more lines dsi) as (items & E & H & _). eauto.
Qed.

(** X16.  The reference documents are attached to the first goods item
    only: every later item has an empty document list; and no item holds a
    document of type [5007], which the engine reads and skips. *)
Theorem documents_on_first_item (lines : list pystr) (dsi : Z) :
  exists items, gooitegds_items lines dsi [] = Ok items
                /\ Forall (fun it => PRODOCDC2 it = []) (tl items)
                /\ Forall no_5007 items.
Proof.
  destruct (gooitegds_items_more lines dsi) as (items & E & _ & H1 & H2). eauto.
Qed.

End GoodsMore.

(** ** The customs engine *)

Section CustomsEngineFacts.
Context {L : PyLib}.

(** X17.  The section locator of the customs engine is decided by the
    first line that holds a declaration code or the consignor heading: the
    offset is five lines before a declaration code (not before line 0), or
    the heading's own line; without such a line it is the default 10.  The
    offset is never negative, and it is the index of a line unless it is
    the default. *)
Theorem customs_find_data_section_first (lines : list pystr) :
  (forall i l, first_at has_customs_marker lines i ->
               nth_error lines i = Some l ->
               customs_find_data_section lines
               = if matches declaration_line (strip l)
                 then Z.max 0 (Z.of_nat i - 5) else Z.of_nat i)
  /\ ((forall l, In l lines -> has_customs_marker l = false) ->
      customs_find_data_section lines = 10%Z)
  /\ (0 <= customs_find_data_section lines)%Z
  /\ ((customs_find_data_section lines < zlen lines)%Z
      \/ customs_find_data_section lines = 10%Z).
Proof.
  unfold customs_find_data_section, enumerate.
  pose proof (find_enumerate_first has_customs_marker lines 0) as H1.
  destruct (find (fun il => has_customs_marker (snd il)) (enumerate_from 0 lines))
    as [[i l]|].
  - destruct H1 as (n & -> & Hn & Hp & Hmin).
    assert (first_at has_customs_marker lines n) as Hf by (split; eauto).
    assert (n < length lines)%nat as Hlt by (apply nth_error_Some; congruence).
    split; [|split; [|split]].
    + intros i l' Hi Hl'. rewrite (first_at_unique _ _ _ _ Hi Hf) in *.
      assert (l' = l) by congruence. subst l'.
      destruct (matches declaration_line (strip l)); f_equal; lia.
    + intros Hno. apply nth_error_In in Hn. rewrite (Hno l Hn) in Hp.
      discriminate.
    + destruct (matches declaration_line (strip l)); lia.
    + left. unfold zlen. destruct (matches declaration_line (strip l)); lia.
  - split; [|split; [|split]].
    + intros i l' [(l0 & Hl0 & Hp0) _] _. apply nth_error_In in Hl0.
      rewrite (H1 l0 Hl0) in Hp0. discriminate.
    + reflexivity.
    + lia.
    + now right.
Qed.

Lemma customs_packaging_past_end lines b item (n : nat) :
  forall a,
    Z.to_nat (b - a) = n -> (0 <= a < b)%Z -> (zlen lines < b)%Z ->
    (forall i, (a <= i < zlen lines)%Z ->
               customs_line_package (get_line_safe lines i) = None) ->
    for_each (range a b)
      (fun i item =>
         l <- getitem lines i ;;
         let line := strip l in
         match customs_line_package line with
         | Some package => Ok (Break (append_PACGS2 package item))
         | None => Ok (Next item)
         end)
      item = Raise IndexError.
Proof.
  induction n as [|n IH]; intros a Hn Ha Hb Hno; [lia|].
  rewrite range_cons by lia. cbn [for_each].
  destruct (Z.ltb_spec a (zlen lines)) as [Hlt|Hge].
  - destruct (getitem_ok lines a) as (l & -> & Hl); [lia|]. cbn [bind]. cbv zeta.
    rewrite <- (get_line_safe_nth lines a l) by (lia || assumption).
    rewrite Hno by lia. apply IH; try lia. intros i Hi. apply Hno. lia.
  - unfold getitem. destruct (Z.ltb_spec a 0); [lia|].
    destruct (Z.ltb_spec a 0); [lia|].
    destruct (nth_error lines (Z.to_nat a)) eqn:E; [|reflexivity].
    assert (Z.to_nat a < length lines)%nat
      by (apply nth_error_Some; congruence).
    unfold zlen in Hge. lia.
Qed.

(** X18.  The packaging loop of the customs engine runs to two lines past
    the commodity code without looking at the length of the text.  When
    the text has these lines, the loop ends with at most one package
    appended; when the text ends before them and no line from the start of
    the item to the end describes a package, the loop raises
    [IndexError]. *)
Theorem customs_packaging_bounds (lines : list pystr)
        (item_start commodity_index : Z) (item : goods_item) :
  (0 <= item_start)%Z ->
  ((commodity_index + 3 <= zlen lines)%Z ->
   exists item',
     customs_item_packaging lines item_start commodity_index item = Ok item'
     /\ (item' = item \/ exists p, item' = append_PACGS2 p item))
  /\ ((item_start < commodity_index + 3)%Z ->
      (zlen lines < commodity_index + 3)%Z ->
      (forall i, (item_start <= i < zlen lines)%Z ->
                 customs_line_package (get_line_safe lines i) = None) ->
      customs_item_packaging lines item_start commodity_index item
      = Raise IndexError).
Proof.
  intros Hs. unfold customs_item_packaging. split.
  - intros He.
    apply (for_each_inv_break (fun it => it = item)
             (fun it => it = item \/ exists p, it = append_PACGS2 p item)).
    + reflexivity.
    + intros s ->. now left.
    + intros i it Hi ->. apply In_range in Hi.
      destruct (getitem_ok lines i) as (l & -> & _); [lia|]. cbn [bind]. cbv zeta.
      destruct (customs_line_package (strip l)) as [p|];
        eexists; (split; [reflexivity|]); [right; exists p|]; reflexivity.
  - intros H1 H2 Hno.
    eapply customs_packaging_past_end; try reflexivity; try lia. exact Hno.
Qed.

Lemma none_or_str_set K K' v t :
  str_eqb K K' = false -> none_or_str K t -> none_or_str K (dict_set K' v t).
Proof. intros Hk H. unfold none_or_str. now rewrite dict_get_set_other. Qed.

Lemma none_or_str_same K s t : none_or_str K (dict_set K (VStr s) t).
Proof. right. exists s. apply dict_get_set_same. Qed.

Lemma customs_sender_postal_ok lines i t :
  (0 <= i)%Z ->
  none_or_str (u "StrAndNumEX122") t -> none_or_str (u "PosCodEX123") t ->
  exists t', customs_sender_postal lines i t = Ok t'
             /\ none_or_str (u "StrAndNumEX122") t'
             /\ none_or_str (u "PosCodEX123") t'.
Proof.
  intros Hi Ha Hp. unfold customs_sender_postal.
  destruct Ha as [E|[addr E]]; rewrite E.
  - eexists. split; [reflexivity|]. split; [now left|assumption].
  - destruct (re_search customs_postal_end addr) as [m|].
    + eexists. split; [reflexivity|]. split.
      * apply none_or_str_set; [reflexivity|]. right. eauto.
      * apply none_or_str_same.
    + apply (for_each_inv (fun t' => none_or_str (u "StrAndNumEX122") t'
                                     /\ none_or_str (u "PosCodEX123") t')).
      * split; [right; eauto|assumption].
      * intros j t1 Hj [H1 H2]. apply In_range in Hj.
        crunch; eexists; (split; [reflexivity|]); cbn [ctl_state];
          try (split; assumption).
        split; [apply none_or_str_set; [reflexivity|assumption]
               |apply none_or_str_same].
Qed.

(** The sender extractor never raises and leaves the postal code as a
    key. *)
Lemma customs_traexpex1_fields_ok (lines : list pystr) :
  exists t,
    customs_traexpex1_fields lines [] = Ok t
    /\ (dict_get (u "PosCodEX123") t = Some VNone
        \/ exists s, dict_get (u "PosCodEX123") t = Some (VStr s)).
Proof.
  unfold customs_traexpex1_fields.
  loop (fun t : dict => none_or_str (u "StrAndNumEX122") t
                        /\ none_or_str (u "PosCodEX123") t).
  - split; now left.
  - intros [i line] t1 Hin [Ha Hp].
    apply In_enumerate_nonneg in Hin as [Hi _].
    destruct (contains (u "Consignor/Exporter") line
              || contains (u "2 Consignor") line);
      [|eexists; split; [reflexivity|split; assumption]].
    match goal with
    | |- exists c, (t <- ?m1 ;; _) = _ /\ _ =>
      assert (exists t2, m1 = Ok t2 /\ none_or_str (u "StrAndNumEX122") t2
                         /\ none_or_str (u "PosCodEX123") t2) as (t2 & -> & Ha2 & Hp2)
    end.
    { crunch; eexists; (split; [reflexivity|]);
        (split; [try apply none_or_str_set|try apply none_or_str_set]);
        try reflexivity; assumption. }
    cbn [bind].
    match goal with
    | |- exists c, (t <- ?m1 ;; _) = _ /\ _ =>
      assert (exists t3, m1 = Ok t3 /\ none_or_str (u "StrAndNumEX122") t3
                         /\ none_or_str (u "PosCodEX123") t3) as (t3 & -> & Ha3 & Hp3)
    end.
    { crunch; eexists; (split; [reflexivity|]);
        (split; [try apply none_or_str_same|try apply none_or_str_set]);
        try reflexivity; assumption. }
    cbn [bind].
    match goal with
    | |- exists c, (t <- ?m1 ;; _) = _ /\ _ =>
      assert (exists t4, m1 = Ok t4 /\ none_or_str (u "StrAndNumEX122") t4
                         /\ none_or_str (u "PosCodEX123") t4) as (t4 & -> & Ha4 & Hp4)
    end.
    { crunch; eexists; (split; [reflexivity|]);
        (split; [try apply none_or_str_set|try apply none_or_str_set]);
        try reflexivity; assumption. }
    cbn [bind].
    match goal with
    | |- exists c, (t <- ?m1 ;; _) = _ /\ _ =>
      assert (exists t5, m1 = Ok t5 /\ none_or_str (u "StrAndNumEX122") t5
                         /\ none_or_str (u "PosCodEX123") t5) as (t5 & -> & Ha5 & Hp5)
    end.
    { crunch; eexists; (split; [reflexivity|]);
        (split; [try apply none_or_str_set|try apply none_or_str_set]);
        try reflexivity; assumption. }
    cbn [bind].
    match goal with
    | |- exists c, (t <- ?m1 ;; _) = _ /\ _ =>
      assert (exists t6, m1 = Ok t6 /\ none_or_str (u "StrAndNumEX122") t6
                         /\ none_or_str (u "PosCodEX123") t6) as (t6 & -> & Ha6 & Hp6)
    end.
    { crunch; eexists; (split; [reflexivity|]);
        (split; [try apply none_or_str_set|try apply none_or_str_set]);
        try reflexivity; assumption. }
    cbn [bind].
    destruct (customs_sender_postal_ok lines i t6 Hi Ha6 Hp6) as (t7 & -> & Ha7 & Hp7).
    cbn [bind]. eexists. split; [reflexivity|]. split; assumption.
  - destruct Hdone as [_ [E|[s E]]]; unfold dict_has; rewrite E; cbn [negb].
    + eexists. split; [reflexivity|]. left. apply dict_get_set_same.
    + eexists. split; [reflexivity|]. right. eauto.
Qed.


End CustomsEngineFacts.

Section CustomsReceiverFacts.
Context {L : PyLib}.
Variable str_upper : pystr -> pystr.

Lemma customs_receiver_start_cases (lines : list pystr) :
  (0 <= customs_receiver_start lines)%Z
  /\ (forall i, first_at (contains (u "8 Примач")) lines i ->
                customs_receiver_start lines = Z.of_nat i)
  /\ ((forall l, In l lines -> contains (u "8 Примач") l = false) ->
      customs_receiver_start lines = 0%Z).
Proof.
  unfold customs_receiver_start, enumerate.
  pose proof (find_enumerate_first (contains (u "8 Примач")) lines 0) as H1.
  destruct (find (fun il => contains (u "8 Примач") (snd il))
                 (enumerate_from 0 lines)) as [[i l]|].
  - destruct H1 as (n & -> & Hn & Hp & Hmin).
    assert (first_at (contains (u "8 Примач")) lines n) as Hf by (split; eauto).
    split; [lia|]. split.
    + intros i Hi. rewrite (first_at_unique _ _ _ _ Hi Hf). lia.
    + intros Hno. apply nth_error_In in Hn. rewrite (Hno l Hn) in Hp.
      discriminate.
  - split; [lia|]. split; [|reflexivity].
    intros i [(l0 & Hl0 & Hp0) _]. apply nth_error_In in Hl0.
    rewrite (H1 l0 Hl0) in Hp0. discriminate.
Qed.

Lemma customs_receiver_country_ok lines j c :
  (0 <= j)%Z -> exists c', customs_receiver_country lines j c = Ok c'.
Proof.
  intros Hj. unfold customs_receiver_country.
  destruct (for_each_inv (fun _ : dict => True)
              (range (j + 1) (Z.min (zlen lines) (j + 5)))
              (fun k c =>
                 l <- getitem lines k ;;
                 let country_line := strip l in
                 if matches two_letters country_line
                 then Ok (Break (dict_set (u "CouCE125") (VStr country_line) c))
                 else Ok (Next c))
              c) as (c' & E & _); [exact I| |eauto].
  intros k c1 Hk _. apply In_range in Hk.
  crunch; eexists; split; reflexivity || exact I.
Qed.

Lemma customs_receiver_address_ok lines i c :
  (0 <= i)%Z -> exists c', customs_receiver_address str_upper lines i c = Ok c'.
Proof.
  intros Hi. unfold customs_receiver_address.
  match goal with |- exists c', for_each ?xs ?body c = Ok c' =>
    destruct (for_each_inv (fun _ : dict => True) xs body c)
      as (c' & E & _); [exact I| |eauto]
  end.
  intros j c1 Hj _. apply In_range in Hj.
  destruct (getitem_ok lines j) as (l & -> & _); [lia|]. cbn [bind]. cbv zeta.
  destruct (truthy (strip l) && (5 <? length (strip l))%nat);
    [|eexists; split; [reflexivity|exact I]].
  destruct (negb (matches four_to_six_digits (strip l))
            && negb (matches two_letters (strip l))
            && negb (contains (u "СЛОВЕН") (strip l)));
    [|eexists; split; [reflexivity|exact I]].
  destruct (contains (u "УЛИЦА") (str_upper (strip l))
            || contains (u "УЛ.") (str_upper (strip l)));
    [|eexists; split; [reflexivity|exact I]].
  match goal with |- context [customs_receiver_country lines j ?c0] =>
    destruct (customs_receiver_country_ok lines j c0) as (c2 & ->); [lia|]
  end.
  cbn [bind]. eexists. split; [reflexivity|exact I].
Qed.

(** X20.  The receiver extractor of the customs engine returns at once,
    leaving the receiver as it was (so without a key for the tax number),
    when no line holds the heading [8 Примач] or when the first such line
    is line 0; when the first heading is on a later line, the extractor
    ends and the tax number is null. *)
Theorem customs_receiver_tin (lines : list pystr) (c : dict) :
  ((forall l, In l lines -> contains (u "8 Примач") l = false) ->
   customs_traconce1_fields str_upper lines c = Ok c)
  /\ (first_at (contains (u "8 Примач")) lines 0 ->
      customs_traconce1_fields str_upper lines c = Ok c)
  /\ (forall n, first_at (contains (u "8 Примач")) lines (S n) ->
                exists c', customs_traconce1_fields str_upper lines c = Ok c'
                           /\ dict_get (u "TINCE159") c' = Some VNone).
Proof.
  destruct (customs_receiver_start_cases lines) as (Hs & Hfirst & Hnone).
  unfold customs_traconce1_fields. cbv zeta. split; [|split].
  - intros H. rewrite (Hnone H). reflexivity.
  - intros H. rewrite (Hfirst 0%nat H). reflexivity.
  - intros n H. rewrite (Hfirst (S n) H).
    destruct (Z.eqb_spec (Z.of_nat (S n)) 0) as [E|E]; [lia|].
    loop (fun _ : dict => True).
    + exact I.
    + intros i c1 Hi _. apply In_range in Hi.
      destruct (getitem_ok lines i) as (l & -> & _); [lia|]. cbn [bind]. cbv zeta.
      destruct (truthy (strip l) && (3 <? length (strip l))%nat
                && negb (matches digits_only (strip l)));
        [|eexists; split; [reflexivity|exact I]].
      destruct (negb (contains (u "9 Финансово") (strip l))
                && negb (str_eqb (u "Не") (strip l))
                && negb (contains (u "МИКЛОШИЧЕВА") (strip l)));
        [|eexists; split; [reflexivity|exact I]].
      match goal with |- context [customs_receiver_address str_upper lines i ?c0] =>
        destruct (customs_receiver_address_ok lines i c0) as (c2 & ->); [lia|]
      end.
      cbn [bind]. eexists. split; [reflexivity|exact I].
    + cbn [bind]. eexists. split; [reflexivity|apply dict_get_set_same].
Qed.

End CustomsReceiverFacts.

(** ** The customs engine: header, goods items and the run *)

Section CustomsHeaderFacts.
Context {L : PyLib}.

Ltac set_ok :=
  intros (H1 & H2 & H3 & H4 & H5); repeat split; intros v0 Hv;
  first [ rewrite dict_get_set_other in Hv by key_ne; eauto
        | rewrite dict_get_set_same in Hv; inversion Hv; subst; eauto ].

Lemma customs_header_ok_mass f h :
  customs_header_ok h -> customs_header_ok (dict_set (u "TotGroMasHEA307") (VFloat f) h).
Proof. set_ok. Qed.

Lemma customs_header_ok_identity v h :
  customs_header_ok h -> customs_header_ok (dict_set (u "IdeOfMeaOfTraAtDHEA78") v h).
Proof. set_ok. Qed.

Lemma customs_header_ok_nationality v h :
  customs_header_ok h -> customs_header_ok (dict_set (u "NatOfMeaOfTraCroHEA87") v h).
Proof. set_ok. Qed.

Lemma customs_header_ok_place v h :
  customs_header_ok h -> customs_header_ok (dict_set (u "DecPlaHEA394") v h).
Proof. set_ok. Qed.

Lemma customs_header_ok_mode s h :
  str_in s mode_digits = true ->
  customs_header_ok h -> customs_header_ok (dict_set (u "TraModAtBorHEA76") (VStr s) h).
Proof. intros Hs. set_ok. Qed.

Lemma customs_header_ok_dispatch h :
  customs_header_ok h ->
  customs_header_ok (dict_set (u "CouOfDisCodHEA55") (VStr (u "MK")) h).
Proof. set_ok. Qed.

Lemma customs_header_ok_destination s h :
  str_eqb s (u "MK") = false ->
  customs_header_ok h -> customs_header_ok (dict_set (u "CouOfDesCodHEA30") (VStr s) h).
Proof. intros Hs. set_ok. Qed.

Lemma customs_header_ok_container s h :
  str_in s [u "0"; u "1"] = true ->
  customs_header_ok h -> customs_header_ok (dict_set (u "ConIndHEA96") (VStr s) h).
Proof. intros Hs. set_ok. Qed.

Ltac keep_step :=
  match goal with
  | |- customs_header_ok (dict_set (u "TotGroMasHEA307") _ _) =>
    apply customs_header_ok_mass
  | |- customs_header_ok (dict_set (u "IdeOfMeaOfTraAtDHEA78") _ _) =>
    apply customs_header_ok_identity
  | |- customs_header_ok (dict_set (u "NatOfMeaOfTraCroHEA87") _ _) =>
    apply customs_header_ok_nationality
  | |- customs_header_ok (dict_set (u "DecPlaHEA394") _ _) =>
    apply customs_header_ok_place
  | |- customs_header_ok (dict_set (u "CouOfDisCodHEA55") _ _) =>
    apply customs_header_ok_dispatch
  | |- customs_header_ok (dict_set (u "TraModAtBorHEA76") _ _) =>
    apply customs_header_ok_mode; [assumption|]
  | |- customs_header_ok (dict_set (u "ConIndHEA96") _ _) =>
    apply customs_header_ok_container
  | |- customs_header_ok (dict_set (u "CouOfDesCodHEA30") _ _) =>
    apply customs_header_ok_destination
  end.

Ltac keep_ok :=
  eexists; (split; [reflexivity|]); cbn [ctl_state]; try assumption;
  repeat keep_step; try assumption.

Lemma customs_heahea_mass_ok lines h :
  customs_header_ok h ->
  exists h', customs_heahea_mass lines h = Ok h' /\ customs_header_ok h'.
Proof.
  intros Hh. apply for_each_inv; [assumption|].
  intros [i line] h1 Hin Hinv. apply In_enumerate_nonneg in Hin as [Hi _].
  destruct (contains (u "Бруто маса") line); [|keep_ok].
  loop customs_header_ok.
  - assumption.
  - intros j h2 Hj Hinv2. apply In_range in Hj. crunch; keep_ok.
  - keep_ok.
Qed.

Lemma customs_heahea_identity_ok lines dsi h :
  (0 <= dsi)%Z -> customs_header_ok h ->
  exists h', customs_heahea_identity lines dsi h = Ok h' /\ customs_header_ok h'.
Proof.
  intros Hd Hh. apply for_each_inv; [assumption|].
  intros i h1 Hi Hinv. apply In_window in Hi. crunch; keep_ok.
Qed.

Lemma customs_heahea_mode_ok lines h :
  customs_header_ok h ->
  exists h', customs_heahea_mode lines h = Ok h' /\ customs_header_ok h'.
Proof.
  intros Hh. apply for_each_inv; [assumption|].
  intros [i line] h1 Hin Hinv. apply In_enumerate_nonneg in Hin as [Hi _].
  destruct (contains (u "на граница") line || contains (u "Вид на") line);
    [|keep_ok].
  loop customs_header_ok.
  - assumption.
  - intros j h2 Hj Hinv2. apply In_range in Hj. crunch; keep_ok.
  - crunch; keep_ok.
Qed.

Lemma customs_heahea_dispatch_ok lines h :
  customs_header_ok h ->
  exists h', customs_heahea_dispatch lines h = Ok h' /\ customs_header_ok h'.
Proof.
  intros Hh. apply for_each_inv; [assumption|].
  intros [i line] h1 Hin Hinv. apply In_enumerate_nonneg in Hin as [Hi _].
  destruct (contains (u "Земја на поаѓање") line
            || contains (u "15 Шифра на земја") line); [|keep_ok].
  loop customs_header_ok.
  - assumption.
  - intros j h2 Hj Hinv2. apply In_range in Hj. crunch; keep_ok.
  - crunch; keep_ok.
Qed.

Lemma str_in_head (s a : pystr) (l : list pystr) :
  str_in s (a :: l) = false -> str_eqb s a = false.
Proof.
  cbn [str_in existsb]. intros H. now apply orb_false_iff in H as [H _].
Qed.

Lemma customs_heahea_destination_ok lines h :
  customs_header_ok h ->
  exists h', customs_heahea_destination lines h = Ok h' /\ customs_header_ok h'.
Proof.
  intros Hh. unfold customs_heahea_destination.
  loop customs_header_ok.
  - assumption.
  - intros [i line] h1 Hin Hinv. apply In_enumerate_nonneg in Hin as [Hi _].
    destruct (contains (u "17 Земја на намена") line
              || contains (u "Земја на намена") line); [|keep_ok].
    loop customs_header_ok.
    + assumption.
    + intros j h2 Hj Hinv2. apply In_range in Hj. crunch; keep_ok.
      match goal with H : negb _ = true |- _ =>
        apply negb_true_iff in H; apply str_in_head in H; exact H end.
    + crunch; keep_ok.
  - destruct (negb (dict_has (u "CouOfDesCodHEA30") st)); [|eauto].
    apply for_each_inv; [assumption|].
    intros [i line] h1 Hin Hinv. apply In_enumerate_nonneg in Hin as [Hi _].
    destruct (contains (u "8 Примач") line); [|keep_ok].
    loop customs_header_ok.
    + assumption.
    + intros j h2 Hj Hinv2. apply In_range in Hj. crunch; keep_ok.
      match goal with H : (_ && negb _)%bool = true |- _ =>
        apply andb_true_iff in H as [_ H]; apply negb_true_iff in H;
        apply str_in_head in H; exact H end.
    + keep_ok.
Qed.

Lemma customs_heahea_container_ok lines dsi h :
  (0 <= dsi)%Z -> customs_header_ok h ->
  exists h', customs_heahea_container lines dsi h = Ok h' /\ customs_header_ok h'.
Proof.
  intros Hd Hh. apply for_each_inv; [assumption|].
  intros i h1 Hi Hinv. apply In_window in Hi. crunch; keep_ok.
  match goal with H : (str_eqb ?s _ || str_eqb ?s _)%bool = true |- _ =>
    cbn [str_in existsb]; rewrite orb_false_r; exact H end.
Qed.

Lemma customs_heahea_place_ok lines h :
  customs_header_ok h ->
  exists h', customs_heahea_place lines h = Ok h' /\ customs_header_ok h'.
Proof.
  intros Hh. apply for_each_inv; [assumption|].
  intros [i line] h1 Hin Hinv. apply In_enumerate_nonneg in Hin as [Hi _].
  destruct (contains (u "Излезен царински орган") line
            || contains (u "29 Излезен") line); [|keep_ok].
  loop customs_header_ok.
  - assumption.
  - intros j h2 Hj Hinv2. apply In_range in Hj. crunch; keep_ok.
  - crunch; keep_ok.
Qed.

Lemma customs_heahea_fields_ok lines dsi h :
  (0 <= dsi)%Z -> customs_header_ok h ->
  exists h', customs_heahea_fields lines dsi h = Ok h' /\ customs_header_ok h'.
Proof.
  intros Hd Hh. unfold customs_heahea_fields.
  destruct (customs_heahea_mass_ok lines h Hh) as (h1 & -> & H1). cbn [bind].
  destruct (customs_heahea_identity_ok lines dsi h1 Hd H1) as (h2 & -> & H2).
  cbn [bind].
  destruct (customs_heahea_mode_ok lines h2 H2) as (h3 & -> & H3). cbn [bind].
  destruct (customs_heahea_dispatch_ok lines h3 H3) as (h4 & -> & H4). cbn [bind].
  destruct (customs_heahea_destination_ok lines h4 H4) as (h5 & -> & H5).
  cbn [bind].
  destruct (customs_heahea_container_ok lines dsi h5 Hd H5) as (h6 & -> & H6).
  cbn [bind].
  apply customs_heahea_place_ok. assumption.
Qed.

(** X21.  The header extractor of the customs engine never raises when
    the section offset is not negative, and the coded fields it sets lie in
    their domains: the total gross mass is a number, the mode of transport
    is one of the digits 1 to 9, the country of dispatch is [MK], the
    country of destination is a string other than [MK], and the container
    indicator is [0] or [1]. *)
Theorem customs_header_domain (lines : list pystr) (dsi : Z) :
  (0 <= dsi)%Z ->
  exists h,
    customs_heahea_fields lines dsi [] = Ok h
    /\ (forall v, dict_get (u "TotGroMasHEA307") h = Some v ->
                  exists f, v = VFloat f)
    /\ (forall v, dict_get (u "TraModAtBorHEA76") h = Some v ->
                  exists s, v = VStr s /\ str_in s mode_digits = true)
    /\ (forall v, dict_get (u "CouOfDisCodHEA55") h = Some v ->
                  v = VStr (u "MK"))
    /\ (forall v, dict_get (u "CouOfDesCodHEA30") h = Some v ->
                  exists s, v = VStr s /\ str_eqb s (u "MK") = false)
    /\ (forall v, dict_get (u "ConIndHEA96") h = Some v ->
                  exists s, v = VStr s /\ str_in s [u "0"; u "1"] = true).
Proof.
  intros Hd.
  destruct (customs_heahea_fields_ok lines dsi [] Hd) as (h & E & Hh).
  { repeat split; intros v Hv; discriminate. }
  exists h. split; [exact E|exact Hh].
Qed.

End CustomsHeaderFacts.

(** A loop whose body may raise: the invariant at the end, or a property
    of the exception. *)
Lemma for_each_inv_exn {A S : Type} (I J : S -> Prop) (E : exn -> Prop)
      (xs : list A) (body : A -> S -> outcome (ctl S)) (s : S) :
  I s -> (forall s, I s -> J s) ->
  (forall x s1, In x xs -> I s1 ->
                match body x s1 with
                | Ok (Next s') => I s'
                | Ok (Break s') => J s'
                | Raise e => E e
                end) ->
  match for_each xs body s with
  | Ok s' => J s'
  | Raise e => E e
  end.
Proof.
  intros Hs HIJ. revert s Hs.
  induction xs as [|x xs IH]; intros s Hs Hbody; cbn [for_each].
  - now apply HIJ.
  - pose proof (Hbody x s (or_introl eq_refl) Hs) as H.
    destruct (body x s) as [[s1|s1]|e]; try assumption.
    apply IH; [assumption|]. intros y s2 Hy. apply Hbody. now right.
Qed.

(** A loop that appends one element a turn, or raises. *)
Lemma for_each_collect_exn {A B : Type} (Q : A -> B -> Prop) (E : exn -> Prop)
      (xs : list A) (body : A -> list B -> outcome (ctl (list B)))
      (acc : list B) :
  (forall x acc, In x xs ->
                 match body x acc with
                 | Ok (Next acc') => exists y, acc' = acc ++ [y] /\ Q x y
                 | Ok (Break _) => False
                 | Raise e => E e
                 end) ->
  match for_each xs body acc with
  | Ok acc' => exists ys, acc' = acc ++ ys /\ Forall2 Q xs ys
  | Raise e => E e
  end.
Proof.
  revert acc. induction xs as [|x xs IH]; intros acc H; cbn [for_each].
  - exists []. rewrite app_nil_r. split; [reflexivity|constructor].
  - pose proof (H x acc (or_introl eq_refl)) as Hx.
    destruct (body x acc) as [[acc1|acc1]|e]; [|contradiction|assumption].
    destruct Hx as (y & -> & Hy).
    specialize (IH (acc ++ [y])).
    destruct (for_each xs body (acc ++ [y])) as [acc2|e].
    + destruct IH as (ys & -> & Hys).
      * intros x' acc' Hx'. apply H. now right.
      * exists (y :: ys). rewrite <- app_assoc. split; [reflexivity|].
        now constructor.
    + apply IH. intros x' acc' Hx'. apply H. now right.
Qed.

Lemma ForallOrdPairs_snoc {A : Type} (R : A -> A -> Prop) (l : list A) (x : A) :
  ForallOrdPairs R l -> Forall (fun a => R a x) l -> ForallOrdPairs R (l ++ [x]).
Proof.
  induction 1 as [|a l Ha Hl IH]; intros Hx; cbn [app].
  - constructor; constructor.
  - inversion Hx; subst. constructor.
    + apply Forall_app. split; [assumption|]. constructor; [assumption|constructor].
    + now apply IH.
Qed.

Lemma getitem_raises {A : Type} (xs : list A) (i : Z) (e : exn) :
  getitem xs i = Raise e -> e = IndexError.
Proof.
  unfold getitem. cbv zeta.
  destruct (_ <? 0)%Z; [congruence|].
  destruct (nth_error xs _); congruence.
Qed.

Section CustomsGoodsFacts.
Context {L : PyLib}.
Variable uni_isupper : N -> bool.

(** *** The commodity codes *)

Lemma customs_code_after_ok lines lo i ps :
  (0 <= i)%Z -> (lo <= i)%Z ->
  Forall (customs_position_ok lines lo) ps -> ForallOrdPairs apart ps ->
  exists ps', customs_code_after lines i ps = Ok ps'
              /\ Forall (customs_position_ok lines lo) ps'
              /\ ForallOrdPairs apart ps'.
Proof.
  intros Hi Hlo Hps Hap. unfold customs_code_after.
  destruct (for_each_inv
              (fun ps' => Forall (customs_position_ok lines lo) ps'
                          /\ ForallOrdPairs apart ps')
              (range (i + 1) (Z.min (i + 5) (zlen lines)))
              (fun j commodity_positions =>
                 l <- getitem lines j ;;
                 let check_line := strip l in
                 match re_search code_word check_line with
                 | Some code_match =>
                   let commodity_code := group 1 code_match in
                   if negb (existsb (fun pos => (Z.abs (fst pos - j) <? 2)%Z
                                                && str_eqb (snd pos) commodity_code)
                                    commodity_positions)
                   then Ok (Break (commodity_positions ++ [(j, commodity_code)]))
                   else Ok (Next commodity_positions)
                 | None => Ok (Next commodity_positions)
                 end)
              ps) as (ps' & E & H); [split; assumption| |eauto].
  intros j ps1 Hj [H1 H2]. apply In_range in Hj.
  destruct (getitem_ok lines j) as (l & -> & Hl); [lia|]. cbn [bind]. cbv zeta.
  destruct (re_search code_word (strip l)) as [m|] eqn:Em;
    [|eexists; split; [reflexivity|split; assumption]].
  destruct (negb (existsb _ ps1)) eqn:Ex;
    [|eexists; split; [reflexivity|split; assumption]].
  eexists. split; [reflexivity|]. cbn [ctl_state]. split.
  - apply Forall_app. split; [assumption|]. constructor; [|constructor].
    split; cbn [fst snd]; [lia|]. exists l, m. auto.
  - apply ForallOrdPairs_snoc; [assumption|].
    apply negb_true_iff in Ex. apply Forall_forall. intros pos Hpos Hnear.
    cbn [fst snd] in *. intros Heq.
    assert (existsb (fun pos => (Z.abs (fst pos - j) <? 2)%Z
                                && str_eqb (snd pos) (group 1 m)) ps1 = true)
      as Hc; [|congruence].
    apply existsb_exists. exists pos. split; [assumption|].
    apply andb_true_iff. split; [apply Z.ltb_lt; assumption|].
    rewrite Heq. apply str_eqb_refl.
Qed.

Lemma customs_commodity_positions_ok lines dsi :
  exists ps, customs_commodity_positions lines dsi = Ok ps
             /\ Forall (customs_position_ok lines (Z.max dsi 30)) ps
             /\ ForallOrdPairs apart ps.
Proof.
  unfold customs_commodity_positions. cbv zeta.
  apply (for_each_inv
           (fun ps => Forall (customs_position_ok lines (Z.max dsi 30)) ps
                      /\ ForallOrdPairs apart ps)).
  - split; constructor.
  - intros i ps Hi [H1 H2]. apply In_range in Hi.
    destruct (getitem_ok lines i) as (l & -> & _); [lia|]. cbn [bind].
    match goal with
    | |- exists c, (x <- ?m1 ;; _) = _ /\ _ =>
      assert (exists combined, m1 = Ok combined) as (combined & ->)
    end.
    { destruct (Z.ltb_spec (i + 1) (zlen lines)); [|eauto].
      destruct (getitem_ok lines (i + 1)) as (l' & -> & _); [lia|]. cbn [bind].
      eauto. }
    cbn [bind].
    destruct (contains (u "33 Тарифн") combined
              || contains (u "33 Тарифна ознака") combined
              || (contains (u "Тарифна ознака") combined
                  && contains (u "32") combined));
      [|eexists; split; [reflexivity|split; assumption]].
    destruct (customs_code_after_ok lines (Z.max dsi 30) i ps)
      as (ps' & -> & H1' & H2'); try assumption; try lia.
    cbn [bind]. eexists. split; [reflexivity|split; assumption].
Qed.

(** *** One item *)

Lemma customs_item_description_ok lines ci item :
  (ci <= zlen lines)%Z ->
  exists item', customs_item_description uni_isupper lines ci item = Ok item'
                /\ exists d, item' = set_GooDesGDS23 d item.
Proof.
  intros Hci. unfold customs_item_description.
  apply (for_each_inv (fun it => exists d, it = set_GooDesGDS23 d item)).
  - exists (GooDesGDS23 item). now destruct item.
  - intros i it Hi (d & ->). apply In_range_down in Hi.
    destruct (getitem_ok lines i) as (l & -> & _); [lia|]. cbn [bind]. cbv zeta.
    repeat match goal with
           | |- context [if ?b then _ else _] => destruct b
           end;
      eexists; (split; [reflexivity|]); cbn [ctl_state];
      eexists; reflexivity.
Qed.

Lemma customs_item_mass_ok lines item_start item_end item :
  (0 <= item_start)%Z -> (item_end <= zlen lines)%Z ->
  exists item', customs_item_mass lines item_start item_end item = Ok item'
                /\ (item' = item \/ exists m, item' = set_GroMasGDS46 m item).
Proof.
  intros Hs He. unfold customs_item_mass.
  apply (for_each_inv (fun it => it = item \/ exists m, it = set_GroMasGDS46 m item)).
  - now left.
  - intros i it Hi Hinv. apply In_range in Hi.
    destruct (getitem_ok lines i) as (l & -> & _); [lia|]. cbn [bind].
    destruct (contains (u "35 Бруто маса") l);
      [|eexists; split; [reflexivity|assumption]].
    loop (fun it => it = item \/ exists m, it = set_GroMasGDS46 m item).
    + assumption.
    + intros j it2 Hj Hinv2. apply In_range in Hj.
      crunch; eexists; (split; [reflexivity|]); cbn [ctl_state]; try assumption.
      right. destruct Hinv2 as [->|(m0 & ->)]; eexists; reflexivity.
    + eexists. split; [reflexivity|assumption].
Qed.

Lemma customs_item_packaging_cases lines item_start ci item :
  (0 <= item_start)%Z ->
  match customs_item_packaging lines item_start ci item with
  | Ok item' => item' = item \/ exists p, item' = append_PACGS2 p item
  | Raise e => e = IndexError /\ (zlen lines < ci + 3)%Z
  end.
Proof.
  intros Hs. unfold customs_item_packaging.
  apply (for_each_inv_exn (fun it => it = item)
           (fun it => it = item \/ exists p, it = append_PACGS2 p item)).
  - reflexivity.
  - intros s ->. now left.
  - intros i it Hi ->. apply In_range in Hi.
    destruct (Z.ltb_spec i (zlen lines)) as [Hlt|Hge].
    + destruct (getitem_ok lines i) as (l & -> & _); [lia|]. cbn [bind]. cbv zeta.
      destruct (customs_line_package (strip l)) as [p|]; [right; eauto|reflexivity].
    + destruct (getitem lines i) as [l|e] eqn:Eg; cbn [bind].
      * exfalso. unfold getitem in Eg.
        destruct (Z.ltb_spec i 0); [lia|]. destruct (Z.ltb_spec i 0); [lia|].
        destruct (nth_error lines (Z.to_nat i)) eqn:En; [|discriminate].
        assert (Z.to_nat i < length lines)%nat
          by (apply nth_error_Some; congruence).
        unfold zlen in Hge. lia.
      * split; [now apply getitem_raises in Eg|lia].
Qed.

Lemma customs_parse_docs_keeps doc_text item :
  IteNumGDS7 (customs_parse_docs doc_text item) = IteNumGDS7 item
  /\ ComNomCMD1 (customs_parse_docs doc_text item) = ComNomCMD1 item
  /\ UNDanGooCodGDI1 (customs_parse_docs doc_text item) = UNDanGooCodGDI1 item
  /\ PACGS2 (customs_parse_docs doc_text item) = PACGS2 item.
Proof.
  unfold customs_parse_docs. cbv zeta.
  match goal with |- context [fold_left ?f ?l ?a] =>
    assert ((fun st : goods_item * list pystr =>
               IteNumGDS7 (fst st) = IteNumGDS7 item
               /\ ComNomCMD1 (fst st) = ComNomCMD1 item
               /\ UNDanGooCodGDI1 (fst st) = UNDanGooCodGDI1 item
               /\ PACGS2 (fst st) = PACGS2 item)
              (fold_left f l a)) as HJ;
    [apply fold_left_inv|exact HJ]
  end.
  - cbn [fst]. auto.
  - intros [it found_docs] m _ H. cbn [fst] in *.
    destruct (negb _ && _); cbn [fst]; assumption.
Qed.

Lemma customs_item_documents_keeps lines ci ie item item' :
  (0 <= ci)%Z -> (ie <= zlen lines)%Z ->
  customs_item_documents lines ci ie item = Ok item' ->
  IteNumGDS7 item' = IteNumGDS7 item
  /\ ComNomCMD1 item' = ComNomCMD1 item
  /\ UNDanGooCodGDI1 item' = UNDanGooCodGDI1 item
  /\ PACGS2 item' = PACGS2 item.
Proof.
  intros Hc He E. unfold customs_item_documents in E.
  match type of E with for_each ?xs ?body ?s = _ =>
    destruct (for_each_inv_break (fun it => it = item)
                (fun it => IteNumGDS7 it = IteNumGDS7 item
                           /\ ComNomCMD1 it = ComNomCMD1 item
                           /\ UNDanGooCodGDI1 it = UNDanGooCodGDI1 item
                           /\ PACGS2 it = PACGS2 item)
                xs body s) as (it & E' & H)
  end.
  - reflexivity.
  - intros s ->. auto.
  - intros i it Hi ->. apply In_range in Hi.
    destruct (getitem_ok lines i) as (l & -> & _); [lia|]. cbn [bind]. cbv zeta.
    destruct (contains (u "44 Дополнителни") (strip l)).
    + destruct (customs_doc_text_ok lines i) as (t & ->); [lia|]. cbn [bind].
      destruct (truthy t).
      * eexists. split; [reflexivity|]. apply customs_parse_docs_keeps.
      * eexists. split; [reflexivity|]. cbv beta iota. auto.
    + eexists. split; [reflexivity|]. reflexivity.
  - rewrite E' in E. inversion E. subst. exact H.
Qed.

(** One turn of the loop over the codes: an item for the code, or the
    [IndexError] of the packaging loop. *)
Lemma customs_extract_item_cases lines ps n ci code :
  (0 <= n)%Z -> (0 <= ci <= zlen lines)%Z ->
  match customs_extract_item uni_isupper lines ps n ci code with
  | Ok it => customs_item_ok n code it
  | Raise e => e = IndexError /\ (zlen lines < ci + 3)%Z
  end.
Proof.
  intros Hn Hci. unfold customs_extract_item. cbv zeta.
  match goal with
  | |- match (x <- ?m1 ;; _) with _ => _ end =>
    assert (exists nx, m1 = Ok nx) as (nx & ->)
  end.
  { destruct (Z.ltb_spec n (zlen ps)); [|eauto].
    destruct (getitem_ok ps n) as (p & -> & _); [lia|]. cbn [bind]. eauto. }
  cbn [bind].
  match goal with |- context [customs_item_description _ _ _ ?it0] =>
    destruct (customs_item_description_ok lines ci it0) as (it1 & -> & d & ->);
      [lia|]
  end.
  cbn [bind].
  match goal with |- context [customs_item_mass _ ?a ?b ?it0] =>
    destruct (customs_item_mass_ok lines a b it0) as (it2 & -> & Hm); [lia|lia|]
  end.
  cbn [bind].
  match goal with |- context [customs_item_packaging _ ?a _ _] =>
    pose proof (customs_item_packaging_cases lines a ci it2) as Hp
  end.
  destruct (customs_item_packaging lines _ ci it2) as [it3|e]; cbn [bind];
    [|apply Hp; lia].
  specialize (Hp ltac:(lia)).
  assert (IteNumGDS7 it3 = str_of_Z n /\ ComNomCMD1 it3 = code
          /\ UNDanGooCodGDI1 it3 = None /\ (length (PACGS2 it3) <= 1)%nat
          /\ PRODOCDC2 it3 = []) as (F1 & F2 & F3 & F4 & F5).
  { destruct Hm as [->|(m & ->)], Hp as [->|(p & ->)]; cbn;
      repeat split; auto; lia. }
  match goal with |- context [customs_item_documents _ _ ?ie _] =>
    destruct (customs_item_documents_ok lines ci ie it3) as (it4 & E4 & Hd);
      [lia|lia|assumption|];
    destruct (customs_item_documents_keeps lines ci ie it3 it4)
      as (K1 & K2 & K3 & K4); [lia|lia|assumption|]
  end.
  rewrite E4. unfold customs_item_ok. rewrite K1, K2, K3, K4. auto.
Qed.

(** *** The list of items *)

Lemma In_enumerate_from {A : Type} (start : Z) (xs : list A) (n : Z) (x : A) :
  In (n, x) (enumerate_from start xs) -> (start <= n)%Z /\ In x xs.
Proof.
  intros H. split.
  - apply in_combine_l in H. apply In_range in H. lia.
  - now apply in_combine_r in H.
Qed.

Lemma customs_gooitegds_items_cases lines dsi goods :
  exists ps,
    customs_commodity_positions lines dsi = Ok ps
    /\ Forall (customs_position_ok lines (Z.max dsi 30)) ps
    /\ ForallOrdPairs apart ps
    /\ match customs_gooitegds_items uni_isupper lines dsi goods with
       | Ok goods' =>
         exists items,
           goods' = goods ++ items
           /\ (ps = [] -> items = [_create_empty_item])
           /\ (ps <> [] ->
               Forall2 (fun np it => customs_item_ok (fst np) (snd (snd np)) it)
                       (enumerate_from 1 ps) items)
       | Raise e =>
         e = IndexError
         /\ exists p, In p ps /\ (zlen lines < fst p + 3)%Z
       end.
Proof.
  destruct (customs_commodity_positions_ok lines dsi) as (ps & E & Hps & Hap).
  exists ps. split; [exact E|]. split; [exact Hps|]. split; [exact Hap|].
  unfold customs_gooitegds_items. rewrite E. cbn [bind].
  destruct ps as [|p0 ps'] eqn:Eps.
  - exists [_create_empty_item]. split; [reflexivity|]. split; [reflexivity|].
    intros H. now contradiction H.
  - rewrite <- Eps in *.
    match goal with |- match for_each ?xs ?body goods with _ => _ end =>
      pose proof (for_each_collect_exn
                    (fun (np : Z * (Z * pystr)) it =>
                       customs_item_ok (fst np) (snd (snd np)) it)
                    (fun e => e = IndexError
                              /\ exists p, In p ps /\ (zlen lines < fst p + 3)%Z)
                    xs body goods) as H
    end.
    match type of H with ?P -> _ => assert P as HP end.
    { intros [n [ci code]] acc Hin.
      apply In_enumerate_from in Hin as [Hn Hin].
      rewrite Forall_forall in Hps. pose proof (Hps _ Hin) as [Hb _].
      cbn [fst] in Hb.
      pose proof (customs_extract_item_cases lines ps n ci code) as Hc.
      destruct (customs_extract_item uni_isupper lines ps n ci code) as [it|e];
        cbn [bind].
      - exists it. split; [reflexivity|]. cbn [fst snd]. apply Hc; lia.
      - destruct Hc as [-> Hlen]; [lia|lia|]. split; [reflexivity|].
        exists (ci, code). split; [assumption|exact Hlen]. }
    specialize (H HP).
    destruct (for_each _ _ goods) as [goods'|e]; [|exact H].
    destruct H as (items & -> & HQ). exists items.
    split; [reflexivity|]. split; [rewrite Eps; discriminate|]. intros _. exact HQ.
Qed.

End CustomsGoodsFacts.

Section CustomsRunFacts.
Context {L : PyLib}.
Variable uni_isupper : N -> bool.
Variable str_upper : pystr -> pystr.

Lemma customs_find_data_section_nonneg lines :
  (0 <= customs_find_data_section lines)%Z.
Proof.
  unfold customs_find_data_section.
  destruct (find _ (enumerate lines)) as [[i l]|] eqn:E; [|lia].
  apply find_some in E as [E _]. apply In_enumerate_nonneg in E as [E _].
  destruct (matches declaration_line (strip l)); lia.
Qed.

Lemma customs_traconce1_fields_ok (lines : list pystr) (c : dict) :
  exists c', customs_traconce1_fields str_upper lines c = Ok c'
             /\ (c' = c \/ dict_get (u "TINCE159") c' = Some VNone).
Proof.
  destruct (customs_receiver_start_cases lines) as (Hs & _ & _).
  unfold customs_traconce1_fields. cbv zeta.
  destruct (Z.eqb_spec (customs_receiver_start lines) 0) as [E|E]; [eauto|].
  loop (fun _ : dict => True).
  - exact I.
  - intros i c1 Hi _. apply In_range in Hi.
    destruct (getitem_ok lines i) as (l & -> & _); [lia|]. cbn [bind]. cbv zeta.
    destruct (truthy (strip l) && (3 <? length (strip l))%nat
              && negb (matches digits_only (strip l)));
      [|eexists; split; [reflexivity|exact I]].
    destruct (negb (contains (u "9 Финансово") (strip l))
              && negb (str_eqb (u "Не") (strip l))
              && negb (contains (u "МИКЛОШИЧЕВА") (strip l)));
      [|eexists; split; [reflexivity|exact I]].
    match goal with |- context [customs_receiver_address str_upper lines i ?c0] =>
      destruct (customs_receiver_address_ok str_upper lines i c0) as (c2 & ->);
        [lia|]
    end.
    cbn [bind]. eexists. split; [reflexivity|exact I].
  - cbn [bind]. eexists. split; [reflexivity|]. right. apply dict_get_set_same.
Qed.

(** The run of the customs engine, part by part. *)
Lemma customs_extract_all_cases (text_lines : list pystr) :
  exists h t c ps,
    customs_heahea_fields text_lines (customs_find_data_section text_lines) []
    = Ok h
    /\ customs_header_ok h
    /\ customs_traexpex1_fields text_lines [] = Ok t
    /\ dict_has (u "PosCodEX123") t = true
    /\ customs_traconce1_fields str_upper text_lines [] = Ok c
    /\ (c = [] \/ dict_get (u "TINCE159") c = Some VNone)
    /\ customs_commodity_positions text_lines
         (customs_find_data_section text_lines) = Ok ps
    /\ match customs_extract_all uni_isupper str_upper text_lines with
       | Ok v =>
         exists g,
           v = declaration h t c g
           /\ customs_gooitegds_items uni_isupper text_lines
                (customs_find_data_section text_lines) [] = Ok g
           /\ g <> []
       | Raise e =>
         e = IndexError
         /\ exists p, In p ps /\ (zlen text_lines < fst p + 3)%Z
       end.
Proof.
  pose proof (customs_find_data_section_nonneg text_lines) as Hd.
  destruct (customs_heahea_fields_ok text_lines
              (customs_find_data_section text_lines) [] Hd) as (h & Eh & Hh).
  { repeat split; intros v Hv; discriminate. }
  destruct (customs_traexpex1_fields_ok text_lines) as (t & Et & Ht).
  destruct (customs_traconce1_fields_ok text_lines []) as (c & Ec & Hc).
  destruct (customs_gooitegds_items_cases uni_isupper text_lines
              (customs_find_data_section text_lines) [])
    as (ps & Ep & Hps & _ & Hg).
  exists h, t, c, ps.
  split; [exact Eh|]. split; [exact Hh|]. split; [exact Et|].
  split; [unfold dict_has; destruct Ht as [->|(s & ->)]; reflexivity|].
  split; [exact Ec|]. split; [exact Hc|]. split; [exact Ep|].
  unfold customs_extract_all. cbv zeta.
  cbn [lines data_start_index HEAHEA TRAEXPEX1 TRACONCE1 SEAINFSLI GOOITEGDS init].
  rewrite Eh. cbn [bind]. rewrite Et. cbn [bind]. rewrite Ec. cbn [bind].
  destruct (customs_gooitegds_items uni_isupper text_lines _ []) as [g|e];
    cbn [bind]; [|exact Hg].
  exists g. split; [reflexivity|]. split; [reflexivity|].
  destruct Hg as (items & -> & H0 & H1). cbn [app].
  destruct ps as [|p ps'].
  - rewrite H0 by reflexivity. discriminate.
  - specialize (H1 ltac:(discriminate)). inversion H1; subst.
    + rewrite enumerate_from_cons in *. discriminate.
    + discriminate.
Qed.

(** X22.  The search for commodity codes of the customs engine never
    raises.  Every code it records stands on a line of the text after line
    [max(offset, 30)] and is the first word of eight digits of that line,
    stripped; and two recorded codes are different or at least two lines
    apart. *)
Theorem customs_commodity_codes (lines : list pystr) (dsi : Z) :
  exists ps, customs_commodity_positions lines dsi = Ok ps
             /\ Forall (customs_position_ok lines (Z.max dsi 30)) ps
             /\ ForallOrdPairs apart ps.
Proof. apply customs_commodity_positions_ok. Qed.

(** X23.  When the goods extractor of the customs engine returns, the
    items answer the recorded commodity codes one to one and in order: the
    item of the [k]-th code has the number [k], counted from 1, and that
    code, a null dangerous-goods code, at most one packaging entry, and
    reference documents of known types with no (type, reference) pair
    twice.  Without a recorded code the one item is the empty item. *)
Theorem customs_items_numbered (lines : list pystr) (dsi : Z)
        (items : list goods_item) :
  customs_gooitegds_items uni_isupper lines dsi [] = Ok items ->
  exists ps,
    customs_commodity_positions lines dsi = Ok ps
    /\ (ps = [] -> items = [_create_empty_item])
    /\ (ps <> [] ->
        Forall2 (fun np it => customs_item_ok (fst np) (snd (snd np)) it)
                (enumerate_from 1 ps) items).
Proof.
  intros E.
  destruct (customs_gooitegds_items_cases uni_isupper lines dsi [])
    as (ps & Ep & _ & _ & Hg).
  rewrite E in Hg. destruct Hg as (items' & -> & H0 & H1). cbn [app].
  exists ps. auto.
Qed.

(** X24.  The only exception of a run of the customs engine is
    [IndexError], and it comes from the packaging loop: when the run
    raises, a recorded commodity code stands within the last two lines of
    the text. *)
Theorem customs_run_raises_index_only (text_lines : list pystr) (e : exn) :
  customs_extract_all uni_isupper str_upper text_lines = Raise e ->
  e = IndexError
  /\ exists ps p,
      customs_commodity_positions text_lines
        (customs_find_data_section text_lines) = Ok ps
      /\ In p ps /\ (zlen text_lines < fst p + 3)%Z.
Proof.
  intros E.
  destruct (customs_extract_all_cases text_lines)
    as (h & t & c & ps & _ & _ & _ & _ & _ & _ & Ep & H).
  rewrite E in H. destruct H as (-> & p & Hp & Hlen).
  split; [reflexivity|]. exists ps, p. auto.
Qed.

(** X25.  When a run of the customs engine returns, the record is the
    five sections assembled from what the four extractors return; the
    sender has a key for the postal code, the receiver is empty or has a
    null tax number, and there is at least one goods item. *)
Theorem customs_run_record (text_lines : list pystr) (v : value) :
  customs_extract_all uni_isupper str_upper text_lines = Ok v ->
  exists h t c g,
    v = declaration h t c g
    /\ customs_heahea_fields text_lines (customs_find_data_section text_lines) []
       = Ok h
    /\ customs_traexpex1_fields text_lines [] = Ok t
    /\ customs_traconce1_fields str_upper text_lines [] = Ok c
    /\ customs_gooitegds_items uni_isupper text_lines
         (customs_find_data_section text_lines) [] = Ok g
    /\ dict_has (u "PosCodEX123") t = true
    /\ (c = [] \/ dict_get (u "TINCE159") c = Some VNone)
    /\ g <> [].
Proof.
  intros E.
  destruct (customs_extract_all_cases text_lines)
    as (h & t & c & ps & Eh & _ & Et & Ht & Ec & Hc & _ & H).
  rewrite E in H. destruct H as (g & -> & Eg & Hg).
  exists h, t, c, g. repeat split; assumption.
Qed.

End CustomsRunFacts.

(** * Instances and counterexamples *)

#[local] Existing Instance sample_lib.

(** [run] settles an equation between closed terms by evaluation. *)
Ltac run :=
  lazymatch goal with
  | |- ?l = ?r => vm_cast_no_check (@eq_refl _ r)
  end.

(** C1 as stated fails: two commodity codes stand after the section
    offset (line 0) and before line 100, and the segmenter returns the
    placeholder item alone. *)
Lemma codes_before_line_100_not_counted :
  let lines := [u "EXMK"; u "12345678"; u "87654321"] in
  find_data_section (L := sample_lib) lines = 0%Z
  /\ length (commodity_lines (L := sample_lib) lines 0) = 2
  /\ gooitegds_items (L := sample_lib) lines 0 [] = Ok [_create_empty_item].
Proof. cbv zeta. split; [run|split; run]. Qed.



(** C4 as stated fails: the record extracted from [nan_lines] holds the
    float NaN as the gross mass of its item, and the comparator run with
    this record on both sides reports a difference. *)
Lemma compare_with_itself_nan :
  exists d r,
    extract_all (L := sample_lib) nan_lines = Ok d
    /\ compare_with_expected d d = Ok r
    /\ length (differences r) = 1
    /\ is_correct r = false.
Proof.
  exists nan_record,
    (returned (Report [] []) (compare_with_expected nan_record nan_record)).
  split; [run|]. split; [run|]. split; run.
Qed.

Lemma compare_with_itself_sample :
  well_formed sample_record = true /\ nan_free sample_record = true
  /\ exists r, compare_with_expected sample_record sample_record = Ok r
               /\ differences r = []
               /\ length (matches_ r) = leaves sample_record
               /\ is_correct r = true.
Proof.
  assert (well_formed sample_record = true) as H1 by run.
  assert (nan_free sample_record = true) as H2 by run.
  split; [exact H1|]. split; [exact H2|].
  exact (compare_with_itself sample_record H1 H2).
Defined.

Lemma reference_documents_distinct_sample :
  (0 <= 0)%Z /\ (6 <= zlen customs_lines)%Z
  /\ PRODOCDC2 (L := sample_lib) _create_empty_item = []
  /\ (exists items, gooitegds_items (L := sample_lib) sample_lines 0 [] = Ok items
                     /\ Forall (docs_ok doc_types) items)
  /\ exists item',
      customs_item_documents (L := sample_lib) customs_lines 0 6
                             _create_empty_item = Ok item'
      /\ docs_ok customs_doc_types item'.
Proof.
  assert (0 <= 0)%Z as H1 by lia.
  assert (6 <= zlen customs_lines)%Z as H2 by (vm_compute; discriminate).
  assert (PRODOCDC2 (L := sample_lib) _create_empty_item = []) as H3
      by reflexivity.
  destruct (reference_documents_distinct (L := sample_lib) sample_lines 0 0 6
              _create_empty_item) as [Hg _].
  destruct (reference_documents_distinct (L := sample_lib) customs_lines 0 0 6
              _create_empty_item) as [_ Hc].
  split; [exact H1|]. split; [exact H2|]. split; [exact H3|].
  split; [exact Hg|]. exact (Hc H1 H2 H3).
Defined.

(** C6: the failing input.  The superscript two passes [isdigit] and is
    not a decimal digit. *)
Lemma mass_conversion_raises_sample :
  mass_line (L := sample_lib) [u "²"; u "KGM"] = Some (u "²")
  /\ isdigit (L := sample_lib) (u "²") = true
  /\ py_int (L := sample_lib) (u "²") = None
  /\ extract_all (L := sample_lib) [u "²"; u "KGM"] = Raise ValueError.
Proof.
  assert (mass_line (L := sample_lib) [u "²"; u "KGM"] = Some (u "²")) as H1
      by run.
  assert (isdigit (L := sample_lib) (u "²") = true) as H2 by run.
  assert (py_int (L := sample_lib) (u "²") = None) as H3 by run.
  split; [exact H1|]. split; [exact H2|]. split; [exact H3|].
  exact (mass_conversion_raises [u "²"; u "KGM"] (u "²") H1 H2 H3).
Defined.


Lemma classifier_monotone_sample :
  one_more (customs_checks (L := sample_lib) (u "Consignor/Exporter"))
           (customs_checks (L := sample_lib) (u "Consignor/Exporter РБД"))
  /\ standard_checks (L := sample_lib) (u "Consignor/Exporter РБД")
     = standard_checks (L := sample_lib) (u "Consignor/Exporter")
  /\ customs_indicators (L := sample_lib) (u "Consignor/Exporter")
     <= customs_indicators (L := sample_lib) (u "Consignor/Exporter РБД")
  /\ customs_lean (detect_format (L := sample_lib) (u "Consignor/Exporter"))
     <= customs_lean
          (detect_format (L := sample_lib) (u "Consignor/Exporter РБД")).
Proof.
  assert (one_more (customs_checks (L := sample_lib) (u "Consignor/Exporter"))
                   (customs_checks (L := sample_lib)
                                   (u "Consignor/Exporter РБД"))) as H1.
  { exists [true], [false; false]. split; run. }
  assert (standard_checks (L := sample_lib) (u "Consignor/Exporter РБД")
          = standard_checks (L := sample_lib) (u "Consignor/Exporter")) as H2
      by run.
  split; [exact H1|]. split; [exact H2|].
  exact (proj1 (classifier_monotone (L := sample_lib)
                  (u "Consignor/Exporter") (u "Consignor/Exporter РБД"))
               H1 H2).
Defined.







(** ** Instances of the further properties *)

Lemma correct_iff_agrees_sample :
  let data := VDict [(u "a", VInt 1); (u "b", VNone)] in
  let expected := VDict [(u "a", VInt 2)] in
  let r := Report [Differs (u "a") (VInt 1) (VInt 2)] [] in
  compare_with_expected (L := sample_lib) data expected = Ok r
  /\ is_correct r = agrees data expected.
Proof.
  cbv zeta.
  assert (compare_with_expected (L := sample_lib)
            (VDict [(u "a", VInt 1); (u "b", VNone)]) (VDict [(u "a", VInt 2)])
          = Ok (Report [Differs (u "a") (VInt 1) (VInt 2)] [])) as H by run.
  split; [exact H|]. exact (correct_iff_agrees _ _ _ H).
Defined.

Lemma extra_keys_ignored_sample :
  let d := [(u "a", VInt 1)] in
  let ed := [(u "a", VInt 1)] in
  str_in (u "x") (map fst ed) = false
  /\ compare_dict (L := sample_lib) [] (VDict (dict_set (u "x") VNone d))
                  (VDict ed) (Report [] [])
     = compare_dict [] (VDict d) (VDict ed) (Report [] []).
Proof.
  cbv zeta.
  assert (str_in (u "x") (map fst [(u "a", VInt (L := sample_lib) 1)]) = false)
    as H by run.
  split; [exact H|].
  exact (extra_keys_ignored (u "x") VNone [(u "a", VInt 1)] [(u "a", VInt 1)]
                            [] (Report [] []) H).
Defined.

Lemma missing_keys_reported_sample :
  let ed := [(u "a", VInt (L := sample_lib) 1); (u "b", VNone)] in
  (forall k, In k (map fst ed) -> dict_get k ([] : dict) = None)
  /\ compare_dict [] (VDict []) (VDict ed) (Report [] [])
     = Ok (Report ([] ++ map (fun kv => Missing (key_path [] (fst kv))) ed) []).
Proof.
  cbv zeta.
  assert (forall k,
             In k (map fst [(u "a", VInt (L := sample_lib) 1); (u "b", VNone)]) ->
             dict_get k ([] : dict) = None) as H by (intros k _; reflexivity).
  split; [exact H|].
  exact (missing_keys_reported [] _ [] (Report [] []) H).
Defined.

Lemma scalar_against_structure_raises_sample :
  is_scalar (VNone (L := sample_lib)) = true
  /\ (forall k ev ed path r,
         compare_dict path VNone (VDict ((k, ev) :: ed)) r = Raise TypeError)
  /\ (forall el path r, compare_dict path VNone (VList el) r = Raise TypeError).
Proof.
  split; [reflexivity|].
  exact (scalar_against_structure_raises (L := sample_lib) VNone eq_refl).
Defined.

Lemma find_data_section_first_sample :
  let lines := [u "LRN: 24MK1"; u "x"; u "EXMK"] in
  first_at (has_declaration_code (L := sample_lib)) lines 2
  /\ find_data_section (L := sample_lib) lines = 2%Z.
Proof.
  cbv zeta.
  assert (first_at (has_declaration_code (L := sample_lib))
                   [u "LRN: 24MK1"; u "x"; u "EXMK"] 2) as H.
  { split.
    - exists (u "EXMK"). split; [reflexivity|run].
    - intros [|[|j]] l Hj Hl; [| |lia]; cbn [nth_error] in Hl;
        injection Hl as <-; run. }
  split; [exact H|].
  exact (proj1 (find_data_section_first (L := sample_lib)
                  [u "LRN: 24MK1"; u "x"; u "EXMK"]) 2%nat H).
Defined.


Lemma find_next_forward_first_sample :
  let lines := [u ""; u "а"; u " x "] in
  (0 <= 0)%Z
  /\ exists i line,
      find_next_nonempty_line (L := sample_lib) lines 0 3 false = Ok (i, line)
      /\ ((i = (-1)%Z /\ line = []
           /\ forall j, (0 <= j < Z.min (zlen lines) (0 + 3))%Z ->
                        significant (get_line_safe lines j) = false)
          \/ ((0 <= i < Z.min (zlen lines) (0 + 3))%Z
              /\ line = get_line_safe lines i
              /\ significant line = true
              /\ forall j, (0 <= j < i)%Z ->
                           significant (get_line_safe lines j) = false)).
Proof.
  cbv zeta. assert (0 <= 0)%Z as H by lia.
  split; [exact H|].
  exact (find_next_forward_first (L := sample_lib) [u ""; u "а"; u " x "] 0 3 H).
Defined.

Lemma find_next_backward_bounds_sample :
  let lines := [u "7"; u "PX"] in
  (zlen lines <= 2)%Z /\ (1 <= 2)%Z /\ (1 <= 1)%Z
  /\ find_next_nonempty_line (L := sample_lib) lines 2 1 true = Raise IndexError.
Proof.
  cbv zeta.
  assert (zlen [u "7"; u "PX"] <= 2)%Z as H1 by (vm_compute; discriminate).
  assert (1 <= 2)%Z as H2 by lia. assert (1 <= 1)%Z as H3 by lia.
  split; [exact H1|]. split; [exact H2|]. split; [exact H3|].
  exact (proj2 (find_next_backward_bounds (L := sample_lib) [u "7"; u "PX"] 2 1)
               H1 H2 H3).
Defined.

Lemma sender_country_from_tin_sample :
  let lines := [u "MK4030000000000"; u "Firma"] in
  (0 <= 0)%Z
  /\ exists t,
      traexpex1_fields (L := sample_lib) lines 0 [] = Ok t
      /\ ((dict_get (u "TINEX159") t = None /\ dict_get (u "CouEX125") t = None)
          \/ exists i m,
              (0 <= i < 0 + 20)%Z /\ (i < zlen lines)%Z
              /\ re_match tin_pattern (get_line_safe lines i) = Some m
              /\ dict_get (u "TINEX159") t = Some (VStr (group 1 m))
              /\ dict_get (u "CouEX125") t
                 = Some (VStr (if str_eqb (firstn 2 (group 1 m)) (u "MK")
                               then u "МК" else firstn 2 (group 1 m)))).
Proof.
  cbv zeta. assert (0 <= 0)%Z as H by lia. split; [exact H|].
  exact (sender_country_from_tin (L := sample_lib)
           [u "MK4030000000000"; u "Firma"] 0 H).
Defined.

Lemma receiver_country_is_foreign_sample :
  let lines := [u ""; u ""; u ""; u ""; u "FR"; u "123456"] in
  (0 <= 0)%Z
  /\ exists c,
      traconce1_fields (L := sample_lib) lines 0 [] = Ok c
      /\ (dict_get (u "CouCE125") c = None
          \/ exists s, dict_get (u "CouCE125") c = Some (VStr s)
                       /\ matches two_letters s = true
                       /\ str_in s [u "MK"; u "МК"] = false).
Proof.
  cbv zeta. assert (0 <= 0)%Z as H by lia. split; [exact H|].
  exact (receiver_country_is_foreign (L := sample_lib)
           [u ""; u ""; u ""; u ""; u "FR"; u "123456"] 0 H).
Defined.

Lemma header_codes_domain_sample :
  let lines := [u "0"; u "CPT"] in
  let h := [(u "ConIndHEA96", VStr (L := sample_lib) (u "0"))] in
  (0 <= 0)%Z
  /\ heahea_fields (L := sample_lib) lines 0 [] = Ok h
  /\ (forall v, dict_get (u "NatOfMeaOfTraCroHEA87") h = Some v ->
                exists s, v = VStr s /\ matches two_letters s = true)
  /\ (forall v, dict_get (u "TraModAtBorHEA76") h = Some v ->
                exists s, v = VStr s /\ str_in s mode_digits = true)
  /\ (forall v, dict_get (u "CouOfDisCodHEA55") h = Some v ->
                exists s, v = VStr s /\ matches two_letters s = true)
  /\ (forall v, dict_get (u "CouOfDesCodHEA30") h = Some v ->
                exists s, v = VStr s /\ matches two_letters s = true
                          /\ str_eqb s (u "MK") = false)
  /\ (forall v, dict_get (u "ConIndHEA96") h = Some v ->
                exists s, v = VStr s /\ str_in s [u "0"; u "1"] = true).
Proof.
  cbv zeta. assert (0 <= 0)%Z as H by lia.
  assert (heahea_fields (L := sample_lib) [u "0"; u "CPT"] 0 []
          = Ok [(u "ConIndHEA96", VStr (u "0"))]) as E by run.
  split; [exact H|]. split; [exact E|].
  exact (header_codes_domain (L := sample_lib) [u "0"; u "CPT"] 0 _ H E).
Defined.

Lemma customs_find_data_section_first_sample :
  let lines := [u "РБД"; u "2 Consignor/Exporter"] in
  first_at (has_customs_marker (L := sample_lib)) lines 1
  /\ nth_error lines 1 = Some (u "2 Consignor/Exporter")
  /\ customs_find_data_section (L := sample_lib) lines
     = if matches declaration_line (strip (u "2 Consignor/Exporter"))
       then Z.max 0 (Z.of_nat 1 - 5) else Z.of_nat 1.
Proof.
  cbv zeta.
  assert (first_at (has_customs_marker (L := sample_lib))
                   [u "РБД"; u "2 Consignor/Exporter"] 1) as H.
  { split.
    - exists (u "2 Consignor/Exporter"). split; [reflexivity|run].
    - intros [|j] l Hj Hl; [|lia]; cbn [nth_error] in Hl;
        injection Hl as <-; run. }
  split; [exact H|]. split; [reflexivity|].
  exact (proj1 (customs_find_data_section_first (L := sample_lib)
                  [u "РБД"; u "2 Consignor/Exporter"])
               1%nat (u "2 Consignor/Exporter") H eq_refl).
Defined.

Lemma customs_packaging_bounds_sample :
  let lines := [u "33 Тарифна ознака"; u "12345678"] in
  (0 <= 0)%Z /\ (0 < 1 + 3)%Z /\ (zlen lines < 1 + 3)%Z
  /\ (forall i, (0 <= i < zlen lines)%Z ->
                customs_line_package (L := sample_lib) (get_line_safe lines i)
                = None)
  /\ customs_item_packaging (L := sample_lib) lines 0 1 _create_empty_item
     = Raise IndexError.
Proof.
  cbv zeta.
  assert (0 <= 0)%Z as H0 by lia. assert (0 < 1 + 3)%Z as H1 by lia.
  assert (zlen [u "33 Тарифна ознака"; u "12345678"] < 1 + 3)%Z as H2
      by (vm_compute; reflexivity).
  assert (forall i, (0 <= i < zlen [u "33 Тарифна ознака"; u "12345678"])%Z ->
                    customs_line_package (L := sample_lib)
                      (get_line_safe [u "33 Тарифна ознака"; u "12345678"] i)
                    = None) as H3.
  { intros i Hi.
    assert (i = 0%Z \/ i = 1%Z) as [->| ->]
        by (change (zlen [u "33 Тарифна ознака"; u "12345678"]) with 2%Z in Hi; lia);
      run. }
  split; [exact H0|]. split; [exact H1|]. split; [exact H2|]. split; [exact H3|].
  exact (proj2 (customs_packaging_bounds (L := sample_lib)
                  [u "33 Тарифна ознака"; u "12345678"] 0 1 _create_empty_item H0)
               H1 H2 H3).
Defined.

Lemma customs_receiver_tin_sample :
  let lines := [u "2 Consignor/Exporter"; u "8 Примач"; u "DOMEL d.o.o."] in
  first_at (contains (u "8 Примач")) lines 1
  /\ exists c',
      customs_traconce1_fields (L := sample_lib) sample_upper lines [] = Ok c'
      /\ dict_get (u "TINCE159") c' = Some VNone.
Proof.
  cbv zeta.
  assert (first_at (contains (u "8 Примач"))
                   [u "2 Consignor/Exporter"; u "8 Примач"; u "DOMEL d.o.o."] 1)
    as H.
  { split.
    - exists (u "8 Примач"). split; [reflexivity|run].
    - intros [|j] l Hj Hl; [|lia]; cbn [nth_error] in Hl;
        injection Hl as <-; run. }
  split; [exact H|].
  exact (proj2 (proj2 (customs_receiver_tin (L := sample_lib) sample_upper
                         [u "2 Consignor/Exporter"; u "8 Примач"; u "DOMEL d.o.o."]
                         [])) 0%nat H).
Defined.

Lemma customs_header_domain_sample :
  (0 <= 0)%Z
  /\ exists h,
      customs_heahea_fields (L := sample_lib) customs_item_lines 0 [] = Ok h
      /\ (forall v, dict_get (u "TotGroMasHEA307") h = Some v ->
                    exists f, v = VFloat f)
      /\ (forall v, dict_get (u "TraModAtBorHEA76") h = Some v ->
                    exists s, v = VStr s /\ str_in s mode_digits = true)
      /\ (forall v, dict_get (u "CouOfDisCodHEA55") h = Some v ->
                    v = VStr (u "MK"))
      /\ (forall v, dict_get (u "CouOfDesCodHEA30") h = Some v ->
                    exists s, v = VStr s /\ str_eqb s (u "MK") = false)
      /\ (forall v, dict_get (u "ConIndHEA96") h = Some v ->
                    exists s, v = VStr s /\ str_in s [u "0"; u "1"] = true).
Proof.
  assert (0 <= 0)%Z as H by lia.
  split; [exact H|].
  exact (@customs_header_domain sample_lib customs_item_lines 0 H).
Defined.

Lemma customs_items_numbered_sample :
  customs_gooitegds_items (L := sample_lib) sample_isupper customs_item_lines 0 []
  = Ok [customs_item_sample]
  /\ exists ps,
      customs_commodity_positions (L := sample_lib) customs_item_lines 0 = Ok ps
      /\ (ps = [] -> [customs_item_sample] = [_create_empty_item])
      /\ (ps <> [] ->
          Forall2 (fun np it => customs_item_ok (fst np) (snd (snd np)) it)
                  (enumerate_from 1 ps) [customs_item_sample]).
Proof.
  assert (customs_gooitegds_items (L := sample_lib) sample_isupper
            customs_item_lines 0 [] = Ok [customs_item_sample]) as H by run.
  split; [exact H|].
  exact (@customs_items_numbered sample_lib sample_isupper customs_item_lines
           0 [customs_item_sample] H).
Defined.

Lemma customs_run_raises_index_only_sample :
  customs_extract_all (L := sample_lib) sample_isupper sample_upper
    customs_short_lines = Raise IndexError
  /\ IndexError = IndexError
  /\ exists ps p,
      customs_commodity_positions (L := sample_lib) customs_short_lines
        (customs_find_data_section customs_short_lines) = Ok ps
      /\ In p ps /\ (zlen customs_short_lines < fst p + 3)%Z.
Proof.
  assert (customs_extract_all (L := sample_lib) sample_isupper sample_upper
            customs_short_lines = Raise IndexError) as H by run.
  split; [exact H|].
  exact (@customs_run_raises_index_only sample_lib sample_isupper sample_upper
           customs_short_lines IndexError H).
Defined.

Lemma customs_run_record_sample :
  customs_extract_all (L := sample_lib) sample_isupper sample_upper
    customs_item_lines = Ok customs_item_record
  /\ exists h t c g,
      customs_item_record = declaration h t c g
      /\ customs_heahea_fields customs_item_lines
           (customs_find_data_section customs_item_lines) [] = Ok h
      /\ customs_traexpex1_fields customs_item_lines [] = Ok t
      /\ customs_traconce1_fields sample_upper customs_item_lines [] = Ok c
      /\ customs_gooitegds_items sample_isupper customs_item_lines
           (customs_find_data_section customs_item_lines) [] = Ok g
      /\ dict_has (u "PosCodEX123") t = true
      /\ (c = [] \/ dict_get (u "TINCE159") c = Some VNone)
      /\ g <> [].
Proof.
  assert (customs_extract_all (L := sample_lib) sample_isupper sample_upper
            customs_item_lines = Ok customs_item_record) as H by run.
  split; [exact H|].
  exact (@customs_run_record sample_lib sample_isupper sample_upper
           customs_item_lines customs_item_record H).
Defined.
